(** * fastNLP checkpoint callbacks and the Jittor dataloader adapter

    A shallow embedding of
      - [fastNLP/core/callbacks/checkpoint_callback.py]
        ([CheckpointCallback], [ModelCheckpointCallback],
        [TrainerCheckpointCallback]) and
      - [fastNLP/core/dataloaders/jittor_dataloader/fdl.py]
        ([_JittorDataset], [JittorDataLoader]),
    followed by the properties of the checkpoint life cycle (construction,
    triggers, top-K retention, snapshot and restore) and of the
    dataloader.

    Python integers are [Z]; a metric value is a rational (every [int] and
    every finite [float] is one), an infinity or NaN, compared as Python
    compares floats; the arguments whose type [__init__] tests are values
    of several types; a Python [dict] is an insertion-ordered association
    list with unique keys; methods that mutate [self] or touch the file
    system live in a small state and exception monad over [machine]. *)

From Stdlib Require Import ZArith QArith List String Ascii Bool Lia.
From Stdlib Require Import DecimalString.
Import ListNotations.

Local Open Scope string_scope.
Local Open Scope list_scope.
Local Open Scope Z_scope.

(* ================================================================= *)
(** ** Python runtime: exceptions, results, strings *)

Inductive exn : Type :=
| ValueError (msg : string)
| KeyError (key : string)
| TypeError (msg : string)
| AssertionError (msg : string)
| NotADirectoryError (msg : string)
| AttributeError (msg : string)
| ZeroDivisionError.

Inductive res (A : Type) : Type :=
| Ok (a : A)
| Raise (e : exn).
Arguments Ok {A} a.
Arguments Raise {A} e.

Definition is_ok {A} (r : res A) : bool :=
  match r with Ok _ => true | Raise _ => false end.

(** An f-string is the concatenation of its pieces. *)
Definition fstring (parts : list string) : string := String.concat "" parts.

(** [str(n)] for a Python [int]. *)
Definition str_int (z : Z) : string := NilZero.string_of_int (Z.to_int z).

(** [str(x)] for an optional string: [None] prints as "None". *)
Definition str_opt (o : option string) : string :=
  match o with Some s => s | None => "None" end.

(** [a % b] on Python integers: floored, the sign follows the divisor. *)
Definition py_mod (a b : Z) : res Z :=
  if b =? 0 then Raise ZeroDivisionError else Ok (a mod b).

(** [sys.maxsize] of a 64-bit CPython. *)
Definition sys_maxsize : Z := 2 ^ 63 - 1.

(* ================================================================= *)
(** ** Python dictionaries *)

Module Dict.
Section Dict.
Context {V : Type}.

Definition dict : Type := list (string * V).

Definition keys (d : dict) : list string := map fst d.

Definition len (d : dict) : Z := Z.of_nat (List.length d).

(** [d[k]] (as [option]; the caller raises [KeyError] on [None]). *)
Fixpoint get (k : string) (d : dict) : option V :=
  match d with
  | [] => None
  | (k', v) :: d' => if String.eqb k k' then Some v else get k d'
  end.

Definition mem (k : string) (d : dict) : bool :=
  match get k d with Some _ => true | None => false end.

(** [d[k] = v]: an existing key keeps its position, a new key goes last. *)
Fixpoint set (k : string) (v : V) (d : dict) : dict :=
  match d with
  | [] => [(k, v)]
  | (k', v') :: d' =>
      if String.eqb k k' then (k', v) :: d' else (k', v') :: set k v d'
  end.

(** The mapping left by [d.pop(k)]. *)
Fixpoint remove (k : string) (d : dict) : dict :=
  match d with
  | [] => []
  | (k', v') :: d' =>
      if String.eqb k k' then d' else (k', v') :: remove k d'
  end.

(** [d.update(other)]: the items of [other] are stored in order. *)
Definition update (d other : dict) : dict :=
  fold_left (fun acc kv => set (fst kv) (snd kv) acc) other d.

(** [min(d, key=lambda x: d[x])] over the items in insertion order:
    the first item whose key value is not beaten; [lt a b] is [a < b]. *)
Fixpoint first_best (lt : V -> V -> bool) (best : string * V)
         (rest : dict) : string * V :=
  match rest with
  | [] => best
  | kv :: rest' =>
      first_best lt (if lt (snd kv) (snd best) then kv else best) rest'
  end.

Definition py_min (lt : V -> V -> bool) (d : dict) : res (string * V) :=
  match d with
  | [] => Raise (ValueError "min() arg is an empty sequence")
  | kv :: rest => Ok (first_best lt kv rest)
  end.

(** [max] keeps the first maximal item: it is [min] for the flipped order. *)
Definition py_max (lt : V -> V -> bool) (d : dict) : res (string * V) :=
  match d with
  | [] => Raise (ValueError "max() arg is an empty sequence")
  | kv :: rest => Ok (first_best (fun a b => lt b a) kv rest)
  end.
End Dict.
Arguments dict V : clear implicits.
End Dict.
Abbreviation dict := Dict.dict.

(* ================================================================= *)
(** ** Metric values *)

(** A Python number as it is compared: an [int] and a finite [float] are
    rationals; a [float] is also one of the two infinities or NaN. *)
Inductive pyfloat : Type :=
| Finite (q : Q)
| PosInf
| NegInf
| NaN.

Definition is_nan (x : pyfloat) : bool :=
  match x with NaN => true | _ => false end.

Definition Qltb (x y : Q) : bool :=
  (Qnum x * Zpos (Qden y) <? Qnum y * Zpos (Qden x))%Z.

(** [x < y] and [x == y] on numbers: false as soon as one side is NaN. *)
Definition float_lt (x y : pyfloat) : bool :=
  match x, y with
  | NaN, _ | _, NaN => false
  | Finite a, Finite b => Qltb a b
  | NegInf, NegInf => false
  | NegInf, _ => true
  | _, NegInf => false
  | PosInf, _ => false
  | _, PosInf => true
  end.

Definition float_eq (x y : pyfloat) : bool :=
  match x, y with
  | Finite a, Finite b => Qeq_bool a b
  | PosInf, PosInf => true
  | NegInf, NegInf => true
  | _, _ => false
  end.

(** A monitored value is a plain Python number or an object exposing a
    callable [item] (a 0-d tensor), which [CanItemDataType] recognises. *)
Inductive metric : Type :=
| Number (x : pyfloat)
| Item (x : pyfloat).

Definition metric_num (m : metric) : pyfloat :=
  match m with Number x => x | Item x => x end.

(** [isinstance(x, CanItemDataType)]: the class of [x] has a callable [item]. *)
Definition can_item (m : metric) : bool :=
  match m with Item _ => true | Number _ => false end.

(** [x.item()] *)
Definition item (m : metric) : metric := Number (metric_num m).

(** [a < b] and [a > b] on metric values. *)
Definition metric_lt (a b : metric) : bool :=
  float_lt (metric_num a) (metric_num b).
Definition metric_gt (a b : metric) : bool := metric_lt b a.

(** Modelled from the spec: [fastNLP.core.utils.apply_to_collection] is not
    among the sources; on a mapping it rebuilds the mapping with [function]
    applied to every value that is an instance of [dtype] (section 4.4:
    item-convertible values are unwrapped to plain numbers). *)
Definition apply_to_collection (d : dict metric) (dtype : metric -> bool)
           (function : metric -> metric) : dict metric :=
  map (fun kv => (fst kv, if dtype (snd kv) then function (snd kv) else snd kv)) d.

(* ================================================================= *)
(** ** Python classes (for [save_on_exception]) *)

Inductive pyclass : Type :=
| C_object
| C_int
| C_str
| C_BaseException
| C_KeyboardInterrupt
| C_Exception
| C_LookupError
| C_KeyError
| C_IndexError
| C_TypeError
| C_ValueError
| C_RuntimeError
| C_user (name : string) (base : pyclass).

Definition pyclass_eq_dec (a b : pyclass) : {a = b} + {a <> b}.
Proof. decide equality. apply string_dec. Defined.

Definition pyclass_eqb (a b : pyclass) : bool :=
  if pyclass_eq_dec a b then true else false.

(** The method resolution order of a class, itself first. *)
Fixpoint mro (c : pyclass) : list pyclass :=
  match c with
  | C_object => [C_object]
  | C_int => [C_int; C_object]
  | C_str => [C_str; C_object]
  | C_BaseException => [C_BaseException; C_object]
  | C_KeyboardInterrupt => [C_KeyboardInterrupt; C_BaseException; C_object]
  | C_Exception => [C_Exception; C_BaseException; C_object]
  | C_LookupError => [C_LookupError; C_Exception; C_BaseException; C_object]
  | C_KeyError =>
      [C_KeyError; C_LookupError; C_Exception; C_BaseException; C_object]
  | C_IndexError =>
      [C_IndexError; C_LookupError; C_Exception; C_BaseException; C_object]
  | C_TypeError => [C_TypeError; C_Exception; C_BaseException; C_object]
  | C_ValueError => [C_ValueError; C_Exception; C_BaseException; C_object]
  | C_RuntimeError => [C_RuntimeError; C_Exception; C_BaseException; C_object]
  | C_user _ base => c :: mro base
  end.

Definition issubclass (c d : pyclass) : bool := existsb (pyclass_eqb d) (mro c).

(** [cls.__name__] *)
Definition class_name (c : pyclass) : string :=
  match c with
  | C_object => "object"
  | C_int => "int"
  | C_str => "str"
  | C_BaseException => "BaseException"
  | C_KeyboardInterrupt => "KeyboardInterrupt"
  | C_Exception => "Exception"
  | C_LookupError => "LookupError"
  | C_KeyError => "KeyError"
  | C_IndexError => "IndexError"
  | C_TypeError => "TypeError"
  | C_ValueError => "ValueError"
  | C_RuntimeError => "RuntimeError"
  | C_user name _ => name
  end.

(** A raised exception object; [exception.__class__] is its concrete class. *)
Record exception : Type := { __class__ : pyclass }.

(** [x in xs] on a list of classes. *)
Definition class_in (c : pyclass) (cs : list pyclass) : bool :=
  existsb (pyclass_eqb c) cs.

(* ================================================================= *)
(** ** The world outside the callback: file system, trainer, logger *)

(** What a callback does to its surroundings, in the order it happens. *)
Inductive effect : Type :=
| Mkdir (path : string)
| SafeRm (path : string)
| TrainerSave (fn_name : string) (folder : string) (only_state_dict : bool)
| LogInfo (msg : string)
| LogWarning (msg : string).

Record world : Type := {
  cwd : string;
  launch_time : option string;  (* os.environ, key FASTNLP_LAUNCH_TIME *)
  fs_dirs : list string;
  fs_files : list string;
  trace : list effect
}.

Definition with_trace (w : world) (t : list effect) : world :=
  {| cwd := cwd w; launch_time := launch_time w; fs_dirs := fs_dirs w;
     fs_files := fs_files w; trace := t |}.

Definition with_fs (w : world) (dirs files : list string) : world :=
  {| cwd := cwd w; launch_time := launch_time w; fs_dirs := dirs;
     fs_files := files; trace := trace w |}.

Definition in_strs (p : string) (l : list string) : bool :=
  existsb (String.eqb p) l.

(** [os.path.exists(p)] and [Path.exists], [Path.is_file]. *)
Definition path_exists (w : world) (p : string) : bool :=
  in_strs p (fs_dirs w) || in_strs p (fs_files w).

Definition path_is_file (w : world) (p : string) : bool :=
  in_strs p (fs_files w).

Definition is_abs (p : string) : bool := String.prefix "/" p.

(** [Path.absolute] and [Path.joinpath]. *)
Definition absolute (w : world) (p : string) : string :=
  if is_abs p then p else fstring [cwd w; "/"; p].

Definition joinpath (p name : string) : string :=
  if is_abs name then name else fstring [p; "/"; name].

(** The trainer as the callbacks read it. *)
Record Trainer : Type := {
  cur_epoch_idx : Z;
  global_forward_batches : Z
}.

(* ================================================================= *)
(** ** The callback object *)

(** The two concrete strategies; the abstract base is never instantiated. *)
Inductive variant : Type := ModelCheckpoint | TrainerCheckpoint.

Record CheckpointCallback : Type := {
  kind : variant;
  monitor : option string;
  save_folder : string;
  save_every_n_epochs : Z;
  save_every_n_batches : Z;
  save_last : bool;
  save_topk : option Z;
  larger_better : bool;
  only_state_dict : bool;
  save_on_exception : list pyclass;
  _topk_model : dict metric;
  _topn : Z;
  _real_monitor : option string;
  timestamp_path : string
}.

Definition folder_prefix (self : CheckpointCallback) : string :=
  match kind self with
  | ModelCheckpoint => "model"
  | TrainerCheckpoint => "trainer"
  end.

Definition save_fn_name (self : CheckpointCallback) : string :=
  match kind self with
  | ModelCheckpoint => "save_model"
  | TrainerCheckpoint => "save"
  end.

Definition with_topk (self : CheckpointCallback) (d : dict metric) (n : Z)
  : CheckpointCallback :=
  {| kind := kind self; monitor := monitor self;
     save_folder := save_folder self;
     save_every_n_epochs := save_every_n_epochs self;
     save_every_n_batches := save_every_n_batches self;
     save_last := save_last self; save_topk := save_topk self;
     larger_better := larger_better self;
     only_state_dict := only_state_dict self;
     save_on_exception := save_on_exception self;
     _topk_model := d; _topn := n;
     _real_monitor := _real_monitor self;
     timestamp_path := timestamp_path self |}.

Definition with_real_monitor (self : CheckpointCallback) (m : option string)
  : CheckpointCallback :=
  {| kind := kind self; monitor := monitor self;
     save_folder := save_folder self;
     save_every_n_epochs := save_every_n_epochs self;
     save_every_n_batches := save_every_n_batches self;
     save_last := save_last self; save_topk := save_topk self;
     larger_better := larger_better self;
     only_state_dict := only_state_dict self;
     save_on_exception := save_on_exception self;
     _topk_model := _topk_model self; _topn := _topn self;
     _real_monitor := m;
     timestamp_path := timestamp_path self |}.

Definition with_timestamp_path (self : CheckpointCallback) (p : string)
  : CheckpointCallback :=
  {| kind := kind self; monitor := monitor self;
     save_folder := save_folder self;
     save_every_n_epochs := save_every_n_epochs self;
     save_every_n_batches := save_every_n_batches self;
     save_last := save_last self; save_topk := save_topk self;
     larger_better := larger_better self;
     only_state_dict := only_state_dict self;
     save_on_exception := save_on_exception self;
     _topk_model := _topk_model self; _topn := _topn self;
     _real_monitor := _real_monitor self;
     timestamp_path := p |}.

(* ================================================================= *)
(** ** Methods as state transformers that may raise *)

Record machine : Type := { self_of : CheckpointCallback; os : world }.

Definition M (A : Type) : Type := machine -> res A * machine.

Definition ret {A} (a : A) : M A := fun m => (Ok a, m).

Definition raise {A} (e : exn) : M A := fun m => (Raise e, m).

Definition bind {A B} (c : M A) (k : A -> M B) : M B :=
  fun m =>
    match c m with
    | (Ok a, m') => k a m'
    | (Raise e, m') => (Raise e, m')
    end.

Notation "x <- c ;; k" := (bind c (fun x => k))
  (at level 61, c at next level, right associativity).
Notation "c ;;; k" := (bind c (fun _ => k))
  (at level 61, right associativity).

Definition get_self : M CheckpointCallback := fun m => (Ok (self_of m), m).

Definition put_self (s : CheckpointCallback) : M unit :=
  fun m => (Ok tt, {| self_of := s; os := os m |}).

Definition get_os : M world := fun m => (Ok (os m), m).

Definition put_os (w : world) : M unit :=
  fun m => (Ok tt, {| self_of := self_of m; os := w |}).

Definition emitted (e : effect) (w : world) : world :=
  with_trace w (trace w ++ [e]).

Definition emit (e : effect) : M unit :=
  w <- get_os ;; put_os (emitted e w).

Definition lift {A} (r : res A) : M A := fun m => (r, m).

(** [assert cond, msg] *)
Definition assert (cond : bool) (msg : string) : M unit :=
  if cond then ret tt else raise (AssertionError msg).

(** [d[k]] raising [KeyError]. *)
Definition getitem {V} (d : dict V) (k : string) : M V :=
  match Dict.get k d with
  | Some v => ret v
  | None => raise (KeyError k)
  end.

Definition logger_info (msg : string) : M unit := emit (LogInfo msg).
Definition logger_warning (msg : string) : M unit := emit (LogWarning msg).

(** Modelled from the spec: [fastNLP.core.utils.synchronize_mkdir] is not
    among the sources; section 4.4 makes it an idempotent mkdir performed
    by the coordinating process. *)
Definition made_dir (path : string) (w : world) : world :=
  emitted (Mkdir path)
    (with_fs w (if in_strs path (fs_dirs w) then fs_dirs w
                else fs_dirs w ++ [path]) (fs_files w)).

Definition synchronize_mkdir (path : string) : M unit :=
  w <- get_os ;; put_os (made_dir path w).

Definition below (path p : string) : bool :=
  String.eqb path p || String.prefix (fstring [path; "/"]) p.

(** Modelled from the spec: [fastNLP.core.utils.synchronize_safe_rm] is not
    among the sources; sections 4.2 and 5 make it a best-effort delete of
    the directory that does not raise when the path is already absent. *)
Definition removed_dir (path : string) (w : world) : world :=
  emitted (SafeRm path)
    (with_fs w (filter (fun p => negb (below path p)) (fs_dirs w))
               (filter (fun p => negb (below path p)) (fs_files w))).

Definition synchronize_safe_rm (path : string) : M unit :=
  w <- get_os ;; put_os (removed_dir path w).

(* ================================================================= *)
(** ** [CheckpointCallback.__init__] *)

(** The values that the arguments whose type [__init__] tests may be
    given: [None], an [int], a [float], a [str] or a [pathlib.Path]. *)
Inductive pyval : Type :=
| PyNone
| PyInt (z : Z)
| PyFloat (x : pyfloat)
| PyStr (s : string)
| PyPath (p : string).

(** [v is None], [isinstance(v, str)] and [type(v).__name__]. *)
Definition is_None (v : pyval) : bool :=
  match v with PyNone => true | _ => false end.

Definition isinstance_str (v : pyval) : bool :=
  match v with PyStr _ => true | _ => false end.

Definition type_name (v : pyval) : string :=
  match v with
  | PyNone => "NoneType"
  | PyInt _ => "int"
  | PyFloat _ => "float"
  | PyStr _ => "str"
  | PyPath _ => "PosixPath"
  end.

Record init_args : Type := {
  arg_kind : variant;
  arg_monitor : pyval;
  arg_save_folder : pyval;
  arg_save_every_n_epochs : pyval;
  arg_save_every_n_batches : pyval;
  arg_save_last : bool;
  arg_save_topk : pyval;
  arg_save_on_exception : option (pyclass + list pyclass);
  arg_larger_better : bool;
  arg_only_state_dict : bool
}.

Definition is_some {A} (o : option A) : bool :=
  match o with Some _ => true | None => false end.

(** The monitor once it passed the test: a string or [None]. *)
Definition str_or_None (v : pyval) : option string :=
  match v with PyStr s => Some s | _ => None end.

(** An interval left at [None] becomes [sys.maxsize], so that no counter
    is a multiple of it; one that is given has to be an [int], at least 1. *)
Definition check_interval (v : pyval) (msg : string) : res Z :=
  match v with
  | PyNone => Ok sys_maxsize
  | PyInt n => if n <? 1 then Raise (ValueError msg) else Ok n
  | _ => Raise (ValueError msg)
  end.

Definition check_topk (v : pyval) : res (option Z) :=
  match v with
  | PyNone => Ok None
  | PyInt k =>
      if k <? 1
      then Raise (ValueError
             "parameter save_topk should be an int and greater than or equal to 1.")
      else Ok (Some k)
  | _ =>
      Raise (ValueError
        "parameter save_topk should be an int and greater than or equal to 1.")
  end.

Definition check_exceptions (o : option (pyclass + list pyclass))
  : res (list pyclass) :=
  match o with
  | Some arg =>
      let l := match arg with inl c => [c] | inr l => l end in
      if forallb (fun c => issubclass c C_BaseException) l then Ok l
      else Raise (TypeError
             "Each exception in parameter `save_on_exception` can only be `BaseException` type.")
  | None => Ok []
  end.

(** [save_folder] is used as a [Path] ([exists], [is_file]) before it is
    turned into one, so that any other value, a [str] too, ends in an
    [AttributeError]. *)
Definition __init__ (a : init_args) (w : world)
  : res CheckpointCallback * world :=
  if is_None (arg_monitor a) && negb (is_None (arg_save_topk a)) then
    (Raise (ValueError
       "Parameter `monitor` must be set when you want to use 'save_topk'."), w)
  else if negb (is_None (arg_monitor a))
          && negb (isinstance_str (arg_monitor a)) then
    (Raise (ValueError "Parameter `monitor` should be of 'str' type."), w)
  else
    let (save_folder, w1) :=
      match arg_save_folder a with
      | PyNone =>
          (PyPath (cwd w),
           emitted (LogWarning
             "Parameter `path` is None, and we will use the current work directory to find and load your model.") w)
      | v => (v, w)
      end in
    match save_folder with
    | PyNone | PyInt _ | PyFloat _ | PyStr _ =>
        (Raise (AttributeError
           (fstring ["'"; type_name save_folder;
                     "' object has no attribute 'exists'"])), w1)
    | PyPath folder =>
    if negb (path_exists w1 folder) then
      (Raise (NotADirectoryError
         (fstring ["Path '"; absolute w1 folder; "' is not existed!"])), w1)
    else if path_is_file w1 folder then
      (Raise (ValueError
         "Parameter `save_folder` should be a directory instead of a file."), w1)
    else
      match check_interval (arg_save_every_n_epochs a)
              "parameter save_after_epoch_num should be an int and greater than or equal to 1."
      with
      | Raise e => (Raise e, w1)
      | Ok n_epochs =>
      match check_interval (arg_save_every_n_batches a)
              "parameter save_every_n_batches should be an int and greater than or equal to 1."
      with
      | Raise e => (Raise e, w1)
      | Ok n_batches =>
      match check_topk (arg_save_topk a) with
      | Raise e => (Raise e, w1)
      | Ok topk =>
      match check_exceptions (arg_save_on_exception a) with
      | Raise e => (Raise e, w1)
      | Ok excs =>
      match launch_time w1 with
      | None => (Raise (KeyError "FASTNLP_LAUNCH_TIME"), w1)
      | Some stamp =>
          let ts := joinpath folder stamp in
          (Ok {| kind := arg_kind a;
                 monitor := str_or_None (arg_monitor a);
                 save_folder := folder;
                 save_every_n_epochs := n_epochs;
                 save_every_n_batches := n_batches;
                 save_last := arg_save_last a;
                 save_topk := topk;
                 larger_better := arg_larger_better a;
                 only_state_dict := arg_only_state_dict a;
                 save_on_exception := excs;
                 _topk_model := [];
                 _topn := 0;
                 _real_monitor := str_or_None (arg_monitor a);
                 timestamp_path := ts |},
           made_dir ts w1)
      end end end end end
    end.

(* ================================================================= *)
(** ** Saving and the periodic triggers *)

(** [save]: create the folder below the run directory, then hand it to the
    trainer's entry point named by [save_fn_name]. *)
Definition save (trainer : Trainer) (folder_name : string) : M unit :=
  self <- get_self ;;
  let folder := joinpath (timestamp_path self) folder_name in
  synchronize_mkdir folder ;;;
  emit (TrainerSave (save_fn_name self) folder (only_state_dict self)).

Definition on_train_epoch_end (trainer : Trainer) : M unit :=
  self <- get_self ;;
  r <- lift (py_mod (cur_epoch_idx trainer) (save_every_n_epochs self)) ;;
  (if r =? 0 then
     save trainer (fstring [folder_prefix self; "-epoch_";
                            str_int (cur_epoch_idx trainer)])
   else ret tt) ;;;
  (if save_last self then
     save trainer (fstring [folder_prefix self; "-last"])
   else ret tt).

Definition on_train_batch_end (trainer : Trainer) : M unit :=
  self <- get_self ;;
  r <- lift (py_mod (global_forward_batches trainer)
                    (save_every_n_batches self)) ;;
  if r =? 0 then
    save trainer (fstring [folder_prefix self; "-epoch_";
                           str_int (cur_epoch_idx trainer); "-batch_";
                           str_int (global_forward_batches trainer)])
  else ret tt.

Definition on_exception (trainer : Trainer) (exception : exception) : M unit :=
  self <- get_self ;;
  if class_in (__class__ exception) (save_on_exception self) then
    save trainer (fstring [folder_prefix self; "-epoch_";
                           str_int (cur_epoch_idx trainer); "-batch_";
                           str_int (global_forward_batches trainer);
                           "-exception_";
                           class_name (__class__ exception)])
  else ret tt.

(* ================================================================= *)
(** ** Snapshot and restore of the callback's own state *)

(** The values a state mapping holds. *)
Inductive state_val : Type :=
| S_None
| S_int (z : Z)
| S_str (s : string)
| S_topk (d : dict metric).

Definition of_opt_str (o : option string) : state_val :=
  match o with Some s => S_str s | None => S_None end.

Definition on_save_checkpoint (self : CheckpointCallback) (w : world)
  : dict state_val :=
  let states := [] in
  let states := Dict.set "timestamp_path"
                  (S_str (absolute w (timestamp_path self))) states in
  let states := Dict.set "_topk_model"
                  (S_topk (apply_to_collection (_topk_model self)
                             can_item item)) states in
  let states := Dict.set "save_topk"
                  (S_int (match save_topk self with
                          | None => 0
                          | Some k => k
                          end)) states in
  let states := Dict.set "_real_monitor"
                  (of_opt_str (_real_monitor self)) states in
  states.

(** [int(x)] on a stored value (a numeric string is not parsed here:
    [on_save_checkpoint] stores an [int]). *)
Definition py_int (v : state_val) : res Z :=
  match v with
  | S_int z => Ok z
  | S_str _ => Raise (ValueError "invalid literal for int() with base 10")
  | _ => Raise (TypeError "int() argument must be a string or a number")
  end.

(** The path argument of [os.path.exists] and [Path]: a string. *)
Definition as_path (v : state_val) : res string :=
  match v with
  | S_str p => Ok p
  | _ => Raise (TypeError "expected str, bytes or os.PathLike object")
  end.

(** The monitor slot holds a string or [None]; [_real_monitor] is typed so,
    and any other stored value is reported as a [TypeError]. *)
Definition as_monitor (v : state_val) : res (option string) :=
  match v with
  | S_str s => Ok (Some s)
  | S_None => Ok None
  | _ => Raise (TypeError "monitor should be of 'str' type")
  end.

Definition on_load_checkpoint (states : dict state_val) : M unit :=
  v <- getitem states "timestamp_path" ;;
  timestamp_path' <- lift (as_path v) ;;
  w <- get_os ;;
  (if negb (path_exists w timestamp_path') then
     self <- get_self ;;
     logger_info
       (fstring ["The resuming save folder "; timestamp_path';
                 " is not exists, will checkpoint save to ";
                 " "; absolute w (timestamp_path self); "."])
   else
     logger_info (fstring ["Resume to save in path: "; timestamp_path'; "."]) ;;;
     self <- get_self ;;
     put_self (with_timestamp_path self timestamp_path') ;;;
     _topk_model' <- getitem states "_topk_model" ;;
     v <- getitem states "save_topk" ;;
     n <- lift (py_int v) ;;
     let save_topk' := if n =? 0 then None else Some n in
     self <- get_self ;;
     match save_topk', save_topk self with
     | Some k', Some k =>
         assert (k =? k')
           (fstring ["The checkpoint set save_topk="; str_int k';
                     ", while this callback set it as "; str_int k'; "."])
     | _, _ => ret tt
     end ;;;
     self <- get_self ;;
     put_self (with_topk self
                 (Dict.update (_topk_model self) (_topk_model self))
                 (_topn self))) ;;;
  v <- getitem states "real_monitor" ;;
  real_monitor <- lift (as_monitor v) ;;
  self <- get_self ;;
  put_self (with_real_monitor self real_monitor).

(* ================================================================= *)
(** ** Top-K retention *)

Section TopK.

(** The result of a validation pass, and the two collaborators that are
    not among the sources: the monitor resolver
    [fastNLP.core.callbacks.utils._get_monitor_value], which returns the key
    it used and the value found or raises, and Python's formatting of a
    metric value inside an f-string. *)
Variable Res : Type.
Variable _get_monitor_value :
  option string -> option string -> Res -> res (option string * metric).
Variable format_metric : metric -> string.

Definition _get_validate_metric (validate_res : Res) : M metric :=
  self <- get_self ;;
  p <- lift (_get_monitor_value (monitor self) (_real_monitor self)
               validate_res) ;;
  put_self (with_real_monitor self (fst p)) ;;;
  ret (snd p).

(** The folder name of a top-K save point. *)
Definition topk_folder_name (self : CheckpointCallback) (trainer : Trainer)
           (_metric_value : metric) : string :=
  fstring [folder_prefix self; "-epoch_"; str_int (cur_epoch_idx trainer);
           "-batch_"; str_int (global_forward_batches trainer);
           "-"; str_opt (_real_monitor self); "_";
           format_metric _metric_value].

Definition _save_topk (trainer : Trainer) (validate_res : Res) : M unit :=
  self <- get_self ;;
  match save_topk self with
  | None => ret tt
  | Some k =>
      _metric_value <- _get_validate_metric validate_res ;;
      self <- get_self ;;
      let folder_name := topk_folder_name self trainer _metric_value in
      _should_save <-
        (if _topn self <? k then
           put_self (with_topk self
                       (Dict.set folder_name _metric_value (_topk_model self))
                       (_topn self + 1)) ;;;
           ret true
         else
           _least_valuable_model <-
             lift ((if larger_better self then Dict.py_min else Dict.py_max)
                     metric_lt (_topk_model self)) ;;
           _should_save <-
             (if (larger_better self
                  && metric_gt _metric_value (snd _least_valuable_model))
                 || (negb (larger_better self)
                     && metric_lt _metric_value (snd _least_valuable_model))
              then
                put_self (with_topk self
                            (Dict.remove (fst _least_valuable_model)
                               (Dict.set folder_name _metric_value
                                  (_topk_model self)))
                            (_topn self)) ;;;
                synchronize_safe_rm
                  (joinpath (timestamp_path self)
                     (fst _least_valuable_model)) ;;;
                ret true
              else ret false) ;;
           self <- get_self ;;
           assert ((Dict.len (_topk_model self) =? k) && (k =? _topn self))
             "len(self._topk_model) == self.save_topk == self._topn" ;;;
           ret _should_save) ;;
      if _should_save : bool then save trainer folder_name else ret tt
  end.

Definition on_validate_end (trainer : Trainer) (validate_res : Res) : M unit :=
  _save_topk trainer validate_res.

(** A training run as the callback sees it: one validation after another,
    until one of them raises. *)
Fixpoint validations (evs : list (Trainer * Res)) : M unit :=
  match evs with
  | [] => ret tt
  | ev :: evs' => on_validate_end (fst ev) (snd ev) ;;; validations evs'
  end.

End TopK.

(* ================================================================= *)
(** ** Reading the retention engine's run *)

Section TopKSpec.

Variable Res : Type.
Variable _get_monitor_value :
  option string -> option string -> Res -> res (option string * metric).
Variable format_metric : metric -> string.

(** The candidates (folder name and metric value) that a run of
    validations presents to the engine, in the order seen; the run ends
    at the first validation whose monitor cannot be resolved. *)
Fixpoint candidates (self : CheckpointCallback) (evs : list (Trainer * Res))
  : dict metric :=
  match evs with
  | [] => []
  | ev :: evs' =>
      match _get_monitor_value (monitor self) (_real_monitor self) (snd ev) with
      | Ok p =>
          let self' := with_real_monitor self (fst p) in
          (topk_folder_name format_metric self' (fst ev) (snd p), snd p)
            :: candidates self' evs'
      | Raise _ => []
      end
  end.

End TopKSpec.

(** The order of the numbers, read off the number line: the infinities
    lie at its two ends, and NaN is not on it. *)
Definition num_le (x y : pyfloat) : Prop :=
  match x, y with
  | NaN, _ | _, NaN => False
  | Finite a, Finite b => (a <= b)%Q
  | NegInf, _ => True
  | _, PosInf => True
  | _, _ => False
  end.

Definition num_lt (x y : pyfloat) : Prop :=
  match x, y with
  | NaN, _ | _, NaN => False
  | Finite a, Finite b => (a < b)%Q
  | NegInf, NegInf => False
  | NegInf, _ => True
  | PosInf, _ => False
  | _, PosInf => True
  | _, _ => False
  end.

Definition value_le (x y : string * metric) : Prop :=
  num_le (metric_num (snd x)) (metric_num (snd y)).

Definition value_lt (x y : string * metric) : Prop :=
  num_lt (metric_num (snd x)) (metric_num (snd y)).

(** An entry whose value is a number, not NaN. *)
Definition a_number (x : string * metric) : Prop :=
  is_nan (metric_num (snd x)) = false.

(** [l] is the first entry of least value of [d], in insertion order:
    every entry before it is worth strictly more, no entry after it is
    worth less. *)
Definition first_least (l : string * metric) (d : dict metric) : Prop :=
  exists pre post,
    d = pre ++ l :: post
    /\ (forall x, In x pre -> value_lt l x)
    /\ (forall y, In y post -> value_le l y).

(** [retained] holds the [K] largest values of [seen] (all of them while
    fewer than [K] were seen): its entries are entries of [seen], under
    distinct names, and no entry left out is worth more than one kept. *)
Record keeps_largest (K : Z) (seen retained : dict metric) : Prop := {
  kept_unique : NoDup (Dict.keys retained);
  kept_seen : incl retained seen;
  kept_size : Dict.len retained = Z.min (Dict.len seen) K;
  kept_best : forall x y,
      In x seen -> ~ In x retained -> In y retained -> value_le x y
}.

(** The top-K of the testable property, in its words: by numeric value,
    ties broken by first-seen.  The entry at position [i] is outranked by
    every entry of larger value and by every earlier entry of equal
    value; it is retained when fewer than [K] entries outrank it. *)
Definition outranks (j : nat) (vj : metric) (i : nat) (vi : metric) : bool :=
  metric_gt vj vi
  || (float_eq (metric_num vj) (metric_num vi) && (j <? i)%nat).

Definition indexed (seen : dict metric) : list (nat * (string * metric)) :=
  combine (seq 0 (List.length seen)) seen.

Definition rank_of (seen : dict metric) (i : nat) (vi : metric) : Z :=
  Z.of_nat (List.length
              (filter (fun jx => outranks (fst jx) (snd (snd jx)) i vi)
                      (indexed seen))).

Definition topk_first_seen (K : Z) (seen : dict metric) : dict metric :=
  map snd (filter (fun ix => rank_of seen (fst ix) (snd (snd ix)) <? K)
                  (indexed seen)).

(** The least valuable retained entry, as [_save_topk] picks it. *)
Definition least_valuable (self : CheckpointCallback)
  : res (string * metric) :=
  (if larger_better self then Dict.py_min else Dict.py_max)
    metric_lt (_topk_model self).

(** Counting the saves and the deletions a run has performed. *)
Definition is_save (e : effect) : bool :=
  match e with TrainerSave _ _ _ => true | _ => false end.

Definition is_rm (e : effect) : bool :=
  match e with SafeRm _ => true | _ => false end.

Definition count (p : effect -> bool) (t : list effect) : Z :=
  Z.of_nat (List.length (filter p t)).

Definition admissions (m : machine) : Z := count is_save (trace (os m)).
Definition evictions (m : machine) : Z := count is_rm (trace (os m)).

(** The folders handed to the trainer's save entry point, oldest first. *)
Definition saved_folders (t : list effect) : list string :=
  flat_map (fun e => match e with
                     | TrainerSave _ folder _ => [folder]
                     | _ => []
                     end) t.

(** The effects of one [save] call. *)
Definition save_effects (self : CheckpointCallback) (folder_name : string)
  : list effect :=
  [Mkdir (joinpath (timestamp_path self) folder_name);
   TrainerSave (save_fn_name self)
     (joinpath (timestamp_path self) folder_name) (only_state_dict self)].

(** The world after one [save] call. *)
Definition saved (self : CheckpointCallback) (folder_name : string)
           (w : world) : world :=
  emitted (TrainerSave (save_fn_name self)
             (joinpath (timestamp_path self) folder_name)
             (only_state_dict self))
          (made_dir (joinpath (timestamp_path self) folder_name) w).

(** The folder names of the periodic triggers. *)
Definition epoch_folder (self : CheckpointCallback) (e : Z) : string :=
  fstring [folder_prefix self; "-epoch_"; str_int e].

Definition last_folder (self : CheckpointCallback) : string :=
  fstring [folder_prefix self; "-last"].

Definition exception_folder (self : CheckpointCallback) (t : Trainer)
           (c : pyclass) : string :=
  fstring [folder_prefix self; "-epoch_"; str_int (cur_epoch_idx t);
           "-batch_"; str_int (global_forward_batches t);
           "-exception_"; class_name c].

(** What the end of an epoch is to do: the epoch save when the index is a
    multiple of the interval, then the last save when enabled. *)
Definition epoch_save_effects (self : CheckpointCallback) (t : Trainer)
  : list effect :=
  if cur_epoch_idx t mod save_every_n_epochs self =? 0
  then save_effects self (epoch_folder self (cur_epoch_idx t)) else [].

Definition last_save_effects (self : CheckpointCallback) : list effect :=
  if save_last self then save_effects self (last_folder self) else [].

(** A sequence of end-of-epoch, respectively end-of-batch, events. *)
Fixpoint epoch_ends (ts : list Trainer) : M unit :=
  match ts with
  | [] => ret tt
  | t :: ts' => on_train_epoch_end t ;;; epoch_ends ts'
  end.

Fixpoint batch_ends (ts : list Trainer) : M unit :=
  match ts with
  | [] => ret tt
  | t :: ts' => on_train_batch_end t ;;; batch_ends ts'
  end.

(** Modelled from the spec: the training loop is not among the sources; in
    scenario A it ends its epochs with the epoch index running over
    1, 2, ..., n (here with [b] batches to the epoch). *)
Definition epoch_indices (n : nat) : list Z := map Z.of_nat (seq 1 n).

Definition at_epoch (b e : Z) : Trainer :=
  {| cur_epoch_idx := e; global_forward_batches := e * b |}.

Definition run_epochs (b : Z) (n : nat) : M unit :=
  epoch_ends (map (at_epoch b) (epoch_indices n)).

(** The counters a run can reach at the end of an epoch or a batch: they
    were incremented at least once and stay below [sys.maxsize]. *)
Definition reachable_counter (c : Z) : Prop := 0 < c < sys_maxsize.

(** The world after the end of an epoch. *)
Definition epoch_end_world (self : CheckpointCallback) (t : Trainer)
           (w : world) : world :=
  let w1 := if cur_epoch_idx t mod save_every_n_epochs self =? 0
            then saved self (epoch_folder self (cur_epoch_idx t)) w else w in
  if save_last self then saved self (last_folder self) w1 else w1.

(** Whether a candidate value is strictly better than a retained one, in
    the configured direction. *)
Definition strictly_better (self : CheckpointCallback) (v other : metric)
  : bool :=
  (larger_better self && metric_gt v other)
  || (negb (larger_better self) && metric_lt v other).

(** The check at the end of the branch taken once the mapping is full. *)
Definition width_holds (K : Z) (d : dict metric) (n : Z) : bool :=
  (Dict.len d =? K) && (K =? n).

(** The engine's bookkeeping measured against the saves and deletions
    performed since a point where [a0] saves and [e0] deletions had been
    made: the count is the number of admissions capped at [K], and every
    admission beyond the cap came with one deletion. *)
Definition width_kept (K a0 : Z) (m : machine) : Prop :=
  save_topk (self_of m) = Some K
  /\ Dict.len (_topk_model (self_of m)) <= _topn (self_of m) <= K
  /\ _topn (self_of m) = Z.min (admissions m - a0) K.

Definition counts_agree (K a0 e0 : Z) (m : machine) : Prop :=
  width_kept K a0 m
  /\ evictions m - e0 = admissions m - a0 - _topn (self_of m).

(** Two callbacks that name and resolve their candidates alike. *)
Definition same_naming (s1 s2 : CheckpointCallback) : Prop :=
  kind s1 = kind s2 /\ monitor s1 = monitor s2
  /\ _real_monitor s1 = _real_monitor s2.

(* ================================================================= *)
(** ** [JittorDataLoader]: reaching the Collator behind [collate_fn] *)

Module Jittor.
Section Loader.

(** The state of a fastNLP [Collator] and its two setters live in
    [fastNLP.core.collators], which is not among the sources: they are
    parameters here, the setters updating the collator they are called on. *)
Variable Collator : Type.
Variable PadArgs : Type.
Variable FieldNames : Type.
Variable collator_set_pad : Collator -> PadArgs -> Collator.
Variable collator_set_ignore : Collator -> FieldNames -> Collator.

(** Objects are reached through references into a store.  Of a callable
    only two things matter: whether it is a [Collator] instance, and its
    [__wrapped__] attribute when it has one. *)
Definition ref : Type := nat.

Record object : Type := {
  as_collator : option Collator;
  __wrapped__ : option ref
}.

Definition store : Type := list (ref * object).

Fixpoint deref (r : ref) (h : store) : option object :=
  match h with
  | [] => None
  | (r', o) :: h' => if Nat.eqb r r' then Some o else deref r h'
  end.

Fixpoint assign (r : ref) (o : object) (h : store) : store :=
  match h with
  | [] => []
  | (r', o') :: h' =>
      if Nat.eqb r r' then (r', o) :: h' else (r', o') :: assign r o h'
  end.

(** [isinstance(x, Collator)] for the object behind a reference. *)
Definition isinstance_Collator (r : ref) (h : store) : bool :=
  match deref r h with
  | Some o => is_some (as_collator o)
  | None => false
  end.

(** [hasattr(x, '__wrapped__')] and [x.__wrapped__]. *)
Definition wrapped_of (r : ref) (h : store) : option ref :=
  match deref r h with
  | Some o => __wrapped__ o
  | None => None
  end.

Record JittorDataLoader : Type := {
  collate_fn : ref;
  cur_batch_indices : option (list Z)
}.

Definition _get_collator (self : JittorDataLoader) (h : store) : option ref :=
  let collator := None in
  match wrapped_of (collate_fn self) h with
  | Some inner =>
      if isinstance_Collator inner h then Some inner
      else if isinstance_Collator (collate_fn self) h
           then Some (collate_fn self) else collator
  | None =>
      if isinstance_Collator (collate_fn self) h
      then Some (collate_fn self) else collator
  end.

(** A method call on the collator behind [r]: the object is updated in
    place, every alias sees it. *)
Definition call_on (r : ref) (f : Collator -> Collator) (h : store) : store :=
  match deref r h with
  | Some o =>
      match as_collator o with
      | Some c =>
          assign r {| as_collator := Some (f c);
                      __wrapped__ := __wrapped__ o |} h
      | None => h
      end
  | None => h
  end.

Definition set_pad (self : JittorDataLoader) (args : PadArgs) (h : store)
  : res ref * store :=
  match _get_collator self h with
  | Some collator =>
      if isinstance_Collator collator h then
        (Ok collator, call_on collator (fun c => collator_set_pad c args) h)
      else
        (Raise (ValueError
           "Only when the collate_fn is a fastNLP Collator, set_pad() is allowed."), h)
  | None =>
      (Raise (ValueError
         "Only when the collate_fn is a fastNLP Collator, set_pad() is allowed."), h)
  end.

Definition set_ignore (self : JittorDataLoader) (field_names : FieldNames)
           (h : store) : res ref * store :=
  match _get_collator self h with
  | Some collator =>
      if isinstance_Collator collator h then
        (Ok collator,
         call_on collator (fun c => collator_set_ignore c field_names) h)
      else
        (Raise (ValueError
           "Only when the collate_fn is a fastNLP Collator, set_ignore() is allowed."), h)
  | None =>
      (Raise (ValueError
         "Only when the collate_fn is a fastNLP Collator, set_ignore() is allowed."), h)
  end.

(** The configured [collate_fn] is a Collator, or a wrapper exposing one
    through [__wrapped__]. *)
Definition reaches_collator (self : JittorDataLoader) (h : store) : bool :=
  isinstance_Collator (collate_fn self) h
  || match wrapped_of (collate_fn self) h with
     | Some inner => isinstance_Collator inner h
     | None => false
     end.

(** The Collator that [collate_fn] stands for. *)
Definition underlying (self : JittorDataLoader) (h : store) : ref :=
  match wrapped_of (collate_fn self) h with
  | Some inner =>
      if isinstance_Collator inner h then inner else collate_fn self
  | None => collate_fn self
  end.

End Loader.

Arguments deref {Collator} r h.
Arguments assign {Collator} r o h.
Arguments isinstance_Collator {Collator} r h.
Arguments wrapped_of {Collator} r h.
Arguments _get_collator {Collator} self h.
Arguments call_on {Collator} r f h.
Arguments set_pad {Collator PadArgs} collator_set_pad self args h.
Arguments set_ignore {Collator FieldNames} collator_set_ignore
  self field_names h.
Arguments reaches_collator {Collator} self h.
Arguments underlying {Collator} self h.
End Jittor.

(* ================================================================= *)
(** ** Concrete surroundings for the evaluated scenarios *)

(** A rendering of a metric value (numerator#denominator for a rational),
    standing for Python's formatting where a scenario is evaluated. *)
Definition show_metric (m : metric) : string :=
  match metric_num m with
  | Finite q => fstring [str_int (Qnum q); "#"; str_int (Zpos (Qden q))]
  | PosInf => "inf"
  | NegInf => "-inf"
  | NaN => "nan"
  end.

(** A resolver for results that carry the monitor under its exact name. *)
Definition exact_monitor_value (monitor real_monitor : option string)
           (validate_res : dict metric) : res (option string * metric) :=
  match monitor with
  | None => Raise (ValueError "monitor is not set")
  | Some name =>
      match Dict.get name validate_res with
      | Some v => Ok (Some name, v)
      | None => Raise (ValueError "monitor not found in the results")
      end
  end.

(** A process started at [stamp] with the save root [/ckpt] on disk,
    together with the run directories in [runs]. *)
Definition process (stamp : string) (runs : list string) : world :=
  {| cwd := "/work"; launch_time := Some stamp;
     fs_dirs := "/ckpt" :: runs; fs_files := []; trace := [] |}.

(** An optional [int] as an argument. *)
Definition int_or_None (o : option Z) : pyval :=
  match o with Some n => PyInt n | None => PyNone end.

Definition model_args (every_n_epochs : option Z) (last : bool)
           (topk : option Z) (allow : option (pyclass + list pyclass))
  : init_args :=
  {| arg_kind := ModelCheckpoint;
     arg_monitor := PyStr "acc";
     arg_save_folder := PyPath "/ckpt";
     arg_save_every_n_epochs := int_or_None every_n_epochs;
     arg_save_every_n_batches := PyNone;
     arg_save_last := last;
     arg_save_topk := int_or_None topk;
     arg_save_on_exception := allow;
     arg_larger_better := true;
     arg_only_state_dict := true |}.

(** The machine right after a successful construction. *)
Definition started (a : init_args) (w : world) : option machine :=
  match __init__ a w with
  | (Ok self, w') => Some {| self_of := self; os := w' |}
  | (Raise _, _) => None
  end.

(** A validation at the end of batch [b] of epoch [e] reporting [acc]. *)
Definition reporting (e b : Z) (acc : pyfloat) : Trainer * dict metric :=
  ({| cur_epoch_idx := e; global_forward_batches := b |},
   [("acc", Number acc)]).

Definition validation (e b : Z) (acc : Q) : Trainer * dict metric :=
  reporting e b (Finite acc).

Definition run_validations (evs : list (Trainer * dict metric)) : M unit :=
  validations (dict metric) exact_monitor_value show_metric evs.

Definition seen_candidates (self : CheckpointCallback)
           (evs : list (Trainer * dict metric)) : dict metric :=
  candidates (dict metric) exact_monitor_value show_metric self evs.

(** The first run, [run-A], keeps the two best of its validations; a
    later process finds its directory on disk or not. *)
Definition run_A : world := process "run-A" [].
Definition resumed_with_dir : world := process "run-B" ["/ckpt/run-A"].
Definition resumed_without_dir : world := process "run-B" [].

Definition top2_args : init_args := model_args None true (Some 2) None.

(** States as a restore reads them: the monitor under [real_monitor]. *)
Definition states_of_width (recorded : Z) : dict state_val :=
  [("timestamp_path", S_str "/ckpt/run-A");
   ("_topk_model",
    S_topk [("model-epoch_1-batch_10-acc_9#10", Number (Finite 0.9))]);
   ("save_topk", S_int recorded);
   ("real_monitor", S_str "accuracy")].

(* ================================================================= *)
(** ** Reading the constructor and the restore *)

(** The folder the constructor works in: the given one, or the current
    working directory. *)
Definition chosen_folder (a : init_args) (w : world) : string :=
  match arg_save_folder a with
  | PyPath p => p
  | _ => cwd w
  end.

(** [None], or an [int] that is at least 1. *)
Definition at_least_one (v : pyval) : bool :=
  match v with
  | PyNone => true
  | PyInt n => 1 <=? n
  | _ => false
  end.

Definition None_or_str (v : pyval) : bool :=
  match v with PyNone | PyStr _ => true | _ => false end.

Definition None_or_Path (v : pyval) : bool :=
  match v with PyNone | PyPath _ => true | _ => false end.

Definition only_exceptions (o : option (pyclass + list pyclass)) : bool :=
  match o with
  | Some (inl c) => issubclass c C_BaseException
  | Some (inr l) => forallb (fun c => issubclass c C_BaseException) l
  | None => true
  end.

(** The arguments and surroundings that [__init__] accepts. *)
Definition valid_args (a : init_args) (w : world) : bool :=
  (negb (is_None (arg_monitor a)) || is_None (arg_save_topk a))
  && None_or_str (arg_monitor a)
  && None_or_Path (arg_save_folder a)
  && path_exists w (chosen_folder a w)
  && negb (path_is_file w (chosen_folder a w))
  && at_least_one (arg_save_every_n_epochs a)
  && at_least_one (arg_save_every_n_batches a)
  && at_least_one (arg_save_topk a)
  && only_exceptions (arg_save_on_exception a)
  && is_some (launch_time w).

(** The allow-list the constructor stores: a single class stands for the
    list holding it. *)
Definition allow_list (o : option (pyclass + list pyclass)) : list pyclass :=
  match o with
  | Some (inl c) => [c]
  | Some (inr l) => l
  | None => []
  end.

(** The world the constructor starts from once the folder is chosen. *)
Definition warned (a : init_args) (w : world) : world :=
  match arg_save_folder a with
  | PyNone =>
      emitted (LogWarning
        "Parameter `path` is None, and we will use the current work directory to find and load your model.") w
  | _ => w
  end.

(** The folder name of the batch trigger. *)
Definition batch_folder (self : CheckpointCallback) (t : Trainer) : string :=
  fstring [folder_prefix self; "-epoch_"; str_int (cur_epoch_idx t);
           "-batch_"; str_int (global_forward_batches t)].

Definition batch_save_effects (self : CheckpointCallback) (t : Trainer)
  : list effect :=
  if global_forward_batches t mod save_every_n_batches self =? 0
  then save_effects self (batch_folder self t) else [].

(** The two messages of a restore. *)
Definition fallback_message (recorded current : string) : string :=
  fstring ["The resuming save folder "; recorded;
           " is not exists, will checkpoint save to ";
           " "; current; "."].

Definition resume_message (recorded : string) : string :=
  fstring ["Resume to save in path: "; recorded; "."].

(* ================================================================= *)
(** ** Reading the retention engine in either direction *)

(** [x] is worth no more than [y]: by value when larger is better, the
    other way round when smaller is better. *)
Definition worth_le (larger : bool) (x y : string * metric) : Prop :=
  if larger then value_le x y else value_le y x.

(** [retained] holds the [K] best entries of [seen] in the given direction
    (all of them while fewer than [K] were seen). *)
Record keeps_best (larger : bool) (K : Z) (seen retained : dict metric)
  : Prop := {
  best_unique : NoDup (Dict.keys retained);
  best_seen : incl retained seen;
  best_size : Dict.len retained = Z.min (Dict.len seen) K;
  best_kept : forall x y,
      In x seen -> ~ In x retained -> In y retained -> worth_le larger x y
}.


(** The mapping after storing the candidates [cs] one after the other. *)
Definition filled (d cs : dict metric) : dict metric :=
  fold_left (fun acc kv => Dict.set (fst kv) (snd kv) acc) cs d.


(* ================================================================= *)
(** ** The rest of the callback and of the dataloader *)

(** [str(b)] and [str(o)] for an optional integer. *)
Definition str_bool (b : bool) : string := if b then "True" else "False".

Definition str_opt_int (o : option Z) : string :=
  match o with Some z => str_int z | None => "None" end.

(** [callback_name] of the two strategies: it decides whether two
    callbacks may share a resumed state. *)
Definition callback_name (self : CheckpointCallback) : string :=
  fstring [match kind self with
           | ModelCheckpoint => "model_checkpoint"
           | TrainerCheckpoint => "trainer_checkpoint"
           end;
           "#monitor-"; str_opt (monitor self);
           "#topK-"; str_opt_int (save_topk self);
           "#only_state_dict-"; str_bool (only_state_dict self)].

Module JittorLoader.
Section Loader.

(** As in [Jittor], the Collator is a parameter; here also the Collator
    that [Collator(backend="jittor")] builds and the update that
    [set_backend(backend="jittor")] makes. *)
Variable Collator : Type.
Variable jittor_collator : Collator.
Variable collator_set_backend : Collator -> Collator.

(** The Collator state behind a reference, when it is one. *)
Definition collator_at (r : Jittor.ref) (h : Jittor.store Collator)
  : option Collator :=
  match Jittor.deref r h with
  | Some o => Jittor.as_collator Collator o
  | None => None
  end.

(** A reference that the store does not hold yet, and the allocation of a
    new object under it. *)
Definition fresh (h : Jittor.store Collator) : Jittor.ref :=
  S (fold_right (fun ro => Nat.max (fst ro)) O h).

Definition alloc (o : Jittor.object Collator) (h : Jittor.store Collator)
  : Jittor.ref * Jittor.store Collator :=
  (fresh h, h ++ [(fresh h, o)]).

(** The dataset handed to the dataloader, with jittor importable: a
    fastNLP [DataSet] (which has a [collator]), an instance of jittor's
    [Dataset], an instance of the wrapper [_JittorDataset] itself, or any
    other object; [ds_len] is [len(dataset)] when there is a [__len__]. *)
Inductive dataset_kind : Type :=
| FastNLPDataSet (collator : Jittor.ref)
| JittorDataset
| WrappedDataset
| OtherDataset.

Record dataset : Type := {
  ds_kind : dataset_kind;
  ds_len : option Z
}.

(** [isinstance(dataset, Dataset)] for jittor's [Dataset], which
    [_JittorDataset] derives from, [isinstance(dataset, FDataSet)] and
    [isinstance(dataset, _JittorDataset)]. *)
Definition is_jittor_Dataset (d : dataset) : bool :=
  match ds_kind d with
  | JittorDataset | WrappedDataset => true
  | _ => false
  end.

Definition is_FDataSet (d : dataset) : bool :=
  match ds_kind d with FastNLPDataSet _ => true | _ => false end.

Definition is_wrapper (d : dataset) : bool :=
  match ds_kind d with WrappedDataset => true | _ => false end.

(** [_JittorDataset]: the wrapped dataset and its length. *)
Record _JittorDataset : Type := {
  inner : dataset;
  total_len : Z
}.

(** [_JittorDataset.__init__] *)
Definition wrap (d : dataset) : res _JittorDataset :=
  match ds_len d with
  | Some n => Ok {| inner := d; total_len := n |}
  | None => Raise (TypeError "object has no len()")
  end.

(** [_JittorDataset.__getitem__]: the index comes back with the item. *)
Definition wrapper_getitem {Item : Type} (getitem : Z -> res Item) (item : Z)
  : res (Z * Item) :=
  match getitem item with
  | Ok x => Ok (item, x)
  | Raise e => Raise e
  end.

(** The [collate_fn] argument: [None], a string, a callable object, or
    anything else. *)
Inductive collate_arg : Type :=
| CollateNone
| CollateStr (s : string)
| CollateCallable (f : Jittor.ref)
| CollateOther.

(** The keyword arguments of the constructor that go to [set_attrs]. *)
Record loader_attrs : Type := {
  batch_size : Z;
  shuffle : bool;
  drop_last : bool;
  num_workers : Z;
  buffer_size : Z;
  stop_grad : bool;
  keep_numpy_array : bool;
  endless : bool
}.

(** The calls made on jittor datasets, in order: [set_attrs(batch_size=1)]
    on the argument, [set_attrs] with the loader's settings on the
    wrapper, and [set_attrs(collate_batch=...)] with the wrapped
    [collate_fn] at the start of an iteration. *)
Inductive call : Type :=
| ArgumentBatchSizeOne
| WrapperAttrs (a : loader_attrs)
| WrapperCollate (collate_fn : Jittor.ref).

Record loader : Type := {
  base : Jittor.JittorDataLoader;
  wrapped : _JittorDataset
}.

Definition no_dataset {A} : res A :=
  Raise (AttributeError
           "'JittorDataLoader' object has no attribute 'dataset'").

(** [JittorDataLoader.__init__]; [collate_batch] is jittor's default
    collate function, an object of the store. *)
Definition __init__ (collate_batch : Jittor.ref) (d : dataset)
           (attrs : loader_attrs) (collate_fn : collate_arg)
           (h : Jittor.store Collator)
  : res loader * Jittor.store Collator * list call :=
  let calls := if is_jittor_Dataset d then [ArgumentBatchSizeOne] else [] in
  if is_FDataSet d && match collate_fn with CollateNone => true | _ => false end
  then (Raise (ValueError
                 "When use FastNLP DataSet, collate_fn must be not None"),
        h, calls)
  else
    match (if is_wrapper d then Ok None
           else match wrap d with
                | Ok w => Ok (Some w)
                | Raise e => Raise e
                end) with
    | Raise e => (Raise e, h, calls)
    | Ok self_dataset =>
        let chosen : res Jittor.ref * Jittor.store Collator :=
          match collate_fn with
          | CollateStr s =>
              if String.eqb s "auto" then
                match self_dataset with
                | None => (no_dataset, h)
                | Some w =>
                    match ds_kind (inner w) with
                    | FastNLPDataSet c =>
                        (Ok c, Jittor.call_on c collator_set_backend h)
                    | _ =>
                        let (r, h') :=
                          alloc {| Jittor.as_collator := Some jittor_collator;
                                   Jittor.__wrapped__ := None |} h in
                        (Ok r, h')
                    end
                end
              else (Raise (ValueError
                             (fstring ["collate_fn: "; s; " must be 'auto'"])),
                    h)
          | CollateCallable f => (Ok f, h)
          | _ => (Ok collate_batch, h)
          end in
        match chosen with
        | (Raise e, h') => (Raise e, h', calls)
        | (Ok f, h') =>
            match self_dataset with
            | None => (no_dataset, h', calls)
            | Some w =>
                (Ok {| base := {| Jittor.collate_fn := f;
                                  Jittor.cur_batch_indices := None |};
                       wrapped := w |},
                 h', calls ++ [WrapperAttrs attrs])
            end
        end
    end.

(** [get_batch_indices] *)
Definition get_batch_indices (self : loader) : option (list Z) :=
  Jittor.cur_batch_indices (base self).

End Loader.

Section Iteration.

(** What the wrapped jittor dataset yields: batches of indices and
    collated data. *)
Variable Data : Type.

Definition with_indices (self : loader) (indices : list Z) : loader :=
  {| base := {| Jittor.collate_fn := Jittor.collate_fn (base self);
                Jittor.cur_batch_indices := Some indices |};
     wrapped := wrapped self |}.

(** [dl.collate_fn = f] *)
Definition with_collate_fn (self : loader) (f : Jittor.ref) : loader :=
  {| base := {| Jittor.collate_fn := f;
                Jittor.cur_batch_indices :=
                  Jittor.cur_batch_indices (base self) |};
     wrapped := wrapped self |}.

(** The generator that [__iter__] returns: its body has not started, or
    it is suspended at the [yield] with the batches still to come, or it
    has returned. *)
Inductive generator : Type :=
| NotStarted (batches : list (list Z * Data))
| Suspended (rest : list (list Z * Data))
| Returned.

Definition resume (rest : list (list Z * Data)) (self : loader)
           (calls : list call)
  : option Data * generator * loader * list call :=
  match rest with
  | [] => (None, Returned, self, calls)
  | (indices, data) :: rest' =>
      (Some data, Suspended rest', with_indices self indices, calls)
  end.

(** [next(g)]: [None] stands for [StopIteration]. *)
Definition next (g : generator) (self : loader)
  : option Data * generator * loader * list call :=
  match g with
  | NotStarted batches =>
      resume batches self
        (match Jittor.cur_batch_indices (base self) with
         | None => [WrapperCollate (Jittor.collate_fn (base self))]
         | Some _ => []
         end)
  | Suspended rest => resume rest self []
  | Returned => (None, Returned, self, [])
  end.

(** Up to [k] calls of [next], stopping at [StopIteration]. *)
Fixpoint nexts (k : nat) (g : generator) (self : loader)
  : list Data * generator * loader * list call :=
  match k with
  | O => ([], g, self, [])
  | S k' =>
      match next g self with
      | (Some data, g', self', calls) =>
          let '(rest, g'', self'', calls') := nexts k' g' self' in
          (data :: rest, g'', self'', calls ++ calls')
      | (None, g', self', calls) => ([], g', self', calls)
      end
  end.

End Iteration.

Arguments collator_at {Collator} r h.
Arguments fresh {Collator} h.
Arguments alloc {Collator} o h.
Arguments __init__ {Collator} jittor_collator collator_set_backend
  collate_batch d attrs collate_fn h.
Arguments NotStarted {Data} batches.
Arguments Suspended {Data} rest.
Arguments Returned {Data}.
Arguments next {Data} g self.
Arguments nexts {Data} k g self.
End JittorLoader.

(** The arguments that [JittorDataLoader.__init__] accepts. *)
Definition loader_args_ok (d : JittorLoader.dataset)
           (collate_fn : JittorLoader.collate_arg) : bool :=
  negb (JittorLoader.is_wrapper d)
  && is_some (JittorLoader.ds_len d)
  && negb (JittorLoader.is_FDataSet d
           && match collate_fn with
              | JittorLoader.CollateNone => true
              | _ => false
              end)
  && match collate_fn with
     | JittorLoader.CollateStr s => String.eqb s "auto"
     | _ => true
     end.

(** A plain function: not a Collator, and without [__wrapped__]. *)
Definition plain_function {Collator : Type} (r : Jittor.ref)
           (h : Jittor.store Collator) : Prop :=
  Jittor.isinstance_Collator r h = false /\ Jittor.wrapped_of r h = None.

Section SanityCheck.

Variable Res : Type.
Variable _get_monitor_value :
  option string -> option string -> Res -> res (option string * metric).

(** [on_sanity_check_end]: only checks that the monitor can be found. *)
Definition on_sanity_check_end (sanity_check_res : Res) : M unit :=
  _get_validate_metric Res _get_monitor_value sanity_check_res ;;; ret tt.

End SanityCheck.

(** A Collator that remembers the calls made on it, for the evaluated
    dataloader scenarios. *)
Definition recorded_set_pad (c : list string) (field_name : string)
  : list string := c ++ [fstring ["set_pad "; field_name]].

Definition recorded_set_ignore (c : list string) (field_names : list string)
  : list string := c ++ [fstring ("set_ignore" :: field_names)].

Definition recorded_set_backend (c : list string) : list string :=
  c ++ ["set_backend jittor"].

(** A store with the Collator of a fastNLP DataSet under 0, a wrapper
    around it under 1 and jittor's [collate_batch] under 2. *)
Definition demo_store : Jittor.store (list string) :=
  [(0%nat, {| Jittor.as_collator := Some ["backend=auto"];
              Jittor.__wrapped__ := None |});
   (1%nat, {| Jittor.as_collator := None; Jittor.__wrapped__ := Some 0%nat |});
   (2%nat, {| Jittor.as_collator := None; Jittor.__wrapped__ := None |})].

Definition demo_attrs : JittorLoader.loader_attrs :=
  {| JittorLoader.batch_size := 16; JittorLoader.shuffle := false;
     JittorLoader.drop_last := false; JittorLoader.num_workers := 0;
     JittorLoader.buffer_size := 512 * 1024 * 1024;
     JittorLoader.stop_grad := true; JittorLoader.keep_numpy_array := false;
     JittorLoader.endless := false |}.

Definition fast_dataset : JittorLoader.dataset :=
  {| JittorLoader.ds_kind := JittorLoader.FastNLPDataSet 0%nat;
     JittorLoader.ds_len := Some 100 |}.

Definition list_dataset : JittorLoader.dataset :=
  {| JittorLoader.ds_kind := JittorLoader.OtherDataset;
     JittorLoader.ds_len := Some 100 |}.

(** The bookkeeping of the engine after the candidates [seen], whatever
    their values: the count has followed, and the mapping holds
    [min(seen, K)] of them under distinct names. *)
Definition shaped (K : Z) (seen : dict metric) (m : machine) : Prop :=
  save_topk (self_of m) = Some K
  /\ _topn (self_of m) = Z.min (Dict.len seen) K
  /\ NoDup (Dict.keys (_topk_model (self_of m)))
  /\ incl (_topk_model (self_of m)) seen
  /\ Dict.len (_topk_model (self_of m)) = Z.min (Dict.len seen) K.

(* ================================================================= *)
(** * Properties *)

Arguments fstring : simpl never.
Arguments str_int : simpl never.
Arguments joinpath : simpl never.
Arguments absolute : simpl never.

(** ** Running the monad *)

Lemma bind_ok {A B} (c : M A) (k : A -> M B) (m m' : machine) (a : A) :
  c m = (Ok a, m') -> bind c k m = k a m'.
Proof. intros H. unfold bind. now rewrite H. Qed.

Lemma bind_raise {A B} (c : M A) (k : A -> M B) (m m' : machine) (e : exn) :
  c m = (Raise e, m') -> bind c k m = (Raise e, m').
Proof. intros H. unfold bind. now rewrite H. Qed.

Lemma save_run (t : Trainer) (folder_name : string) (m : machine) :
  save t folder_name m
  = (Ok tt, {| self_of := self_of m;
               os := saved (self_of m) folder_name (os m) |}).
Proof. reflexivity. Qed.

Lemma trace_saved (self : CheckpointCallback) (name : string) (w : world) :
  trace (saved self name w) = trace w ++ save_effects self name.
Proof. unfold saved, save_effects. simpl. now rewrite <- app_assoc. Qed.

Lemma class_in_In (c : pyclass) (cs : list pyclass) :
  class_in c cs = true <-> In c cs.
Proof.
  unfold class_in. rewrite existsb_exists. split.
  - intros [x [Hx Heq]]. unfold pyclass_eqb in Heq.
    destruct (pyclass_eq_dec c x); [now subst | discriminate].
  - intros H. exists c. split; [exact H |].
    unfold pyclass_eqb. now destruct (pyclass_eq_dec c c).
Qed.

Lemma saved_changes (self : CheckpointCallback) (name : string) (m : machine) :
  m <> {| self_of := self_of m; os := saved self name (os m) |}.
Proof.
  intros H. apply (f_equal (fun x => List.length (trace (os x)))) in H.
  cbn [os self_of] in H. rewrite trace_saved, length_app in H.
  unfold save_effects in H. cbn [List.length] in H. lia.
Qed.

Lemma saved_folders_app (t1 t2 : list effect) :
  saved_folders (t1 ++ t2) = saved_folders t1 ++ saved_folders t2.
Proof. unfold saved_folders. apply flat_map_app. Qed.

(** ** The exception trigger *)

(** C4. [on_exception] never raises; it performs a save exactly when the
    concrete class of the raised exception is a member of
    [save_on_exception], and otherwise leaves everything as it was.  With
    the allow-list [KeyError], a [KeyError] saves, while neither a
    [TypeError] nor an instance of a subclass of [KeyError] does. *)
Theorem on_exception_exact_class :
  (forall (t : Trainer) (e : exception) (m : machine),
      let self := self_of m in
      let r := on_exception t e m in
      fst r = Ok tt
      /\ (In (__class__ e) (save_on_exception self) <->
          snd r = {| self_of := self;
                     os := saved self (exception_folder self t (__class__ e))
                             (os m) |})
      /\ (~ In (__class__ e) (save_on_exception self) <-> snd r = m))
  /\ (forall (t : Trainer) (m : machine) (sub : string),
        save_on_exception (self_of m) = [C_KeyError] ->
        issubclass (C_user sub C_KeyError) C_KeyError = true
        /\ saved_folders (trace (os (snd (on_exception t
                                            {| __class__ := C_KeyError |} m))))
           = saved_folders (trace (os m))
             ++ [joinpath (timestamp_path (self_of m))
                   (exception_folder (self_of m) t C_KeyError)]
        /\ snd (on_exception t {| __class__ := C_TypeError |} m) = m
        /\ snd (on_exception t {| __class__ := C_user sub C_KeyError |} m) = m).
Proof.
  split.
  - intros t e m self r. subst r self. unfold on_exception.
    rewrite (bind_ok _ _ m m (self_of m)) by reflexivity.
    fold (exception_folder (self_of m) t (__class__ e)).
    destruct (class_in (__class__ e) (save_on_exception (self_of m))) eqn:Hin.
    + rewrite save_run. simpl. apply class_in_In in Hin.
      repeat split; auto.
      * intros Hn. contradiction.
      * intros Heq. exfalso. eapply saved_changes. symmetry. exact Heq.
    + assert (Hn : ~ In (__class__ e) (save_on_exception (self_of m))).
      { intros H. apply class_in_In in H. congruence. }
      simpl. repeat split; auto.
      * intros H. contradiction.
      * intros Heq. exfalso. eapply saved_changes. exact Heq.
  - intros t m sub Hallow. unfold on_exception.
    rewrite !(bind_ok _ _ m m (self_of m)) by reflexivity.
    rewrite Hallow. split; [reflexivity |]. split; [| split].
    + replace (class_in _ _) with true by reflexivity.
      rewrite save_run. cbn [snd os].
      rewrite trace_saved, saved_folders_app. reflexivity.
    + replace (class_in _ _) with false by reflexivity. reflexivity.
    + replace (class_in _ _) with false by reflexivity. reflexivity.
Qed.

(** ** The periodic triggers *)

Lemma trace_epoch_end_world (self : CheckpointCallback) (t : Trainer)
      (w : world) :
  trace (epoch_end_world self t w)
  = trace w ++ epoch_save_effects self t ++ last_save_effects self.
Proof.
  unfold epoch_end_world, epoch_save_effects, last_save_effects.
  destruct (cur_epoch_idx t mod save_every_n_epochs self =? 0),
    (save_last self);
    rewrite ?trace_saved, ?app_nil_r, <- ?app_assoc; reflexivity.
Qed.

Lemma on_train_epoch_end_run (t : Trainer) (m : machine) :
  save_every_n_epochs (self_of m) <> 0 ->
  on_train_epoch_end t m
  = (Ok tt, {| self_of := self_of m;
               os := epoch_end_world (self_of m) t (os m) |}).
Proof.
  intros Hn. unfold on_train_epoch_end, epoch_end_world, py_mod.
  rewrite (bind_ok _ _ m m (self_of m)) by reflexivity.
  apply Z.eqb_neq in Hn. rewrite Hn.
  rewrite (bind_ok _ _ m m (cur_epoch_idx t mod save_every_n_epochs (self_of m)))
    by reflexivity.
  fold (epoch_folder (self_of m) (cur_epoch_idx t)).
  fold (last_folder (self_of m)).
  destruct m as [self w]. cbn [self_of os].
  destruct (cur_epoch_idx t mod save_every_n_epochs self =? 0),
    (save_last self); reflexivity.
Qed.

Lemma epoch_ends_run (ts : list Trainer) (m : machine) :
  save_every_n_epochs (self_of m) <> 0 ->
  epoch_ends ts m
  = (Ok tt, {| self_of := self_of m;
               os := fold_left (fun w t => epoch_end_world (self_of m) t w)
                       ts (os m) |}).
Proof.
  revert m. induction ts as [| t ts IH]; intros m Hn.
  - now destruct m.
  - cbn [epoch_ends fold_left].
    erewrite bind_ok by (apply on_train_epoch_end_run; exact Hn).
    rewrite IH by exact Hn. reflexivity.
Qed.

Lemma trace_epoch_ends (self : CheckpointCallback) (ts : list Trainer)
      (w : world) :
  trace (fold_left (fun w t => epoch_end_world self t w) ts w)
  = trace w
    ++ flat_map (fun t => epoch_save_effects self t ++ last_save_effects self)
         ts.
Proof.
  revert w. induction ts as [| t ts IH]; intros w; cbn [fold_left flat_map].
  - now rewrite app_nil_r.
  - rewrite IH, trace_epoch_end_world, <- !app_assoc. reflexivity.
Qed.

(** C5. At the end of an epoch the callback never raises and performs, in
    this order, the epoch save exactly when the epoch index is a multiple
    of [save_every_n_epochs] and the last save exactly when [save_last] is
    set, independently of each other; the same holds along a whole run.
    With an interval of 2 the epoch saves of a 5-epoch run are those of
    epochs 2 and 4 (the last save comes with every epoch when enabled). *)
Theorem epoch_end_saves (m : machine) :
  1 <= save_every_n_epochs (self_of m) ->
  let self := self_of m in
  (forall t : Trainer,
      let r := on_train_epoch_end t m in
      fst r = Ok tt /\ self_of (snd r) = self
      /\ trace (os (snd r))
         = trace (os m)
           ++ (if cur_epoch_idx t mod save_every_n_epochs self =? 0
               then save_effects self (epoch_folder self (cur_epoch_idx t))
               else [])
           ++ (if save_last self
               then save_effects self (last_folder self) else []))
  /\ (forall ts : list Trainer,
         let r := epoch_ends ts m in
         fst r = Ok tt
         /\ trace (os (snd r))
            = trace (os m)
              ++ flat_map (fun t => epoch_save_effects self t
                                    ++ last_save_effects self) ts)
  /\ (save_every_n_epochs self = 2 ->
      forall b : Z,
        let last := if save_last self
                    then [joinpath (timestamp_path self) (last_folder self)]
                    else [] in
        saved_folders (trace (os (snd (run_epochs b 5 m))))
        = saved_folders (trace (os m))
          ++ last
          ++ [joinpath (timestamp_path self) (epoch_folder self 2)] ++ last
          ++ last
          ++ [joinpath (timestamp_path self) (epoch_folder self 4)] ++ last
          ++ last).
Proof.
  intros Hn self.
  assert (Hn0 : save_every_n_epochs (self_of m) <> 0) by lia.
  split; [| split].
  - intros t r. subst r. rewrite on_train_epoch_end_run by exact Hn0.
    cbn [fst snd self_of os]. rewrite trace_epoch_end_world.
    repeat split.
  - intros ts r. subst r. rewrite epoch_ends_run by exact Hn0.
    cbn [fst snd self_of os]. rewrite trace_epoch_ends. repeat split.
  - intros H2 b last. unfold run_epochs.
    rewrite epoch_ends_run by exact Hn0. cbn [snd os].
    rewrite trace_epoch_ends, saved_folders_app. f_equal.
    unfold epoch_indices. cbn [seq map flat_map].
    unfold epoch_save_effects, last_save_effects. fold self. rewrite H2.
    subst last. cbn [at_epoch cur_epoch_idx].
    destruct (save_last self); reflexivity.
Qed.

(** ** What the constructor establishes *)

Lemma check_interval_ok (v : pyval) (msg : string) (n : Z) :
  check_interval v msg = Ok n ->
  1 <= n
  /\ (v = PyNone /\ n = sys_maxsize \/ v = PyInt n).
Proof.
  unfold check_interval. destruct v as [| k | | |]; try discriminate.
  - intros H. injection H as <-. split; [| now left].
    unfold sys_maxsize. lia.
  - destruct (k <? 1) eqn:Hk; [discriminate |].
    intros H. injection H as <-. apply Z.ltb_ge in Hk. split; [exact Hk |].
    now right.
Qed.

Lemma check_topk_ok (v : pyval) (o' : option Z) :
  check_topk v = Ok o' ->
  v = int_or_None o' /\ forall k, o' = Some k -> 1 <= k.
Proof.
  unfold check_topk. destruct v as [| k | | |]; try discriminate.
  - intros H. injection H as <-. split; [reflexivity | discriminate].
  - destruct (k <? 1) eqn:Hk; [discriminate |].
    intros H. injection H as <-. apply Z.ltb_ge in Hk. split; [reflexivity |].
    intros k' Hk'. now injection Hk' as <-.
Qed.

Lemma init_ok (a : init_args) (w w' : world) (self : CheckpointCallback) :
  __init__ a w = (Ok self, w') ->
  kind self = arg_kind a
  /\ monitor self = str_or_None (arg_monitor a)
  /\ (1 <= save_every_n_epochs self
      /\ (arg_save_every_n_epochs a = PyNone
          /\ save_every_n_epochs self = sys_maxsize
          \/ arg_save_every_n_epochs a = PyInt (save_every_n_epochs self)))
  /\ (1 <= save_every_n_batches self
      /\ (arg_save_every_n_batches a = PyNone
          /\ save_every_n_batches self = sys_maxsize
          \/ arg_save_every_n_batches a = PyInt (save_every_n_batches self)))
  /\ save_last self = arg_save_last a
  /\ (arg_save_topk a = int_or_None (save_topk self)
      /\ forall k, save_topk self = Some k -> 1 <= k)
  /\ larger_better self = arg_larger_better a
  /\ _topk_model self = []
  /\ _topn self = 0
  /\ _real_monitor self = str_or_None (arg_monitor a).
Proof.
  unfold __init__.
  destruct (is_None (arg_monitor a) && negb (is_None (arg_save_topk a)));
    [discriminate |].
  destruct (negb (is_None (arg_monitor a))
            && negb (isinstance_str (arg_monitor a))); [discriminate |].
  destruct (match arg_save_folder a with
            | PyNone => _
            | _ => _
            end) as [[| | | | folder] w1]; try discriminate.
  destruct (negb (path_exists w1 folder)); [discriminate |].
  destruct (path_is_file w1 folder); [discriminate |].
  destruct (check_interval (arg_save_every_n_epochs a) _) as [ne |] eqn:He;
    [| discriminate].
  destruct (check_interval (arg_save_every_n_batches a) _) as [nb |] eqn:Hb;
    [| discriminate].
  destruct (check_topk (arg_save_topk a)) as [k |] eqn:Hk; [| discriminate].
  destruct (check_exceptions (arg_save_on_exception a)) as [ex |];
    [| discriminate].
  destruct (launch_time w1); [| discriminate].
  intros H. injection H as <- _. cbn.
  apply check_interval_ok in He, Hb. apply check_topk_ok in Hk.
  tauto.
Qed.

Lemma on_train_batch_end_idle (t : Trainer) (m : machine) :
  save_every_n_batches (self_of m) <> 0 ->
  global_forward_batches t mod save_every_n_batches (self_of m) <> 0 ->
  on_train_batch_end t m = (Ok tt, m).
Proof.
  intros Hn Hr. unfold on_train_batch_end, py_mod.
  rewrite (bind_ok _ _ m m (self_of m)) by reflexivity.
  apply Z.eqb_neq in Hn. rewrite Hn.
  rewrite (bind_ok _ _ m m
             (global_forward_batches t mod save_every_n_batches (self_of m)))
    by reflexivity.
  apply Z.eqb_neq in Hr. now rewrite Hr.
Qed.

Lemma sentinel_never_divides (c : Z) :
  reachable_counter c -> c mod sys_maxsize <> 0.
Proof.
  unfold reachable_counter. intros H. rewrite Z.mod_small; lia.
Qed.

(** C6. A callback constructed without [save_every_n_epochs] (respectively
    [save_every_n_batches]) holds [sys.maxsize] in its place; no counter
    that a run reaches is a multiple of it, so along every sequence of
    end-of-epoch events nothing but the last save happens, along every
    sequence of end-of-batch events nothing happens at all, and neither
    raises. *)
Theorem unconfigured_interval_is_dormant
        (a : init_args) (w w' : world) (self : CheckpointCallback) :
  __init__ a w = (Ok self, w') ->
  (arg_save_every_n_epochs a = PyNone ->
   save_every_n_epochs self = sys_maxsize
   /\ forall (ts : list Trainer) (w0 : world),
       Forall (fun t => reachable_counter (cur_epoch_idx t)) ts ->
       let r := epoch_ends ts {| self_of := self; os := w0 |} in
       fst r = Ok tt /\ self_of (snd r) = self
       /\ Forall (fun t => cur_epoch_idx t mod save_every_n_epochs self <> 0) ts
       /\ trace (os (snd r))
          = trace w0 ++ flat_map (fun _ => last_save_effects self) ts)
  /\ (arg_save_every_n_batches a = PyNone ->
      save_every_n_batches self = sys_maxsize
      /\ forall (ts : list Trainer) (w0 : world),
          Forall (fun t => reachable_counter (global_forward_batches t)) ts ->
          Forall (fun t => global_forward_batches t
                           mod save_every_n_batches self <> 0) ts
          /\ batch_ends ts {| self_of := self; os := w0 |}
             = (Ok tt, {| self_of := self; os := w0 |})).
Proof.
  intros Hinit.
  destruct (init_ok _ _ _ _ Hinit)
    as (_ & _ & [He1 He] & [Hb1 Hb] & _).
  split.
  - intros Hnone. rewrite Hnone in He.
    destruct He as [[_ He] | He]; [| discriminate]. split; [exact He |].
    intros ts w0 Hts r. subst r.
    rewrite epoch_ends_run by (cbn [self_of]; lia).
    cbn [fst snd self_of os]. rewrite trace_epoch_ends.
    assert (Hdiv : Forall (fun t => cur_epoch_idx t
                                    mod save_every_n_epochs self <> 0) ts).
    { rewrite He. eapply Forall_impl; [| exact Hts].
      intros t Ht. now apply sentinel_never_divides. }
    repeat split; [exact Hdiv |]. f_equal.
    clear Hts. induction Hdiv as [| t ts Ht _ IH]; [reflexivity |].
    cbn [flat_map]. rewrite IH. f_equal.
    unfold epoch_save_effects. apply Z.eqb_neq in Ht. now rewrite Ht.
  - intros Hnone. rewrite Hnone in Hb.
    destruct Hb as [[_ Hb] | Hb]; [| discriminate]. split; [exact Hb |].
    intros ts w0 Hts.
    assert (Hdiv : Forall (fun t => global_forward_batches t
                                    mod save_every_n_batches self <> 0) ts).
    { rewrite Hb. eapply Forall_impl; [| exact Hts].
      intros t Ht. now apply sentinel_never_divides. }
    split; [exact Hdiv |].
    clear Hts. induction Hdiv as [| t ts Ht _ IH]; [reflexivity |].
    cbn [batch_ends].
    erewrite bind_ok; [exact IH |].
    apply on_train_batch_end_idle; cbn [self_of]; [lia | exact Ht].
Qed.

(** ** Snapshot and restore *)

Ltac run_monad :=
  cbv [bind getitem lift get_os get_self put_self put_os
       logger_info emit assert ret raise].

Lemma unwrapped_topk (d : dict metric) :
  apply_to_collection d can_item item
  = map (fun kv => (fst kv, Number (metric_num (snd kv)))) d.
Proof.
  unfold apply_to_collection. apply map_ext. intros [k [q | q]]; reflexivity.
Qed.

(** C9 (as the code has it). The mapping returned by [on_save_checkpoint]
    is flat and has exactly the keys [timestamp_path] (the absolute run
    directory, a string), [_topk_model] (the retention mapping from folder
    name to value, every value unwrapped to a plain number), [save_topk]
    (an integer, 0 when unset) and [_real_monitor] (the resolved monitor
    name, a string, or [None] while there is none), in this order. *)
Theorem snapshot_layout (self : CheckpointCallback) (w : world) :
  let states := on_save_checkpoint self w in
  Dict.keys states
  = ["timestamp_path"; "_topk_model"; "save_topk"; "_real_monitor"]
  /\ Dict.get "timestamp_path" states
     = Some (S_str (absolute w (timestamp_path self)))
  /\ (exists d,
         Dict.get "_topk_model" states = Some (S_topk d)
         /\ Dict.keys d = Dict.keys (_topk_model self)
         /\ map (fun kv => metric_num (snd kv)) d
            = map (fun kv => metric_num (snd kv)) (_topk_model self)
         /\ Forall (fun kv => can_item (snd kv) = false) d)
  /\ Dict.get "save_topk" states
     = Some (S_int (match save_topk self with Some k => k | None => 0 end))
  /\ Dict.get "_real_monitor" states
     = Some (match _real_monitor self with
             | Some name => S_str name
             | None => S_None
             end).
Proof.
  cbv zeta. unfold on_save_checkpoint. cbn [Dict.set Dict.keys Dict.get map fst
    String.eqb Ascii.eqb Bool.eqb andb].
  split; [reflexivity |]. split; [reflexivity |]. split; [| split].
  - exists (apply_to_collection (_topk_model self) can_item item).
    split; [reflexivity |]. rewrite unwrapped_topk. unfold Dict.keys.
    rewrite !map_map. split; [reflexivity |]. split; [reflexivity |].
    apply Forall_forall. intros kv Hin. apply in_map_iff in Hin.
    destruct Hin as [x [<- _]]. reflexivity.
  - reflexivity.
  - now destruct (_real_monitor self).
Qed.

(** C7 (as the code has it). When the recorded run directory still exists
    and the state records a top-K width (not 0) that differs from the
    width this callback was configured with, [on_load_checkpoint] raises
    (the assertion, when the state carries [_topk_model]) and leaves the
    width, the retention mapping, its count and the pinned monitor as they
    were. *)
Theorem restore_rejects_other_width
        (states : dict state_val) (m : machine) (p : string)
        (recorded k : Z) :
  Dict.get "timestamp_path" states = Some (S_str p) ->
  path_exists (os m) p = true ->
  Dict.get "save_topk" states = Some (S_int recorded) ->
  recorded <> 0 ->
  save_topk (self_of m) = Some k ->
  k <> recorded ->
  let r := on_load_checkpoint states m in
  (exists e, fst r = Raise e
             /\ (Dict.mem "_topk_model" states = true ->
                 exists msg, e = AssertionError msg))
  /\ save_topk (self_of (snd r)) = Some k
  /\ _topk_model (self_of (snd r)) = _topk_model (self_of m)
  /\ _topn (self_of (snd r)) = _topn (self_of m)
  /\ _real_monitor (self_of (snd r)) = _real_monitor (self_of m).
Proof.
  intros Hts Hex Hrec Hnz Hk Hne r. subst r.
  unfold on_load_checkpoint. run_monad. rewrite Hts. cbn [as_path].
  rewrite Hex. cbn [negb]. unfold Dict.mem.
  destruct (Dict.get "_topk_model" states) as [d |].
  - rewrite Hrec. cbn [py_int].
    apply Z.eqb_neq in Hnz. rewrite Hnz. cbn [self_of save_topk with_timestamp_path].
    rewrite Hk. apply Z.eqb_neq in Hne. rewrite Hne.
    cbn. repeat split; eauto.
  - cbn. repeat split; eauto. exists (KeyError "_topk_model").
    split; [reflexivity | discriminate].
Qed.

(** C2 (what the code does). Restoring the snapshot of any callback into
    a fresh callback of the same width raises [KeyError]: the snapshot
    stores the monitor under [_real_monitor], the restore reads
    [real_monitor].  The retention mapping of the fresh callback is still
    empty and its monitor is not re-pinned. *)
Theorem snapshot_restore_raises
        (self : CheckpointCallback) (w : world) (m : machine) :
  save_topk (self_of m) = save_topk self ->
  _topk_model (self_of m) = [] ->
  let r := on_load_checkpoint (on_save_checkpoint self w) m in
  fst r = Raise (KeyError "real_monitor")
  /\ _topk_model (self_of (snd r)) = []
  /\ _real_monitor (self_of (snd r)) = _real_monitor (self_of m).
Proof.
  intros Hk Hd r. subst r.
  unfold on_load_checkpoint, on_save_checkpoint. run_monad.
  cbn [Dict.set Dict.get String.eqb Ascii.eqb Bool.eqb andb as_path py_int].
  destruct (path_exists (os m) (absolute w (timestamp_path self))).
  - cbn [negb self_of save_topk with_timestamp_path]. rewrite Hk.
    destruct (save_topk self) as [k |].
    + destruct (k =? 0) eqn:Hz; [| rewrite Z.eqb_refl];
        cbn; rewrite Hd; repeat split.
    + cbn. rewrite Hd. repeat split.
  - cbn. rewrite Hd. repeat split.
Qed.

(** The round trip at a concrete run: [run-A] keeps two validations and is
    snapshotted; a fresh process with the same arguments, [run-A]'s
    directory still on disk, restores the snapshot. *)
Lemma snapshot_restore_raises_witness :
  exists mA mB : machine,
    started top2_args run_A = Some mA
    /\ started top2_args resumed_with_dir = Some mB
    /\ let mA' := snd (run_validations
                         [validation 1 10 0.5; validation 2 20 0.7] mA) in
       let states := on_save_checkpoint (self_of mA') (os mA') in
       Dict.keys (_topk_model (self_of mA'))
       = ["model-epoch_1-batch_10-acc_5#10"; "model-epoch_2-batch_20-acc_7#10"]
       /\ path_exists (os mB) "/ckpt/run-A" = true
       /\ fst (on_load_checkpoint states mB) = Raise (KeyError "real_monitor")
       /\ _topk_model (self_of (snd (on_load_checkpoint states mB))) = []
       /\ _real_monitor (self_of (snd (on_load_checkpoint states mB)))
          = _real_monitor (self_of mB).
Proof.
  eexists. eexists.
  split; [vm_compute; reflexivity |].
  split; [vm_compute; reflexivity |].
  cbv zeta.
  split; [vm_compute; reflexivity |].
  split; [vm_compute; reflexivity |].
  apply snapshot_restore_raises; vm_compute; reflexivity.
Defined.

(** C8 (what the code does). With the recorded directory gone, a restore
    from a snapshot logs the fallback, keeps the fresh run directory and
    then raises [KeyError]; it returns only for states that carry the
    monitor under [real_monitor].  With the directory present and such
    states, the directory is adopted and the monitor re-pinned, but the
    recorded retention entry is not merged: the mapping stays empty. *)
Theorem restore_does_not_merge :
  exists mA mB mC : machine,
    started top2_args run_A = Some mA
    /\ started top2_args resumed_without_dir = Some mB
    /\ started top2_args resumed_with_dir = Some mC
    /\ (let r := on_load_checkpoint
                   (on_save_checkpoint (self_of mA) (os mA)) mB in
        fst r = Raise (KeyError "real_monitor")
        /\ timestamp_path (self_of (snd r)) = "/ckpt/run-B"
        /\ trace (os (snd r))
           = trace (os mB)
             ++ [LogInfo
                   "The resuming save folder /ckpt/run-A is not exists, will checkpoint save to  /ckpt/run-B."])
    /\ (let r := on_load_checkpoint (states_of_width 2) mB in
        fst r = Ok tt
        /\ timestamp_path (self_of (snd r)) = "/ckpt/run-B"
        /\ _real_monitor (self_of (snd r)) = Some "accuracy")
    /\ (let r := on_load_checkpoint (states_of_width 2) mC in
        fst r = Ok tt
        /\ timestamp_path (self_of (snd r)) = "/ckpt/run-A"
        /\ _real_monitor (self_of (snd r)) = Some "accuracy"
        /\ Dict.get "_topk_model" (states_of_width 2)
           = Some (S_topk [("model-epoch_1-batch_10-acc_9#10", Number (Finite 0.9))])
        /\ _topk_model (self_of (snd r)) = []
        /\ _topn (self_of (snd r)) = 0).
Proof.
  do 3 eexists.
  split; [vm_compute; reflexivity |].
  split; [vm_compute; reflexivity |].
  split; [vm_compute; reflexivity |].
  cbv zeta. repeat split; vm_compute; reflexivity.
Qed.

(** The claim of C7 as it is worded fails when the recorded directory is
    gone: the state records width 3, the callback is configured with 2,
    and the restore returns normally, the width still 2. *)
Lemma restore_ignores_width_without_dir :
  exists m : machine,
    started top2_args resumed_without_dir = Some m
    /\ Dict.get "save_topk" (states_of_width 3) = Some (S_int 3)
    /\ save_topk (self_of m) = Some 2
    /\ fst (on_load_checkpoint (states_of_width 3) m) = Ok tt
    /\ save_topk (self_of (snd (on_load_checkpoint (states_of_width 3) m)))
       = Some 2.
Proof.
  eexists. split; [vm_compute; reflexivity |].
  repeat split; vm_compute; reflexivity.
Qed.

Lemma restore_rejects_other_width_witness :
  exists m : machine,
    started top2_args resumed_with_dir = Some m
    /\ let r := on_load_checkpoint (states_of_width 3) m in
       (exists e, fst r = Raise e
                  /\ (Dict.mem "_topk_model" (states_of_width 3) = true ->
                      exists msg, e = AssertionError msg))
       /\ save_topk (self_of (snd r)) = Some 2
       /\ _topk_model (self_of (snd r)) = _topk_model (self_of m)
       /\ _topn (self_of (snd r)) = _topn (self_of m)
       /\ _real_monitor (self_of (snd r)) = _real_monitor (self_of m).
Proof.
  eexists. split; [vm_compute; reflexivity |].
  apply (restore_rejects_other_width _ _ "/ckpt/run-A" 3 2);
    try (vm_compute; reflexivity); lia.
Defined.

(** The claim of C9 as it is worded names the keys [topk_state] and
    [real_monitor]; a snapshot has neither. *)
Lemma snapshot_has_no_topk_state_key :
  exists m : machine,
    started top2_args run_A = Some m
    /\ let states := on_save_checkpoint (self_of m) (os m) in
       Dict.get "topk_state" states = None
       /\ Dict.get "real_monitor" states = None
       /\ ~ (forall k, In k (Dict.keys states)
                       <-> In k ["timestamp_path"; "topk_state";
                                 "save_topk"; "real_monitor"]).
Proof.
  eexists. split; [vm_compute; reflexivity |].
  cbv zeta. split; [reflexivity |]. split; [reflexivity |].
  intros H. specialize (H "topk_state"). destruct H as [_ H].
  assert (Hin : In "topk_state"
                   ["timestamp_path"; "topk_state"; "save_topk"; "real_monitor"])
    by (right; left; reflexivity).
  apply H in Hin. vm_compute in Hin.
  repeat (destruct Hin as [Hin | Hin]; [discriminate |]). exact Hin.
Qed.

(** ** The Jittor dataloader *)

Section LoaderProperties.

Variable Collator : Type.
Variable PadArgs : Type.
Variable FieldNames : Type.
Variable collator_set_pad : Collator -> PadArgs -> Collator.
Variable collator_set_ignore : Collator -> FieldNames -> Collator.

Local Abbreviation set_pad := (Jittor.set_pad collator_set_pad).
Local Abbreviation set_ignore := (Jittor.set_ignore collator_set_ignore).
Local Abbreviation store := (Jittor.store Collator).

Lemma get_collator_reaches (self : Jittor.JittorDataLoader) (h : store) :
  Jittor._get_collator self h
  = if Jittor.reaches_collator self h
    then Some (Jittor.underlying self h) else None.
Proof.
  unfold Jittor._get_collator, Jittor.reaches_collator, Jittor.underlying.
  destruct (Jittor.wrapped_of (Jittor.collate_fn self) h) as [inner |];
    [destruct (Jittor.isinstance_Collator inner h) |];
    destruct (Jittor.isinstance_Collator (Jittor.collate_fn self) h);
    reflexivity.
Qed.

Lemma underlying_is_collator (self : Jittor.JittorDataLoader) (h : store) :
  Jittor.reaches_collator self h = true ->
  Jittor.isinstance_Collator (Jittor.underlying self h) h = true.
Proof.
  unfold Jittor.reaches_collator, Jittor.underlying.
  destruct (Jittor.wrapped_of (Jittor.collate_fn self) h) as [inner |].
  - destruct (Jittor.isinstance_Collator inner h) eqn:Hin; [now rewrite Hin |].
    now rewrite orb_false_r.
  - now rewrite orb_false_r.
Qed.

(** C10. [set_pad] and [set_ignore] return normally exactly when
    [collate_fn] is a Collator or exposes one through [__wrapped__]; they
    then return that very Collator, on which the setter has been called.
    For every other [collate_fn] both raise [ValueError] and nothing in
    the store has changed. *)
Theorem set_pad_set_ignore_need_collator
        (self : Jittor.JittorDataLoader) (h : store)
        (args : PadArgs) (field_names : FieldNames) :
  let c := Jittor.underlying self h in
  is_ok (fst (set_pad self args h)) = Jittor.reaches_collator self h
  /\ is_ok (fst (set_ignore self field_names h))
     = Jittor.reaches_collator self h
  /\ (Jittor.reaches_collator self h = true ->
      Jittor.isinstance_Collator c h = true
      /\ (c = Jittor.collate_fn self
          \/ Jittor.wrapped_of (Jittor.collate_fn self) h = Some c)
      /\ set_pad self args h
         = (Ok c, Jittor.call_on c (fun x => collator_set_pad x args) h)
      /\ set_ignore self field_names h
         = (Ok c,
            Jittor.call_on c (fun x => collator_set_ignore x field_names) h))
  /\ (Jittor.reaches_collator self h = false ->
      (exists msg, set_pad self args h = (Raise (ValueError msg), h))
      /\ (exists msg,
             set_ignore self field_names h = (Raise (ValueError msg), h))).
Proof.
  intros c. subst c. unfold Jittor.set_pad, Jittor.set_ignore.
  rewrite get_collator_reaches.
  destruct (Jittor.reaches_collator self h) eqn:Hr.
  - rewrite (underlying_is_collator _ _ Hr). cbn [fst is_ok].
    split; [reflexivity |]. split; [reflexivity |].
    split; [| discriminate]. intros _.
    split; [reflexivity |]. split; [| split; reflexivity].
    unfold Jittor.underlying.
    destruct (Jittor.wrapped_of (Jittor.collate_fn self) h) as [inner |];
      [destruct (Jittor.isinstance_Collator inner h) |]; auto.
  - cbn [fst is_ok]. split; [reflexivity |]. split; [reflexivity |].
    split; [discriminate |]. intros _. split; eauto.
Qed.

End LoaderProperties.

(** ** Dictionaries *)

Section DictFacts.

Context {V : Type}.
Implicit Types (d : dict V) (k : string) (v : V).

Lemma in_keys d (x : string * V) : In x d -> In (fst x) (Dict.keys d).
Proof. apply in_map. Qed.

Lemma set_fresh d k v :
  ~ In k (Dict.keys d) -> Dict.set k v d = d ++ [(k, v)].
Proof.
  unfold Dict.keys. induction d as [| [k' v'] d IH]; intros Hk; cbn in *; [reflexivity |].
  destruct (String.eqb_spec k k') as [-> | _]; [tauto |].
  rewrite IH by tauto. reflexivity.
Qed.

Lemma keys_set_present d k v :
  In k (Dict.keys d) -> Dict.keys (Dict.set k v d) = Dict.keys d.
Proof.
  unfold Dict.keys. induction d as [| [k' v'] d IH]; intros Hk; cbn in *; [tauto |].
  destruct (String.eqb_spec k k') as [-> | Hne]; [reflexivity |].
  cbn. rewrite IH; [reflexivity |]. destruct Hk; congruence.
Qed.

Lemma keys_set_grow d k v k' :
  In k' (Dict.keys d) -> In k' (Dict.keys (Dict.set k v d)).
Proof.
  unfold Dict.keys. induction d as [| [k0 v0] d IH]; cbn; [tauto |].
  destruct (String.eqb_spec k k0); cbn; tauto.
Qed.

Lemma length_set d k v :
  (List.length d <= List.length (Dict.set k v d) <= S (List.length d))%nat.
Proof.
  unfold Dict.keys. induction d as [| [k' v'] d IH]; cbn; [lia |].
  destruct (String.eqb k k'); cbn; lia.
Qed.

Lemma length_remove d k :
  In k (Dict.keys d) -> S (List.length (Dict.remove k d)) = List.length d.
Proof.
  unfold Dict.keys. induction d as [| [k' v'] d IH]; cbn; [tauto |].
  destruct (String.eqb_spec k k') as [-> | Hne]; [reflexivity |].
  intros [H | H]; [congruence |]. cbn. now rewrite IH.
Qed.

Lemma remove_app_present d (e : dict V) k :
  In k (Dict.keys d) -> Dict.remove k (d ++ e) = Dict.remove k d ++ e.
Proof.
  unfold Dict.keys. induction d as [| [k' v'] d IH]; cbn; [tauto |].
  destruct (String.eqb_spec k k') as [-> | Hne]; [reflexivity |].
  intros [H | H]; [congruence |]. now rewrite IH.
Qed.

Lemma in_remove d k (x : string * V) :
  NoDup (Dict.keys d) ->
  (In x (Dict.remove k d) <-> In x d /\ fst x <> k).
Proof.
  unfold Dict.keys. induction d as [| [k' v'] d IH]; cbn; [tauto |].
  intros Hnd. inversion Hnd as [| ? ? Hnotin Hnd']; subst.
  destruct (String.eqb_spec k k') as [-> | Hne].
  - split.
    + intros Hin. split; [now right |]. intros Heq.
      apply Hnotin. rewrite <- Heq. now apply in_keys.
    + intros [[<- | Hin] Hneq]; [cbn in Hneq; congruence | exact Hin].
  - cbn. rewrite IH by exact Hnd'. split.
    + intros [<- | [Hin Hneq]]; cbn; auto.
    + intros [[<- | Hin] Hneq]; auto.
Qed.

Lemma keys_remove_incl d k : incl (Dict.keys (Dict.remove k d)) (Dict.keys d).
Proof.
  unfold Dict.keys. induction d as [| [k' v'] d IH]; cbn; [apply incl_refl |].
  destruct (String.eqb k k'); cbn.
  - apply incl_tl, incl_refl.
  - intros x [<- | Hx]; [now left | right; now apply IH].
Qed.

Lemma NoDup_keys_remove d k :
  NoDup (Dict.keys d) -> NoDup (Dict.keys (Dict.remove k d)).
Proof.
  unfold Dict.keys. induction d as [| [k' v'] d IH]; cbn; [auto |].
  intros Hnd. inversion Hnd as [| ? ? Hnotin Hnd']; subst.
  destruct (String.eqb k k'); [exact Hnd' |].
  cbn. constructor; [| now apply IH].
  intros Hin. apply Hnotin. eapply keys_remove_incl. exact Hin.
Qed.

Lemma first_best_in (lt : V -> V -> bool) (best : string * V) d :
  In (Dict.first_best lt best d) (best :: d).
Proof.
  revert best. induction d as [| kv d IH]; intros best; cbn; [now left |].
  destruct (IH (if lt (snd kv) (snd best) then kv else best)) as [H | H].
  - rewrite <- H. destruct (lt (snd kv) (snd best)); auto.
  - auto.
Qed.

Lemma py_min_in (lt : V -> V -> bool) d (l : string * V) :
  Dict.py_min lt d = Ok l -> In l d.
Proof.
  destruct d as [| kv d]; cbn; [discriminate |].
  intros H. injection H as <-. apply first_best_in.
Qed.

Lemma py_max_in (lt : V -> V -> bool) d (l : string * V) :
  Dict.py_max lt d = Ok l -> In l d.
Proof.
  destruct d as [| kv d]; cbn; [discriminate |].
  intros H. injection H as <-. apply first_best_in.
Qed.

End DictFacts.

(** ** The order on metric values *)

Lemma Qltb_lt (x y : Q) : Qltb x y = true <-> (x < y)%Q.
Proof. unfold Qltb, Qlt. apply Z.ltb_lt. Qed.

Lemma Qltb_ge (x y : Q) : Qltb x y = false <-> (y <= x)%Q.
Proof. unfold Qltb, Qle. rewrite Z.ltb_ge. reflexivity. Qed.

Lemma float_lt_iff (x y : pyfloat) : float_lt x y = true <-> num_lt x y.
Proof.
  destruct x, y; cbn; try apply Qltb_lt;
    (split; intros H;
     [try discriminate; exact I | try contradiction; reflexivity]).
Qed.

Lemma float_ge (x y : pyfloat) :
  is_nan x = false -> is_nan y = false -> float_lt x y = false -> num_le y x.
Proof.
  destruct x, y; cbn; intros Hx Hy H; try discriminate; try exact I.
  now apply Qltb_ge.
Qed.

Lemma num_le_number (x y : pyfloat) :
  num_le x y -> is_nan x = false /\ is_nan y = false.
Proof. destruct x, y; cbn; intros H; try contradiction; now split. Qed.

Lemma num_le_refl (x : pyfloat) : is_nan x = false -> num_le x x.
Proof.
  destruct x; cbn; intros H; try discriminate; try exact I. apply Qle_refl.
Qed.

Lemma num_le_trans (x y z : pyfloat) : num_le x y -> num_le y z -> num_le x z.
Proof.
  destruct x, y, z; cbn; intros H1 H2; try contradiction; try exact I.
  eapply Qle_trans; eassumption.
Qed.

Lemma num_lt_le (x y : pyfloat) : num_lt x y -> num_le x y.
Proof.
  destruct x, y; cbn; intros H; try contradiction; try exact I.
  now apply Qlt_le_weak.
Qed.

Lemma num_le_lt_trans (x y z : pyfloat) :
  num_le x y -> num_lt y z -> num_lt x z.
Proof.
  destruct x, y, z; cbn; intros H1 H2; try contradiction; try exact I.
  eapply Qle_lt_trans; eassumption.
Qed.

Lemma num_lt_le_trans (x y z : pyfloat) :
  num_lt x y -> num_le y z -> num_lt x z.
Proof.
  destruct x, y, z; cbn; intros H1 H2; try contradiction; try exact I.
  eapply Qlt_le_trans; eassumption.
Qed.

(** The comparisons of the code against the order, on numbers. *)
Lemma metric_lt_iff (a b : metric) :
  metric_lt a b = true <-> num_lt (metric_num a) (metric_num b).
Proof. apply float_lt_iff. Qed.

Lemma metric_not_lt (x y : string * metric) :
  a_number x -> a_number y ->
  metric_lt (snd x) (snd y) = false -> value_le y x.
Proof. intros Hx Hy. now apply float_ge. Qed.

Lemma value_le_refl (x : string * metric) : a_number x -> value_le x x.
Proof. apply num_le_refl. Qed.

Lemma a_number_tail (x : string * metric) (d : dict metric) :
  Forall a_number (x :: d) -> a_number x /\ Forall a_number d.
Proof. intros H. inversion H; now subst. Qed.

(** On numbers, [min] finds an entry of least value and [max] one of
    greatest value. *)
Lemma first_min_least (best : string * metric) (d : dict metric) :
  Forall a_number (best :: d) ->
  forall y, In y (best :: d) ->
            value_le (Dict.first_best metric_lt best d) y.
Proof.
  revert best.
  induction d as [| kv d IH]; intros best Hnum y Hy; cbn.
  - destruct Hy as [<- | []]. apply value_le_refl. now inversion Hnum.
  - destruct (a_number_tail _ _ Hnum) as [Hb Hnum'].
    destruct (a_number_tail _ _ Hnum') as [Hkv Hd].
    set (b' := if metric_lt (snd kv) (snd best) then kv else best).
    assert (Hb' : a_number b') by (subst b'; now destruct (metric_lt _ _)).
    assert (Hle : value_le b' best /\ value_le b' kv).
    { subst b'. destruct (metric_lt (snd kv) (snd best)) eqn:Hlt.
      - split; [| now apply value_le_refl].
        apply num_lt_le. now apply metric_lt_iff.
      - split; [now apply value_le_refl | now apply metric_not_lt]. }
    destruct Hle as [Hb1 Hb2].
    assert (Hnum1 : Forall a_number (b' :: d)) by now constructor.
    assert (Hmin : value_le (Dict.first_best metric_lt b' d) b')
      by (apply IH; [exact Hnum1 | now left]).
    destruct Hy as [<- | [<- | Hy]].
    + eapply num_le_trans; eassumption.
    + eapply num_le_trans; eassumption.
    + apply IH; [exact Hnum1 | now right].
Qed.

Lemma first_max_greatest (best : string * metric) (d : dict metric) :
  Forall a_number (best :: d) ->
  forall y, In y (best :: d) ->
            value_le y (Dict.first_best (fun a b => metric_lt b a) best d).
Proof.
  revert best.
  induction d as [| kv d IH]; intros best Hnum y Hy; cbn.
  - destruct Hy as [<- | []]. apply value_le_refl. now inversion Hnum.
  - destruct (a_number_tail _ _ Hnum) as [Hb Hnum'].
    destruct (a_number_tail _ _ Hnum') as [Hkv Hd].
    set (b' := if metric_lt (snd best) (snd kv) then kv else best).
    assert (Hb' : a_number b') by (subst b'; now destruct (metric_lt _ _)).
    assert (Hle : value_le best b' /\ value_le kv b').
    { subst b'. destruct (metric_lt (snd best) (snd kv)) eqn:Hlt.
      - split; [| now apply value_le_refl].
        apply num_lt_le. now apply metric_lt_iff.
      - split; [now apply value_le_refl | now apply metric_not_lt]. }
    destruct Hle as [Hb1 Hb2].
    assert (Hnum1 : Forall a_number (b' :: d)) by now constructor.
    assert (Hmax : value_le b'
                     (Dict.first_best (fun a b => metric_lt b a) b' d))
      by (apply IH; [exact Hnum1 | now left]).
    destruct Hy as [<- | [<- | Hy]].
    + eapply num_le_trans; eassumption.
    + eapply num_le_trans; eassumption.
    + apply IH; [exact Hnum1 | now right].
Qed.

(** Of several entries of least value, [min] finds the one inserted
    first: the entries before the one it returns are worth strictly
    more.  [mid] holds the entries already passed over. *)
Lemma first_min_first (d : dict metric) :
  forall (best : string * metric) (mid : dict metric),
    Forall a_number (best :: mid ++ d) ->
    (forall x, In x mid -> value_le best x) ->
    exists pre post,
      best :: mid ++ d = pre ++ Dict.first_best metric_lt best d :: post
      /\ (forall x, In x pre ->
                    value_lt (Dict.first_best metric_lt best d) x)
      /\ (forall y, In y post ->
                    value_le (Dict.first_best metric_lt best d) y).
Proof.
  induction d as [| kv d IH]; intros best mid Hnum Hmid; cbn.
  - exists [], (mid ++ []). split; [reflexivity |]. split; [intros x [] |].
    intros y Hy. rewrite app_nil_r in Hy. now apply Hmid.
  - destruct (a_number_tail _ _ Hnum) as [Hb Hrest].
    apply Forall_app in Hrest. destruct Hrest as [Hm Hkvd].
    destruct (a_number_tail _ _ Hkvd) as [Hkv Hd].
    destruct (metric_lt (snd kv) (snd best)) eqn:Hlt.
    + destruct (IH kv [] Hkvd ltac:(intros x [])) as (pre & post & Heq & Hpre & Hpost).
      cbn [app] in Heq.
      exists (best :: mid ++ pre), post. split; [| split; [| exact Hpost]].
      * cbn. f_equal. rewrite <- app_assoc. f_equal. exact Heq.
      * assert (Hfb : value_lt (Dict.first_best metric_lt kv d) best).
        { eapply num_le_lt_trans;
            [apply (first_min_least kv d Hkvd kv); now left |].
          now apply metric_lt_iff. }
        intros x [<- | Hx]; [exact Hfb |].
        apply in_app_or in Hx. destruct Hx as [Hx | Hx]; [| now apply Hpre].
        eapply num_lt_le_trans; [exact Hfb | now apply Hmid].
    + destruct (IH best (mid ++ [kv])) as (pre & post & Heq & Hpre & Hpost).
      * rewrite <- app_assoc. exact Hnum.
      * intros x Hx. apply in_app_or in Hx.
        destruct Hx as [Hx | [<- | []]]; [now apply Hmid |].
        now apply metric_not_lt.
      * exists pre, post. rewrite <- app_assoc in Heq. now split.
Qed.

Lemma py_min_first_least (d : dict metric) (l : string * metric) :
  Forall a_number d -> Dict.py_min metric_lt d = Ok l -> first_least l d.
Proof.
  destruct d as [| kv d]; cbn; [discriminate |].
  intros Hnum H. injection H as <-.
  exact (first_min_first d kv [] Hnum ltac:(intros x [])).
Qed.

(** ** Lists of entries *)

Lemma NoDup_keys_entries (d : dict metric) : NoDup (Dict.keys d) -> NoDup d.
Proof. apply NoDup_map_inv. Qed.

Lemma same_key_same_entry (d : dict metric) (x y : string * metric) :
  NoDup (Dict.keys d) -> In x d -> In y d -> fst x = fst y -> x = y.
Proof.
  unfold Dict.keys. induction d as [| kv d IH]; cbn; [tauto |].
  intros Hnd Hx Hy Heq. inversion Hnd as [| ? ? Hnotin Hnd']; subst.
  destruct Hx as [-> | Hx], Hy as [-> | Hy]; auto.
  - exfalso. apply Hnotin. rewrite Heq. now apply in_map.
  - exfalso. apply Hnotin. rewrite <- Heq. now apply in_map.
Qed.

Lemma keys_app (d e : dict metric) :
  Dict.keys (d ++ e) = Dict.keys d ++ Dict.keys e.
Proof. apply map_app. Qed.

Lemma NoDup_keys_snoc (d : dict metric) (k : string) (v : metric) :
  NoDup (Dict.keys d) -> ~ In k (Dict.keys d) ->
  NoDup (Dict.keys (d ++ [(k, v)])).
Proof.
  intros Hnd Hk. rewrite keys_app. cbn.
  apply NoDup_incl_NoDup with (l := k :: Dict.keys d).
  - now constructor.
  - rewrite length_app. cbn. lia.
  - intros x [<- | Hx]; apply in_or_app; cbn; auto.
Qed.

Lemma len_snoc (d : dict metric) (c : string * metric) :
  Dict.len (d ++ [c]) = Dict.len d + 1.
Proof. unfold Dict.len. rewrite length_app. cbn. lia. Qed.

Lemma entry_eq_dec (a b : string * metric) : {a = b} + {a <> b}.
Proof. repeat decide equality. Qed.

Lemma incl_keys (d seen : dict metric) :
  incl d seen -> incl (Dict.keys d) (Dict.keys seen).
Proof. unfold Dict.keys. apply incl_map. Qed.

(** ** Keeping the best entries *)

Lemma worth_le_number (larger : bool) (x y : string * metric) :
  worth_le larger x y -> a_number x /\ a_number y.
Proof.
  unfold worth_le, value_le, a_number. destruct larger; intros H;
    apply num_le_number in H; tauto.
Qed.

Lemma worth_le_refl (larger : bool) (x : string * metric) :
  a_number x -> worth_le larger x x.
Proof. unfold worth_le. destruct larger; apply value_le_refl. Qed.

Lemma worth_le_trans (larger : bool) (x y z : string * metric) :
  worth_le larger x y -> worth_le larger y z -> worth_le larger x z.
Proof.
  unfold worth_le, value_le. destruct larger; intros H1 H2;
    eapply num_le_trans; eassumption.
Qed.

Lemma keeps_largest_best (K : Z) (seen d : dict metric) :
  keeps_best true K seen d <-> keeps_largest K seen d.
Proof. split; intros [H1 H2 H3 H4]; now split. Qed.

Lemma best_all_while_short (larger : bool) (K : Z) (seen d : dict metric)
      (x : string * metric) :
  keeps_best larger K seen d -> Dict.len seen < K -> In x seen -> In x d.
Proof.
  intros [Hnd Hincl Hsize _] Hlt Hx.
  apply (@NoDup_length_incl _ d seen (NoDup_keys_entries d Hnd)); auto.
  unfold Dict.len in *. lia.
Qed.

Lemma best_nothing (larger : bool) (K : Z) : 0 <= K -> keeps_best larger K [] [].
Proof.
  intros HK. split; cbn.
  - constructor.
  - apply incl_refl.
  - lia.
  - intros x y [].
Qed.

Lemma best_admit_fill (larger : bool) (K : Z) (seen d : dict metric)
      (c : string * metric) :
  keeps_best larger K seen d ->
  Dict.len seen < K ->
  ~ In (fst c) (Dict.keys seen) ->
  keeps_best larger K (seen ++ [c]) (d ++ [c]).
Proof.
  intros Hk Hlt Hc. pose proof Hk as [Hnd Hincl Hsize Hbest].
  destruct c as [k v]. split.
  - apply NoDup_keys_snoc; [exact Hnd |].
    intros Hin. apply Hc. eapply incl_keys; eassumption.
  - apply incl_app; [now apply incl_appl | now apply incl_appr].
  - rewrite !len_snoc. lia.
  - intros x y Hx Hnx _. exfalso. apply Hnx. apply in_or_app.
    apply in_app_or in Hx. destruct Hx as [Hx | Hx]; [left | now right].
    eapply best_all_while_short; eassumption.
Qed.

Lemma best_admit_evict (larger : bool) (K : Z) (seen d : dict metric)
      (c l : string * metric) :
  keeps_best larger K seen d ->
  K <= Dict.len seen ->
  ~ In (fst c) (Dict.keys seen) ->
  In l d ->
  (forall y, In y d -> worth_le larger l y) ->
  worth_le larger l c ->
  keeps_best larger K (seen ++ [c]) (Dict.remove (fst l) d ++ [c]).
Proof.
  intros [Hnd Hincl Hsize Hbest] Hfull Hc Hl Hmin Hlc.
  assert (Hcd : ~ In (fst c) (Dict.keys d))
    by (intros Hin; apply Hc; eapply incl_keys; eassumption).
  split.
  - destruct c as [k v]. apply NoDup_keys_snoc; [now apply NoDup_keys_remove |].
    intros Hin. apply Hcd. eapply keys_remove_incl. exact Hin.
  - apply incl_app; [| now apply incl_appr].
    intros x Hx. apply in_or_app. left. apply Hincl.
    apply (in_remove d (fst l) x Hnd) in Hx. tauto.
  - rewrite !len_snoc. unfold Dict.len in *.
    pose proof (length_remove d (fst l) (in_keys d l Hl)). lia.
  - intros x y Hx Hnx Hy.
    assert (Hxs : In x seen).
    { apply in_app_or in Hx. destruct Hx as [Hx | [<- | []]]; [exact Hx |].
      exfalso. apply Hnx. apply in_or_app. right. now left. }
    assert (Hxl : worth_le larger x l).
    { destruct (in_dec entry_eq_dec x d) as [Hxd | Hxd].
      - assert (fst x = fst l).
        { destruct (string_dec (fst x) (fst l)) as [He | He]; [exact He |].
          exfalso. apply Hnx. apply in_or_app. left.
          apply (in_remove d (fst l) x Hnd). tauto. }
        rewrite (same_key_same_entry d x l Hnd Hxd Hl H).
        apply worth_le_refl. now apply (worth_le_number larger l c).
      - apply (Hbest x l Hxs Hxd Hl). }
    apply in_app_or in Hy. destruct Hy as [Hy | [<- | []]].
    + apply (in_remove d (fst l) y Hnd) in Hy. destruct Hy as [Hy _].
      eapply worth_le_trans; [exact Hxl | now apply Hmin].
    + eapply worth_le_trans; eassumption.
Qed.

Lemma best_reject (larger : bool) (K : Z) (seen d : dict metric)
      (c l : string * metric) :
  keeps_best larger K seen d ->
  K <= Dict.len seen ->
  In l d ->
  (forall y, In y d -> worth_le larger l y) ->
  worth_le larger c l ->
  keeps_best larger K (seen ++ [c]) d.
Proof.
  intros [Hnd Hincl Hsize Hbest] Hfull Hl Hmin Hle. split.
  - exact Hnd.
  - now apply incl_appl.
  - rewrite len_snoc. lia.
  - intros x y Hx Hnx Hy. apply in_app_or in Hx.
    destruct Hx as [Hx | [<- | []]]; [now apply Hbest |].
    eapply worth_le_trans; [exact Hle | now apply Hmin].
Qed.

(** ** One consideration of the retention engine *)

Section TopKProperties.

Variable Res : Type.
Variable _get_monitor_value :
  option string -> option string -> Res -> res (option string * metric).
Variable format_metric : metric -> string.

Local Abbreviation step := (_save_topk Res _get_monitor_value format_metric).
Local Abbreviation run := (validations Res _get_monitor_value format_metric).
Local Abbreviation shown := (candidates Res _get_monitor_value format_metric).
Local Abbreviation name_of := (topk_folder_name format_metric).
Local Abbreviation resolve :=
  (fun self r => _get_monitor_value (monitor self) (_real_monitor self) r).

Lemma step_disabled (t : Trainer) (r : Res) (m : machine) :
  save_topk (self_of m) = None -> step t r m = (Ok tt, m).
Proof.
  intros H. unfold _save_topk. run_monad. now rewrite H.
Qed.

Lemma step_unresolved (t : Trainer) (r : Res) (m : machine) (K : Z) (e : exn) :
  save_topk (self_of m) = Some K ->
  resolve (self_of m) r = Raise e ->
  step t r m = (Raise e, m).
Proof.
  intros HK Hr. unfold _save_topk, _get_validate_metric. run_monad.
  rewrite HK, Hr. reflexivity.
Qed.

Lemma step_fill (t : Trainer) (r : Res) (m : machine) (K : Z)
      (p : option string * metric) :
  save_topk (self_of m) = Some K ->
  resolve (self_of m) r = Ok p ->
  _topn (self_of m) < K ->
  let self1 := with_real_monitor (self_of m) (fst p) in
  let name := name_of self1 t (snd p) in
  step t r m
  = (Ok tt,
     {| self_of := with_topk self1
                     (Dict.set name (snd p) (_topk_model (self_of m)))
                     (_topn (self_of m) + 1);
        os := saved (self_of m) name (os m) |}).
Proof.
  intros HK Hr Hn. unfold _save_topk, _get_validate_metric, save.
  run_monad. rewrite HK, Hr. cbn [self_of with_real_monitor save_topk _topn].
  apply Z.ltb_lt in Hn. rewrite Hn. reflexivity.
Qed.

Lemma step_full (t : Trainer) (r : Res) (m : machine) (K : Z)
      (p : option string * metric) (l : string * metric) :
  save_topk (self_of m) = Some K ->
  resolve (self_of m) r = Ok p ->
  K <= _topn (self_of m) ->
  least_valuable (self_of m) = Ok l ->
  let self1 := with_real_monitor (self_of m) (fst p) in
  let name := name_of self1 t (snd p) in
  let d' := Dict.remove (fst l)
              (Dict.set name (snd p) (_topk_model (self_of m))) in
  let w' := removed_dir (joinpath (timestamp_path (self_of m)) (fst l))
              (os m) in
  step t r m
  = if strictly_better (self_of m) (snd p) (snd l) then
      if width_holds K d' (_topn (self_of m)) then
        (Ok tt, {| self_of := with_topk self1 d' (_topn (self_of m));
                   os := saved (self_of m) name w' |})
      else
        (Raise (AssertionError
                  "len(self._topk_model) == self.save_topk == self._topn"),
         {| self_of := with_topk self1 d' (_topn (self_of m)); os := w' |})
    else
      if width_holds K (_topk_model (self_of m)) (_topn (self_of m)) then
        (Ok tt, {| self_of := self1; os := os m |})
      else
        (Raise (AssertionError
                  "len(self._topk_model) == self.save_topk == self._topn"),
         {| self_of := self1; os := os m |}).
Proof.
  intros HK Hr Hn Hl. unfold _save_topk, _get_validate_metric, save,
    synchronize_safe_rm.
  run_monad. rewrite HK, Hr.
  cbn [self_of with_real_monitor save_topk _topn larger_better _topk_model].
  apply Z.ltb_ge in Hn. rewrite Hn.
  unfold least_valuable in Hl. rewrite Hl.
  unfold strictly_better, width_holds.
  destruct ((larger_better (self_of m) && metric_gt (snd p) (snd l))
            || (negb (larger_better (self_of m))
                && metric_lt (snd p) (snd l))).
  - cbn [self_of with_topk with_real_monitor _topk_model _topn os
           timestamp_path].
    match goal with
    | |- context [if ?c then _ else _] => destruct c; reflexivity
    end.
  - cbn [self_of with_topk with_real_monitor _topk_model _topn os].
    match goal with
    | |- context [if ?c then _ else _] => destruct c; reflexivity
    end.
Qed.

Lemma step_full_empty (t : Trainer) (r : Res) (m : machine) (K : Z)
      (p : option string * metric) (e : exn) :
  save_topk (self_of m) = Some K ->
  resolve (self_of m) r = Ok p ->
  K <= _topn (self_of m) ->
  least_valuable (self_of m) = Raise e ->
  step t r m
  = (Raise e, {| self_of := with_real_monitor (self_of m) (fst p);
                 os := os m |}).
Proof.
  intros HK Hr Hn Hl. unfold _save_topk, _get_validate_metric.
  run_monad. rewrite HK, Hr.
  cbn [self_of with_real_monitor save_topk _topn larger_better _topk_model].
  apply Z.ltb_ge in Hn. rewrite Hn.
  unfold least_valuable in Hl. rewrite Hl. reflexivity.
Qed.

(** ** Counting admissions and evictions *)

Lemma count_app (p : effect -> bool) (t1 t2 : list effect) :
  count p (t1 ++ t2) = count p t1 + count p t2.
Proof. unfold count. rewrite filter_app, length_app. lia. Qed.

Lemma admissions_saved (self : CheckpointCallback) (name : string)
      (s : CheckpointCallback) (w : world) :
  admissions {| self_of := s; os := saved self name w |}
  = count is_save (trace w) + 1
  /\ evictions {| self_of := s; os := saved self name w |}
     = count is_rm (trace w).
Proof.
  unfold admissions, evictions. cbn [os]. rewrite trace_saved, !count_app.
  unfold save_effects, count. cbn. lia.
Qed.

Lemma trace_removed_dir (path : string) (w : world) :
  trace (removed_dir path w) = trace w ++ [SafeRm path].
Proof. reflexivity. Qed.

Lemma least_valuable_in (self : CheckpointCallback) (l : string * metric) :
  least_valuable self = Ok l -> In l (_topk_model self).
Proof.
  unfold least_valuable. destruct (larger_better self);
    [apply py_min_in | apply py_max_in].
Qed.

Lemma len_remove_set (d : dict metric) (k name : string) (v : metric) :
  In k (Dict.keys d) ->
  Dict.len (Dict.remove k (Dict.set name v d)) <= Dict.len d.
Proof.
  intros Hk. unfold Dict.len.
  pose proof (length_remove (Dict.set name v d) k
                (keys_set_grow d name v k Hk)).
  pose proof (length_set d name v). lia.
Qed.

Lemma step_counts (K a0 e0 : Z) (t : Trainer) (r : Res) (m : machine) :
  counts_agree K a0 e0 m ->
  width_kept K a0 (snd (step t r m))
  /\ (fst (step t r m) = Ok tt -> counts_agree K a0 e0 (snd (step t r m))).
Proof.
  intros [[HK [Hlen Hn]] Hev].
  destruct (resolve (self_of m) r) as [p | e] eqn:Hr.
  2:{ rewrite (step_unresolved t r m K e HK Hr). cbn [fst snd].
      split; [now repeat split | discriminate]. }
  destruct (Z.lt_ge_cases (_topn (self_of m)) K) as [Hlt | Hge].
  - rewrite (step_fill t r m K p HK Hr Hlt). cbn [fst snd].
    match goal with
    | |- context [saved ?s ?n ?w] =>
        destruct (admissions_saved s n
                    (with_topk (with_real_monitor (self_of m) (fst p))
                       (Dict.set n (snd p) (_topk_model (self_of m)))
                       (_topn (self_of m) + 1)) w) as [Ha He]
    end.
    assert (Hw : width_kept K a0
                   {| self_of := with_topk
                        (with_real_monitor (self_of m) (fst p))
                        (Dict.set
                           (name_of (with_real_monitor (self_of m) (fst p))
                              t (snd p))
                           (snd p) (_topk_model (self_of m)))
                        (_topn (self_of m) + 1);
                      os := saved (self_of m)
                              (name_of (with_real_monitor (self_of m) (fst p))
                                 t (snd p)) (os m) |}).
    { unfold width_kept. rewrite Ha. cbn [self_of with_topk save_topk
        with_real_monitor _topk_model _topn].
      split; [exact HK |]. unfold admissions in Hn.
      pose proof (length_set (_topk_model (self_of m))
                    (name_of (with_real_monitor (self_of m) (fst p)) t (snd p))
                    (snd p)).
      unfold Dict.len in *. lia. }
    split; [exact Hw |]. intros _. split; [exact Hw |].
    rewrite Ha, He. cbn [self_of with_topk _topn].
    unfold admissions, evictions in *. lia.
  - destruct (least_valuable (self_of m)) as [l | e] eqn:Hl.
    2:{ rewrite (step_full_empty t r m K p e HK Hr Hge Hl). cbn [fst snd].
        split; [now repeat split | discriminate]. }
    rewrite (step_full t r m K p l HK Hr Hge Hl). cbv zeta.
    pose proof (len_remove_set (_topk_model (self_of m)) (fst l)
                  (name_of (with_real_monitor (self_of m) (fst p)) t (snd p))
                  (snd p) (in_keys _ _ (least_valuable_in _ _ Hl))) as Hrm.
    destruct (strictly_better (self_of m) (snd p) (snd l)).
    + destruct (width_holds K _ (_topn (self_of m))); cbn [fst snd].
      * match goal with
        | |- context [{| self_of := ?s; os := saved ?s0 ?n ?w |}] =>
            destruct (admissions_saved s0 n s w) as [Ha He]
        end.
        rewrite trace_removed_dir, count_app in Ha, He.
        unfold count at 2 in Ha. unfold count at 2 in He. cbn in Ha, He.
        unfold counts_agree, width_kept. rewrite Ha, He.
        cbn [self_of with_topk save_topk with_real_monitor _topk_model _topn].
        unfold admissions, evictions in *.
        repeat split; try assumption; lia.
      * split; [| discriminate]. unfold width_kept, admissions.
        cbn [self_of os with_topk save_topk with_real_monitor _topk_model
             _topn].
        rewrite trace_removed_dir, count_app. unfold count at 2. cbn.
        unfold admissions in Hn. repeat split; try assumption; lia.
    + destruct (width_holds K _ (_topn (self_of m))); cbn [fst snd];
        (split; [now repeat split |]); [| discriminate].
      intros _. now repeat split.
Qed.

Lemma run_counts (K a0 e0 : Z) (evs : list (Trainer * Res)) (m : machine) :
  counts_agree K a0 e0 m ->
  width_kept K a0 (snd (run evs m))
  /\ (fst (run evs m) = Ok tt -> counts_agree K a0 e0 (snd (run evs m))).
Proof.
  revert m. induction evs as [| ev evs IH]; intros m Hm.
  - cbn. split; [apply Hm | intros _; exact Hm].
  - cbn [validations]. unfold on_validate_end.
    destruct (step_counts K a0 e0 (fst ev) (snd ev) m Hm) as [Hw Hc].
    destruct (step (fst ev) (snd ev) m) as [[[] | e] m1] eqn:Hs.
    + erewrite bind_ok by exact Hs. apply IH. now apply Hc.
    + erewrite bind_raise by exact Hs. cbn [fst snd] in *.
      split; [exact Hw | discriminate].
Qed.

(** C3. From a fresh callback with [save_topk = K], in either comparison
    direction and for every sequence of validations (up to the first that
    raises): the retention mapping never holds more than [K] entries, the
    count [_topn] is the number of admissions capped at [K], and in a run
    that has not raised the deletions are exactly the admissions beyond
    the first [K], one for each. *)
Theorem topk_counts (K : Z) (m0 : machine) (evs : list (Trainer * Res)) :
  save_topk (self_of m0) = Some K ->
  1 <= K ->
  _topk_model (self_of m0) = [] ->
  _topn (self_of m0) = 0 ->
  let r := run evs m0 in
  let n_admissions := admissions (snd r) - admissions m0 in
  let n_evictions := evictions (snd r) - evictions m0 in
  Dict.len (_topk_model (self_of (snd r))) <= K
  /\ _topn (self_of (snd r)) = Z.min n_admissions K
  /\ (fst r = Ok tt -> n_evictions = n_admissions - Z.min n_admissions K).
Proof.
  intros HK H1 Hd Hn r n_admissions n_evictions.
  subst r n_admissions n_evictions.
  assert (H0 : counts_agree K (admissions m0) (evictions m0) m0).
  { unfold counts_agree, width_kept. rewrite Hd, Hn. cbn.
    repeat split; try assumption; lia. }
  destruct (run_counts K _ _ evs m0 H0) as [(_ & Hlen & Htopn) Hc].
  split; [lia |]. split; [exact Htopn |].
  intros Hok. destruct (Hc Hok) as [_ Hev]. rewrite <- Htopn. exact Hev.
Qed.

(** ** The shape of the retention mapping *)

Lemma least_valuable_found (self : CheckpointCallback) :
  0 < Dict.len (_topk_model self) ->
  exists l, least_valuable self = Ok l.
Proof.
  unfold least_valuable, Dict.py_min, Dict.py_max.
  destruct (_topk_model self) as [| kv d]; cbn; [lia |].
  intros _. destruct (larger_better self); eauto.
Qed.

Lemma least_valuable_is_least (self : CheckpointCallback) (l : string * metric) :
  Forall a_number (_topk_model self) ->
  least_valuable self = Ok l ->
  In l (_topk_model self)
  /\ forall y, In y (_topk_model self) -> worth_le (larger_better self) l y.
Proof.
  intros Hnum Hl. split; [now apply least_valuable_in |].
  unfold least_valuable, worth_le in *.
  destruct (larger_better self), (_topk_model self) as [| kv d];
    cbn in Hl; try discriminate; injection Hl as <-.
  - now apply first_min_least.
  - now apply first_max_greatest.
Qed.

Lemma strictly_better_larger (self : CheckpointCallback) (v other : metric) :
  larger_better self = true ->
  strictly_better self v other = metric_gt v other.
Proof.
  intros H. unfold strictly_better. rewrite H. cbn. apply orb_false_r.
Qed.

Lemma strictly_better_worth (self : CheckpointCallback) (c l : string * metric) :
  a_number c -> a_number l ->
  (strictly_better self (snd c) (snd l) = true ->
   worth_le (larger_better self) l c)
  /\ (strictly_better self (snd c) (snd l) = false ->
      worth_le (larger_better self) c l).
Proof.
  intros Hc Hl. unfold strictly_better, worth_le, metric_gt.
  destruct (larger_better self); cbn [andb negb orb];
    rewrite ?orb_false_r; split; intros H.
  - apply num_lt_le. now apply metric_lt_iff.
  - now apply metric_not_lt.
  - apply num_lt_le. now apply metric_lt_iff.
  - now apply metric_not_lt.
Qed.

(** What one consideration of a candidate under a fresh name does to the
    mapping and to its surroundings, whatever the values are: the spec's
    [Admit] while the mapping fills, then [AdmitAndEvict] or [Reject]. *)
Lemma step_shape (K : Z) (seen : dict metric) (t : Trainer) (r : Res)
      (m : machine) (p : option string * metric) :
  1 <= K ->
  shaped K seen m ->
  resolve (self_of m) r = Ok p ->
  let self1 := with_real_monitor (self_of m) (fst p) in
  let c := (name_of self1 t (snd p), snd p) in
  ~ In (fst c) (Dict.keys seen) ->
  let m' := snd (step t r m) in
  fst (step t r m) = Ok tt
  /\ shaped K (seen ++ [c]) m'
  /\ same_naming (self_of m') self1
  /\ larger_better (self_of m') = larger_better (self_of m)
  /\ timestamp_path (self_of m') = timestamp_path (self_of m)
  /\ (Dict.len seen < K ->
      _topk_model (self_of m') = _topk_model (self_of m) ++ [c]
      /\ os m' = saved (self_of m) (fst c) (os m))
  /\ (K <= Dict.len seen ->
      exists l,
        least_valuable (self_of m) = Ok l
        /\ In l (_topk_model (self_of m))
        /\ (strictly_better (self_of m) (snd c) (snd l) = true ->
            _topk_model (self_of m')
            = Dict.remove (fst l) (_topk_model (self_of m)) ++ [c]
            /\ os m'
               = saved (self_of m) (fst c)
                   (removed_dir
                      (joinpath (timestamp_path (self_of m)) (fst l)) (os m)))
        /\ (strictly_better (self_of m) (snd c) (snd l) = false ->
            _topk_model (self_of m') = _topk_model (self_of m)
            /\ os m' = os m)).
Proof.
  intros H1 (HK & Hn & Hnd & Hincl & Hsize) Hr self1 c Hfresh m'.
  assert (Hcd : ~ In (fst c) (Dict.keys (_topk_model (self_of m))))
    by (intros Hin; apply Hfresh; eapply incl_keys; eassumption).
  destruct (Z.lt_ge_cases (Dict.len seen) K) as [Hlt | Hge].
  - (* still filling *)
    assert (Hstep := step_fill t r m K p HK Hr ltac:(lia)).
    cbv zeta in Hstep. fold self1 in Hstep. subst m'. rewrite Hstep.
    cbn [fst snd self_of os with_topk _topk_model timestamp_path
         larger_better].
    rewrite (set_fresh _ _ _ Hcd). change (fst c, snd p) with c.
    split; [reflexivity |].
    split; [| split; [| split; [| split; [| split]]]].
    + unfold shaped.
      cbn [self_of with_topk save_topk _topn _topk_model].
      subst self1. cbn [with_real_monitor save_topk].
      rewrite !len_snoc.
      split; [exact HK |]. split; [lia |].
      split; [now apply NoDup_keys_snoc |].
      split; [| lia].
      apply incl_app; [now apply incl_appl | now apply incl_appr].
    + now repeat split.
    + reflexivity.
    + reflexivity.
    + intros _. split; reflexivity.
    + intros Hfull. lia.
  - (* full *)
    assert (Hlen : Dict.len (_topk_model (self_of m)) = K) by lia.
    destruct (least_valuable_found (self_of m)) as [l Hl]; [lia |].
    pose proof (least_valuable_in _ _ Hl) as Hin.
    assert (Hstep := step_full t r m K p l HK Hr ltac:(lia) Hl).
    cbv zeta in Hstep. fold self1 in Hstep.
    rewrite (set_fresh _ _ _ Hcd) in Hstep.
    rewrite (remove_app_present _ _ _ (in_keys _ _ Hin)) in Hstep.
    assert (Hw1 : width_holds K
                    (Dict.remove (fst l) (_topk_model (self_of m)) ++ [c])
                    (_topn (self_of m)) = true).
    { unfold width_holds. rewrite len_snoc. unfold Dict.len in *.
      pose proof (length_remove _ (fst l) (in_keys _ _ Hin)).
      apply andb_true_iff. split; apply Z.eqb_eq; lia. }
    assert (Hw2 : width_holds K (_topk_model (self_of m)) (_topn (self_of m))
                  = true).
    { unfold width_holds. apply andb_true_iff. split; apply Z.eqb_eq; lia. }
    change (fst c, snd p) with c in Hstep.
    change (name_of self1 t (snd p)) with (fst c) in Hstep.
    rewrite Hw1, Hw2 in Hstep. subst m'. rewrite Hstep.
    change (snd c) with (snd p).
    destruct (strictly_better (self_of m) (snd p) (snd l)) eqn:Hgt;
      cbn [fst snd self_of os with_topk timestamp_path larger_better
           _topk_model].
    + split; [reflexivity |].
      split; [| split; [| split; [| split; [| split]]]].
      * unfold shaped.
        cbn [self_of with_topk save_topk _topn _topk_model].
        subst self1. cbn [with_real_monitor save_topk].
        rewrite !len_snoc. unfold Dict.len in *.
        pose proof (length_remove _ (fst l) (in_keys _ _ Hin)).
        split; [exact HK |]. split; [lia |].
        split; [| split; [| lia]].
        -- apply NoDup_keys_snoc; [now apply NoDup_keys_remove |].
           intros Hk. apply Hcd. eapply keys_remove_incl. exact Hk.
        -- apply incl_app; [| now apply incl_appr].
           intros x Hx. apply in_or_app. left. apply Hincl.
           apply (in_remove _ (fst l) x Hnd) in Hx. tauto.
      * now repeat split.
      * reflexivity.
      * reflexivity.
      * intros Hshort. lia.
      * intros _. exists l. split; [exact Hl |]. split; [exact Hin |].
        split; [intros _; split; reflexivity | congruence].
    + split; [reflexivity |].
      split; [| split; [| split; [| split; [| split]]]].
      * unfold shaped. subst self1.
        cbn [self_of with_real_monitor save_topk _topn _topk_model].
        rewrite len_snoc.
        split; [exact HK |]. split; [lia |]. split; [exact Hnd |].
        split; [now apply incl_appl | lia].
      * now repeat split.
      * reflexivity.
      * reflexivity.
      * intros Hshort. lia.
      * intros _. exists l. split; [exact Hl |]. split; [exact Hin |].
        split; [congruence | intros _; split; reflexivity].
Qed.


Lemma shown_same_naming (s1 s2 : CheckpointCallback)
      (evs : list (Trainer * Res)) :
  same_naming s1 s2 -> shown s1 evs = shown s2 evs.
Proof.
  revert s1 s2. induction evs as [| ev evs IH]; intros s1 s2 Hs;
    [reflexivity |].
  destruct Hs as (Hk & Hm & Hr). cbn [candidates]. rewrite Hm, Hr.
  destruct (_get_monitor_value (monitor s2) (_real_monitor s2) (snd ev))
    as [p | e]; [| reflexivity].
  rewrite (IH (with_real_monitor s1 (fst p)) (with_real_monitor s2 (fst p)))
    by (now repeat split).
  unfold topk_folder_name, folder_prefix.
  cbn [kind with_real_monitor _real_monitor]. now rewrite Hk.
Qed.

Lemma shaped_fresh (K : Z) (m : machine) :
  save_topk (self_of m) = Some K -> 1 <= K ->
  _topk_model (self_of m) = [] -> _topn (self_of m) = 0 ->
  shaped K [] m.
Proof.
  intros HK H1 Hd Hn. unfold shaped. rewrite Hd, Hn. cbn.
  split; [exact HK |]. split; [lia |]. split; [constructor |].
  split; [apply incl_refl | lia].
Qed.

Lemma run_shape (K : Z) (evs : list (Trainer * Res)) :
  1 <= K ->
  forall (m : machine) (seen0 : dict metric),
    shaped K seen0 m ->
    NoDup (Dict.keys (seen0 ++ shown (self_of m) evs)) ->
    shaped K (seen0 ++ shown (self_of m) evs) (snd (run evs m))
    /\ larger_better (self_of (snd (run evs m))) = larger_better (self_of m)
    /\ timestamp_path (self_of (snd (run evs m))) = timestamp_path (self_of m)
    /\ (List.length (shown (self_of m) evs) = List.length evs ->
        fst (run evs m) = Ok tt).
Proof.
  intros H1. induction evs as [| ev evs IH]; intros m seen0 Hinv Hnd.
  - cbn. rewrite app_nil_r. auto.
  - cbn [validations candidates]. unfold on_validate_end.
    cbn [candidates] in Hnd.
    destruct (_get_monitor_value (monitor (self_of m))
                (_real_monitor (self_of m)) (snd ev)) as [p | e] eqn:Hr.
    + set (self1 := with_real_monitor (self_of m) (fst p)) in *.
      set (c := (name_of self1 (fst ev) (snd p), snd p)) in *.
      assert (Hfresh : ~ In (fst c) (Dict.keys seen0)).
      { rewrite keys_app in Hnd. cbn in Hnd.
        apply NoDup_remove_2 in Hnd. intros Hin. apply Hnd.
        apply in_or_app. now left. }
      destruct (step_shape K seen0 (fst ev) (snd ev) m p H1 Hinv Hr Hfresh)
        as (Hok & Hinv' & Hsame & Hlb & Hts & _).
      destruct (step (fst ev) (snd ev) m) as [res1 m1] eqn:Hs.
      cbn [fst snd] in Hok, Hinv', Hsame, Hlb, Hts. subst res1.
      erewrite bind_ok by exact Hs.
      fold self1 in Hsame.
      rewrite <- (shown_same_naming _ _ evs Hsame) in *.
      change (seen0 ++ c :: shown (self_of m1) evs)
        with (seen0 ++ [c] ++ shown (self_of m1) evs) in *.
      rewrite app_assoc in *.
      destruct (IH m1 (seen0 ++ [c]) Hinv' Hnd) as (Hfinal & Hlb' & Hts' & Hret).
      split; [exact Hfinal |]. split; [congruence |]. split; [congruence |].
      intros Hlen. apply Hret. cbn in Hlen. lia.
    + erewrite bind_raise
        by (eapply step_unresolved; [apply Hinv | exact Hr]).
      cbn. rewrite app_nil_r. split; [exact Hinv |].
      split; [reflexivity |]. split; [reflexivity | discriminate].
Qed.

(** ** Retaining the best values *)

Lemma retained_numbers (K : Z) (seen : dict metric) (m : machine) :
  shaped K seen m -> Forall a_number seen ->
  Forall a_number (_topk_model (self_of m)).
Proof.
  intros (_ & _ & _ & Hincl & _) Hnum. apply Forall_forall.
  intros x Hx. apply (proj1 (Forall_forall _ _) Hnum). now apply Hincl.
Qed.

Lemma step_keeps_best (K : Z) (seen : dict metric) (t : Trainer) (r : Res)
      (m : machine) (p : option string * metric) :
  1 <= K ->
  shaped K seen m ->
  keeps_best (larger_better (self_of m)) K seen (_topk_model (self_of m)) ->
  resolve (self_of m) r = Ok p ->
  let c := (name_of (with_real_monitor (self_of m) (fst p)) t (snd p),
            snd p) in
  ~ In (fst c) (Dict.keys seen) ->
  Forall a_number (seen ++ [c]) ->
  keeps_best (larger_better (self_of m)) K (seen ++ [c])
    (_topk_model (self_of (snd (step t r m)))).
Proof.
  intros H1 Hinv Hkeep Hr c Hfresh Hnum.
  apply Forall_app in Hnum. destruct Hnum as [Hseen Hc].
  apply Forall_inv in Hc.
  destruct (step_shape K seen t r m p H1 Hinv Hr Hfresh)
    as (_ & _ & _ & _ & _ & Hshort & Hfull).
  fold c in Hshort, Hfull.
  destruct (Z.lt_ge_cases (Dict.len seen) K) as [Hlt | Hge].
  - destruct (Hshort Hlt) as [-> _]. now apply best_admit_fill.
  - destruct (Hfull Hge) as (l & Hl & Hin & Hyes & Hno).
    pose proof (retained_numbers K seen m Hinv Hseen) as Hkept.
    destruct (least_valuable_is_least _ _ Hkept Hl) as [_ Hmin].
    assert (Hln : a_number l)
      by (apply (proj1 (Forall_forall _ _) Hkept); exact Hin).
    destruct (strictly_better_worth (self_of m) c l Hc Hln)
      as [Hbetter Hworse].
    destruct (strictly_better (self_of m) (snd c) (snd l)).
    + destruct (Hyes eq_refl) as [-> _]. apply best_admit_evict; auto.
    + destruct (Hno eq_refl) as [-> _]. eapply best_reject; eauto.
Qed.

Lemma run_keeps_best (K : Z) (evs : list (Trainer * Res)) :
  1 <= K ->
  forall (m : machine) (seen0 : dict metric),
    shaped K seen0 m ->
    keeps_best (larger_better (self_of m)) K seen0 (_topk_model (self_of m)) ->
    NoDup (Dict.keys (seen0 ++ shown (self_of m) evs)) ->
    Forall a_number (seen0 ++ shown (self_of m) evs) ->
    keeps_best (larger_better (self_of m)) K
      (seen0 ++ shown (self_of m) evs)
      (_topk_model (self_of (snd (run evs m)))).
Proof.
  intros H1. induction evs as [| ev evs IH]; intros m seen0 Hinv Hkeep Hnd Hnum.
  - cbn. now rewrite app_nil_r.
  - cbn [validations candidates]. unfold on_validate_end.
    cbn [candidates] in Hnd, Hnum.
    destruct (_get_monitor_value (monitor (self_of m))
                (_real_monitor (self_of m)) (snd ev)) as [p | e] eqn:Hr.
    + set (self1 := with_real_monitor (self_of m) (fst p)) in *.
      set (c := (name_of self1 (fst ev) (snd p), snd p)) in *.
      assert (Hfresh : ~ In (fst c) (Dict.keys seen0)).
      { rewrite keys_app in Hnd. cbn in Hnd.
        apply NoDup_remove_2 in Hnd. intros Hin. apply Hnd.
        apply in_or_app. now left. }
      change (seen0 ++ c :: shown self1 evs)
        with (seen0 ++ [c] ++ shown self1 evs) in *.
      rewrite app_assoc in *.
      assert (Hnum1 : Forall a_number (seen0 ++ [c]))
        by (apply Forall_app in Hnum; tauto).
      pose proof (step_keeps_best K seen0 (fst ev) (snd ev) m p
                    H1 Hinv Hkeep Hr Hfresh Hnum1) as Hkeep'.
      destruct (step_shape K seen0 (fst ev) (snd ev) m p H1 Hinv Hr Hfresh)
        as (Hok & Hinv' & Hsame & Hlb & _).
      destruct (step (fst ev) (snd ev) m) as [res1 m1] eqn:Hs.
      cbn [fst snd] in Hok, Hinv', Hsame, Hlb, Hkeep'. subst res1.
      erewrite bind_ok by exact Hs.
      fold self1 in Hsame.
      rewrite <- (shown_same_naming _ _ evs Hsame) in *.
      rewrite <- Hlb in *.
      now apply IH.
    + erewrite bind_raise
        by (eapply step_unresolved; [apply Hinv | exact Hr]).
      cbn. now rewrite app_nil_r.
Qed.

(** C1 (as the code has it). From a fresh callback with [save_topk = K]
    and [larger_better = True], for every sequence of validations whose
    candidates bear pairwise distinct folder names and whose metric values
    are numbers (none is NaN): the run raises nothing of its own, and
    after it the retention mapping holds exactly the [K] largest metric
    values seen (all of them while fewer than [K] were seen): its entries
    are candidates that were seen, there are [min(seen, K)] of them, and
    no candidate left out is worth more than one kept.  Once [K]
    candidates were seen, the least valuable entry is the first of the
    entries of least value in insertion order: the entries before it are
    worth strictly more.  A next candidate strictly better than it is
    admitted with exactly one eviction, that of this entry, and any other
    candidate (equal, worse or NaN) is rejected, the mapping and the file
    system staying as they were. *)
Theorem topk_retains_largest
        (K : Z) (m0 : machine) (evs : list (Trainer * Res)) :
  save_topk (self_of m0) = Some K ->
  1 <= K ->
  larger_better (self_of m0) = true ->
  _topk_model (self_of m0) = [] ->
  _topn (self_of m0) = 0 ->
  let seen := shown (self_of m0) evs in
  NoDup (Dict.keys seen) ->
  Forall a_number seen ->
  let m1 := snd (run evs m0) in
  (List.length seen = List.length evs -> fst (run evs m0) = Ok tt)
  /\ keeps_largest K seen (_topk_model (self_of m1))
  /\ _topn (self_of m1) = Z.min (Dict.len seen) K
  /\ forall (t : Trainer) (r : Res) (p : option string * metric),
      resolve (self_of m1) r = Ok p ->
      let c := (name_of (with_real_monitor (self_of m1) (fst p)) t (snd p),
                snd p) in
      ~ In (fst c) (Dict.keys seen) ->
      K <= Dict.len seen ->
      let m2 := snd (step t r m1) in
      exists l,
        least_valuable (self_of m1) = Ok l
        /\ In l (_topk_model (self_of m1))
        /\ (forall y, In y (_topk_model (self_of m1)) -> value_le l y)
        /\ first_least l (_topk_model (self_of m1))
        /\ (metric_gt (snd p) (snd l) = true ->
            _topk_model (self_of m2)
            = Dict.remove (fst l) (_topk_model (self_of m1)) ++ [c]
            /\ evictions m2 = evictions m1 + 1
            /\ admissions m2 = admissions m1 + 1)
        /\ (metric_gt (snd p) (snd l) = false ->
            _topk_model (self_of m2) = _topk_model (self_of m1)
            /\ evictions m2 = evictions m1
            /\ admissions m2 = admissions m1).
Proof.
  intros HK H1 Hlb Hd Hn seen Hnd Hnum m1.
  pose proof (shaped_fresh K m0 HK H1 Hd Hn) as H0.
  assert (Hb0 : keeps_best (larger_better (self_of m0)) K []
                  (_topk_model (self_of m0)))
    by (rewrite Hd; apply best_nothing; lia).
  destruct (run_shape K evs H1 m0 [] H0 Hnd) as (Hinv & Hlb1 & _ & Hret).
  pose proof (run_keeps_best K evs H1 m0 [] H0 Hb0 Hnd Hnum) as Hkeep.
  cbn [app] in Hinv, Hkeep. fold seen in Hinv, Hkeep. fold m1 in Hinv, Hkeep, Hlb1.
  rewrite Hlb in Hkeep, Hlb1.
  split; [exact Hret |].
  split; [now apply keeps_largest_best |].
  split; [apply Hinv |].
  intros t r p Hr c Hfresh Hfull m2.
  destruct (step_shape K seen t r m1 p H1 Hinv Hr Hfresh)
    as (_ & _ & _ & _ & _ & _ & Hstep).
  destruct (Hstep Hfull) as (l & Hl & Hin & Hadmit & Hreject).
  pose proof (retained_numbers K seen m1 Hinv Hnum) as Hkept.
  destruct (least_valuable_is_least _ _ Hkept Hl) as [_ Hmin].
  rewrite Hlb1 in Hmin.
  exists l. split; [exact Hl |]. split; [exact Hin |]. split; [exact Hmin |].
  split.
  { apply py_min_first_least; [exact Hkept |].
    unfold least_valuable in Hl. now rewrite Hlb1 in Hl. }
  fold m2 in Hadmit, Hreject. cbn [snd] in Hadmit, Hreject.
  rewrite (strictly_better_larger _ _ _ Hlb1) in Hadmit, Hreject.
  split.
  - intros Hgt. destruct (Hadmit Hgt) as [Hd2 Hos]. split; [exact Hd2 |].
    unfold evictions, admissions. rewrite Hos, trace_saved, !count_app.
    rewrite trace_removed_dir, !count_app. unfold save_effects, count. cbn.
    lia.
  - intros Hle. destruct (Hreject Hle) as [Hd2 Hos]. split; [exact Hd2 |].
    unfold evictions, admissions. now rewrite Hos.
Qed.

End TopKProperties.

(** ** The retention engine at concrete runs *)

Ltac distinct_strings :=
  repeat (constructor; [cbn; intuition discriminate |]); constructor.

(** The claim of C1 as it is worded (ties broken in favour of the candidate
    seen first) fails with [K = 2] on the values 0.5, 0.5, 0.7: the third
    validation evicts the first of the two tied entries, so the mapping
    keeps the second 0.5, not the first. *)
Lemma earlier_of_tied_entries_is_evicted :
  exists m : machine,
    started top2_args run_A = Some m
    /\ let evs := [validation 1 10 0.5; validation 2 20 0.5;
                   validation 3 30 0.7] in
       let seen := seen_candidates (self_of m) evs in
       let retained := _topk_model (self_of (snd (run_validations evs m))) in
       NoDup (Dict.keys seen)
       /\ fst (run_validations evs m) = Ok tt
       /\ topk_first_seen 2 seen
          = [("model-epoch_1-batch_10-acc_5#10", Number (Finite 0.5));
             ("model-epoch_3-batch_30-acc_7#10", Number (Finite 0.7))]
       /\ retained
          = [("model-epoch_2-batch_20-acc_5#10", Number (Finite 0.5));
             ("model-epoch_3-batch_30-acc_7#10", Number (Finite 0.7))]
       /\ ~ (forall e, In e retained <-> In e (topk_first_seen 2 seen)).
Proof.
  eexists. split; [vm_compute; reflexivity |]. cbv zeta.
  split; [vm_compute; distinct_strings |].
  split; [vm_compute; reflexivity |].
  split; [vm_compute; reflexivity |].
  split; [vm_compute; reflexivity |].
  intros H.
  specialize (H ("model-epoch_1-batch_10-acc_5#10", Number (Finite 0.5))).
  destruct H as [_ H].
  assert (Hin : In ("model-epoch_1-batch_10-acc_5#10", Number (Finite 0.5))
                   [("model-epoch_2-batch_20-acc_5#10", Number (Finite 0.5));
                    ("model-epoch_3-batch_30-acc_7#10", Number (Finite 0.7))]).
  { apply H. vm_compute. now left. }
  cbn in Hin. intuition discriminate.
Qed.

(** [K = 2] and the values 0.5, 0.5: both entries are kept; of the two,
    tied for least valuable, the first inserted is the one that a third
    validation reporting 0.7 evicts. *)
Lemma topk_retains_largest_witness :
  exists m0 : machine,
    started top2_args run_A = Some m0
    /\ let evs := [validation 1 10 0.5; validation 2 20 0.5] in
       let seen := seen_candidates (self_of m0) evs in
       let m1 := snd (run_validations evs m0) in
       let m2 := snd (_save_topk (dict metric) exact_monitor_value show_metric
                        (fst (validation 3 30 0.7))
                        (snd (validation 3 30 0.7)) m1) in
       NoDup (Dict.keys seen)
       /\ Forall a_number seen
       /\ fst (run_validations evs m0) = Ok tt
       /\ keeps_largest 2 seen (_topk_model (self_of m1))
       /\ _topn (self_of m1) = 2
       /\ first_least
            ("model-epoch_1-batch_10-acc_5#10", Number (Finite 0.5))
            (_topk_model (self_of m1))
       /\ _topk_model (self_of m2)
          = [("model-epoch_2-batch_20-acc_5#10", Number (Finite 0.5));
             ("model-epoch_3-batch_30-acc_7#10", Number (Finite 0.7))].
Proof.
  eexists. split; [vm_compute; reflexivity |]. cbv zeta.
  match goal with
  | |- NoDup (Dict.keys (seen_candidates (self_of ?m) ?evs)) /\ _ =>
      assert (Hnd : NoDup (Dict.keys (seen_candidates (self_of m) evs)))
        by (vm_compute; distinct_strings);
      assert (Hnum : Forall a_number (seen_candidates (self_of m) evs))
        by (vm_compute; repeat constructor);
      destruct (topk_retains_largest (dict metric) exact_monitor_value
                  show_metric 2 m evs
                  ltac:(vm_compute; reflexivity) ltac:(lia)
                  ltac:(vm_compute; reflexivity)
                  ltac:(vm_compute; reflexivity)
                  ltac:(vm_compute; reflexivity) Hnd Hnum)
        as (Hret & Hkeep & Htopn & Hstep)
  end.
  split; [exact Hnd |]. split; [exact Hnum |].
  split; [apply Hret; vm_compute; reflexivity |].
  split; [exact Hkeep |].
  split; [vm_compute; reflexivity |].
  destruct (Hstep (fst (validation 3 30 0.7)) (snd (validation 3 30 0.7))
              (Some "acc", Number (Finite 0.7))
              ltac:(vm_compute; reflexivity)
              ltac:(vm_compute; intuition discriminate)
              ltac:(vm_compute; discriminate))
    as (l & Hl & _ & _ & Hfirst & Hadmit & _).
  vm_compute in Hl. injection Hl as <-.
  split; [exact Hfirst |].
  destruct (Hadmit ltac:(vm_compute; reflexivity)) as [Hd _].
  etransitivity; [exact Hd |]. vm_compute. reflexivity.
Defined.

(** A NaN among the values breaks the retention of the largest: with
    [K = 2] on NaN, 0.5, 0.7 the NaN entry is found least valuable, no
    candidate compares as better than it, and 0.7 is rejected. *)
Lemma nan_entry_is_never_evicted :
  exists m : machine,
    started top2_args run_A = Some m
    /\ let evs := [reporting 1 10 NaN; validation 2 20 0.5;
                   validation 3 30 0.7] in
       NoDup (Dict.keys (seen_candidates (self_of m) evs))
       /\ fst (run_validations evs m) = Ok tt
       /\ _topk_model (self_of (snd (run_validations evs m)))
          = [("model-epoch_1-batch_10-acc_nan", Number NaN);
             ("model-epoch_2-batch_20-acc_5#10", Number (Finite 0.5))].
Proof.
  eexists. split; [vm_compute; reflexivity |]. cbv zeta.
  split; [vm_compute; distinct_strings |].
  split; vm_compute; reflexivity.
Qed.

Lemma topk_counts_witness :
  exists m0 : machine,
    started top2_args run_A = Some m0
    /\ let r := run_validations
                  [validation 1 10 0.5; validation 2 20 0.7;
                   validation 3 30 0.6; validation 4 40 0.9] m0 in
       let n_admissions := admissions (snd r) - admissions m0 in
       let n_evictions := evictions (snd r) - evictions m0 in
       n_admissions = 4
       /\ Dict.len (_topk_model (self_of (snd r))) <= 2
       /\ _topn (self_of (snd r)) = Z.min n_admissions 2
       /\ (fst r = Ok tt -> n_evictions = n_admissions - Z.min n_admissions 2).
Proof.
  eexists. split; [vm_compute; reflexivity |]. cbv zeta.
  split; [vm_compute; reflexivity |].
  apply (topk_counts (dict metric) exact_monitor_value show_metric 2);
    try (vm_compute; reflexivity); lia.
Defined.

(** ** The periodic triggers at concrete runs *)

(** Scenario A: an interval of 2 over five epochs, without the last save. *)
Lemma epoch_end_saves_witness :
  exists m : machine,
    started (model_args (Some 2) false None None) run_A = Some m
    /\ 1 <= save_every_n_epochs (self_of m)
    /\ saved_folders (trace (os (snd (run_epochs 100 5 m))))
       = ["/ckpt/run-A/model-epoch_2"; "/ckpt/run-A/model-epoch_4"].
Proof.
  eexists. split; [vm_compute; reflexivity |].
  split; [vm_compute; discriminate |].
  match goal with
  | |- saved_folders (trace (os (snd (run_epochs _ _ ?m)))) = _ =>
      destruct (epoch_end_saves m ltac:(vm_compute; discriminate))
        as (_ & _ & H)
  end.
  etransitivity; [apply H; vm_compute; reflexivity |].
  vm_compute. reflexivity.
Defined.

Lemma unconfigured_interval_is_dormant_witness :
  exists (self : CheckpointCallback) (w' : world),
    __init__ (model_args None true None None) run_A = (Ok self, w')
    /\ save_every_n_epochs self = sys_maxsize
    /\ save_every_n_batches self = sys_maxsize
    /\ saved_folders
         (trace (os (snd (epoch_ends
                            [at_epoch 100 1; at_epoch 100 2; at_epoch 100 3]
                            {| self_of := self; os := w' |}))))
       = ["/ckpt/run-A/model-last"; "/ckpt/run-A/model-last";
          "/ckpt/run-A/model-last"]
    /\ batch_ends [at_epoch 100 1; at_epoch 100 2; at_epoch 100 3]
         {| self_of := self; os := w' |}
       = (Ok tt, {| self_of := self; os := w' |}).
Proof.
  eexists. eexists. split; [vm_compute; reflexivity |].
  match goal with
  | |- save_every_n_epochs ?s = _ /\ _ =>
      destruct (unconfigured_interval_is_dormant
                  (model_args None true None None) run_A
                  (made_dir "/ckpt/run-A" run_A) s
                  ltac:(vm_compute; reflexivity)) as [He Hb]
  end.
  destruct (He eq_refl) as [He1 He2]. destruct (Hb eq_refl) as [Hb1 Hb2].
  split; [exact He1 |]. split; [exact Hb1 |].
  assert (Hepochs : Forall (fun t => reachable_counter (cur_epoch_idx t))
                      [at_epoch 100 1; at_epoch 100 2; at_epoch 100 3]).
  { repeat (apply Forall_cons;
            [unfold reachable_counter, sys_maxsize;
             cbn [at_epoch cur_epoch_idx]; lia |]).
    apply Forall_nil. }
  assert (Hbatches : Forall (fun t => reachable_counter
                                        (global_forward_batches t))
                       [at_epoch 100 1; at_epoch 100 2; at_epoch 100 3]).
  { repeat (apply Forall_cons;
            [unfold reachable_counter, sys_maxsize;
             cbn [at_epoch global_forward_batches]; lia |]).
    apply Forall_nil. }
  split.
  - destruct (He2 _ (made_dir "/ckpt/run-A" run_A) Hepochs)
      as (_ & _ & _ & Htrace).
    etransitivity; [exact (f_equal saved_folders Htrace) |].
    vm_compute. reflexivity.
  - exact (proj2 (Hb2 _ (made_dir "/ckpt/run-A" run_A) Hbatches)).
Defined.

(* ================================================================= *)
(** * Further properties of the checkpoint callback *)

(** ** The constructor *)

Lemma check_interval_is_ok (v : pyval) (msg : string) :
  is_ok (check_interval v msg) = at_least_one v.
Proof.
  unfold check_interval, at_least_one.
  destruct v as [| n | | |]; try reflexivity.
  destruct (Z.ltb_spec n 1), (Z.leb_spec 1 n); try reflexivity; lia.
Qed.

Lemma check_topk_is_ok (v : pyval) :
  is_ok (check_topk v) = at_least_one v.
Proof.
  unfold check_topk, at_least_one.
  destruct v as [| n | | |]; try reflexivity.
  destruct (Z.ltb_spec n 1), (Z.leb_spec 1 n); try reflexivity; lia.
Qed.

Lemma check_exceptions_is_ok (o : option (pyclass + list pyclass)) :
  is_ok (check_exceptions o) = only_exceptions o.
Proof.
  unfold check_exceptions, only_exceptions.
  destruct o as [[c | l] |]; [| | reflexivity].
  - cbn. rewrite andb_true_r. now destruct (issubclass c C_BaseException).
  - now destruct (forallb _ l).
Qed.

Lemma init_is_ok_valid (a : init_args) (w : world) :
  is_ok (fst (__init__ a w)) = valid_args a w
  /\ (valid_args a w = false ->
      fs_dirs (snd (__init__ a w)) = fs_dirs w
      /\ fs_files (snd (__init__ a w)) = fs_files w).
Proof.
  unfold __init__, valid_args, chosen_folder.
  rewrite <- (check_interval_is_ok (arg_save_every_n_epochs a)
    "parameter save_after_epoch_num should be an int and greater than or equal to 1.").
  rewrite <- (check_interval_is_ok (arg_save_every_n_batches a)
    "parameter save_every_n_batches should be an int and greater than or equal to 1.").
  rewrite <- check_topk_is_ok, <- check_exceptions_is_ok.
  unfold path_exists, path_is_file.
  destruct (arg_monitor a), (arg_save_topk a), (arg_save_folder a);
    cbn [is_None isinstance_str None_or_str None_or_Path type_name
         negb andb orb fst snd is_ok fs_dirs fs_files emitted with_trace
         launch_time];
    try solve [split; [reflexivity | intros _; split; reflexivity]];
    match goal with
    | |- context [in_strs ?f (fs_dirs w)] =>
        destruct (in_strs f (fs_dirs w)), (in_strs f (fs_files w))
    end;
    repeat (cbn [negb andb orb fst snd is_ok is_some];
            match goal with
            | |- context [match ?x with _ => _ end] => destruct x
            end);
    cbn [negb andb orb fst snd is_ok is_some fs_dirs fs_files emitted
         with_trace];
    (split; [reflexivity | try discriminate; auto]).
Qed.

(** X1. [__init__] returns a callback exactly when the arguments are
    valid: the monitor is [None] or a [str], and not [None] when
    [save_topk] is given; the save folder is [None] or a [Path] (a [str]
    is not accepted), exists and is not a file; the two intervals and the
    top-K width are [None] or an [int] that is at least 1; every listed
    exception class derives from [BaseException]; and the launch time is
    in the environment.  When it raises, no directory has been created.
    A save folder given as a [str] passes the tests on the monitor and
    then raises [AttributeError], whatever else is given. *)
Theorem constructor_accepts_valid_args (a : init_args) (w : world) :
  is_ok (fst (__init__ a w)) = valid_args a w
  /\ (valid_args a w = false ->
      fs_dirs (snd (__init__ a w)) = fs_dirs w
      /\ fs_files (snd (__init__ a w)) = fs_files w)
  /\ (forall s,
         arg_save_folder a = PyStr s ->
         (negb (is_None (arg_monitor a)) || is_None (arg_save_topk a))
         && None_or_str (arg_monitor a) = true ->
         __init__ a w
         = (Raise (AttributeError "'str' object has no attribute 'exists'"),
            w)).
Proof.
  split; [exact (proj1 (init_is_ok_valid a w)) |].
  split; [exact (proj2 (init_is_ok_valid a w)) |].
  intros s Hs Hmon. unfold __init__. rewrite Hs.
  destruct (arg_monitor a), (arg_save_topk a); cbn in Hmon |- *;
    try discriminate; reflexivity.
Qed.

Lemma init_result (a : init_args) (w w' : world) (self : CheckpointCallback) :
  __init__ a w = (Ok self, w') ->
  exists stamp,
    launch_time w = Some stamp
    /\ save_folder self = chosen_folder a w
    /\ timestamp_path self = joinpath (chosen_folder a w) stamp
    /\ save_on_exception self = allow_list (arg_save_on_exception a)
    /\ only_state_dict self = arg_only_state_dict a
    /\ w' = made_dir (joinpath (chosen_folder a w) stamp) (warned a w).
Proof.
  unfold __init__, chosen_folder, warned, allow_list.
  destruct (is_None (arg_monitor a) && negb (is_None (arg_save_topk a)));
    [discriminate |].
  destruct (negb (is_None (arg_monitor a))
            && negb (isinstance_str (arg_monitor a))); [discriminate |].
  destruct (arg_save_folder a) as [| | | | p]; try discriminate.
  all: match goal with
       | |- context [if negb ?b then _ else _] =>
           destruct b; cbn [negb]; [| discriminate]
       end.
  all: match goal with
       | |- context [if ?b then _ else _] => destruct b; [discriminate |]
       end.
  all: destruct (check_interval (arg_save_every_n_epochs a) _);
         [| discriminate].
  all: destruct (check_interval (arg_save_every_n_batches a) _);
         [| discriminate].
  all: destruct (check_topk (arg_save_topk a)); [| discriminate].
  all: unfold check_exceptions;
       destruct (arg_save_on_exception a) as [[c | l] |].
  all: match goal with
       | |- context [if ?b then _ else _] => destruct b; [| discriminate]
       | _ => idtac
       end.
  all: cbn [launch_time emitted with_trace];
       destruct (launch_time w) as [stamp |]; [| discriminate].
  all: intros H; injection H as <- <-; exists stamp; cbn; auto 10.
Qed.

(** X2. A successful construction names the run directory after the
    launch time, directly below the save folder, and has created it: the
    directory exists afterwards, every path that existed still does, and
    no file was touched. *)
Theorem constructor_creates_run_directory
        (a : init_args) (w w' : world) (self : CheckpointCallback) :
  __init__ a w = (Ok self, w') ->
  exists stamp,
    launch_time w = Some stamp
    /\ timestamp_path self = joinpath (chosen_folder a w) stamp
    /\ path_exists w' (timestamp_path self) = true
    /\ (forall p, path_exists w p = true -> path_exists w' p = true)
    /\ fs_files w' = fs_files w
    /\ saved_folders (trace w') = saved_folders (trace w).
Proof.
  intros H. destruct (init_result _ _ _ _ H)
    as (stamp & Hs & _ & Hts & _ & _ & ->).
  exists stamp. split; [exact Hs |]. split; [exact Hts |]. rewrite Hts.
  set (ts := joinpath (chosen_folder a w) stamp).
  assert (Hfs : fs_dirs (warned a w) = fs_dirs w
                /\ fs_files (warned a w) = fs_files w
                /\ saved_folders (trace (warned a w)) = saved_folders (trace w)).
  { unfold warned. destruct (arg_save_folder a); cbn; auto.
    rewrite saved_folders_app. cbn. now rewrite app_nil_r. }
  destruct Hfs as (Hd & Hf & Ht).
  unfold path_exists, made_dir. cbn [fs_dirs fs_files emitted with_fs with_trace
    trace]. rewrite Hd, Hf.
  split; [| split; [| split]].
  - destruct (in_strs ts (fs_dirs w)) eqn:Hin; [now rewrite Hin |].
    unfold in_strs. rewrite existsb_app. cbn. rewrite String.eqb_refl.
    now rewrite orb_true_r.
  - intros p Hp. destruct (in_strs ts (fs_dirs w)); [exact Hp |].
    unfold in_strs in *. rewrite existsb_app.
    apply orb_true_iff in Hp. destruct Hp as [Hp | Hp]; rewrite Hp;
      [reflexivity | apply orb_true_r].
  - reflexivity.
  - rewrite saved_folders_app. cbn. rewrite app_nil_r. exact Ht.
Qed.

Lemma constructor_creates_run_directory_witness :
  exists (self : CheckpointCallback) (w' : world),
    __init__ top2_args run_A = (Ok self, w')
    /\ timestamp_path self = "/ckpt/run-A"
    /\ path_exists run_A "/ckpt/run-A" = false
    /\ path_exists w' "/ckpt/run-A" = true.
Proof.
  do 2 eexists. split; [vm_compute; reflexivity |].
  match goal with
  | |- timestamp_path ?s = _ /\ _ /\ path_exists ?w _ = _ =>
      destruct (constructor_creates_run_directory top2_args run_A w s
                  ltac:(vm_compute; reflexivity))
        as (stamp & _ & _ & Hex & _)
  end.
  split; [vm_compute; reflexivity |]. split; [vm_compute; reflexivity |].
  exact Hex.
Defined.



(** ** The batch trigger *)




(** ** More on the restore *)

Lemma set_same_entry (d : dict metric) (k : string) (v : metric) :
  NoDup (Dict.keys d) -> In (k, v) d -> Dict.set k v d = d.
Proof.
  unfold Dict.keys. induction d as [| [k' v'] d IH]; cbn; [tauto |].
  intros Hnd Hin. inversion Hnd as [| ? ? Hnotin Hnd']; subst.
  destruct (String.eqb_spec k k') as [-> | Hne].
  - destruct Hin as [Heq | Hin]; [now injection Heq as -> |].
    exfalso. apply Hnotin. now apply (in_map fst) in Hin.
  - destruct Hin as [Heq | Hin]; [congruence |]. now rewrite IH.
Qed.

Lemma update_self (d : dict metric) :
  NoDup (Dict.keys d) -> Dict.update d d = d.
Proof.
  intros Hnd. unfold Dict.update.
  assert (H : forall l, incl l d ->
                fold_left (fun acc kv => Dict.set (fst kv) (snd kv) acc) l d = d).
  { induction l as [| [k v] l IH]; intros Hl; [reflexivity |].
    cbn. rewrite set_same_entry; [| exact Hnd | apply Hl; now left].
    apply IH. intros x Hx. apply Hl. now right. }
  apply H, incl_refl.
Qed.

Arguments Dict.update : simpl never.

(** X5. Whatever the states hold and whether it returns or raises,
    [on_load_checkpoint] changes nothing of the callback but the run
    directory and the pinned monitor: the retention mapping, its count and
    the whole configuration are as before; it creates and deletes nothing
    on disk and saves nothing.  States without [timestamp_path] raise
    [KeyError] with everything untouched. *)
Theorem restore_touches_only_directory_and_monitor
        (states : dict state_val) (m : machine) :
  NoDup (Dict.keys (_topk_model (self_of m))) ->
  let r := on_load_checkpoint states m in
  with_real_monitor
    (with_timestamp_path (self_of m) (timestamp_path (self_of (snd r))))
    (_real_monitor (self_of (snd r)))
  = self_of (snd r)
  /\ fs_dirs (os (snd r)) = fs_dirs (os m)
  /\ fs_files (os (snd r)) = fs_files (os m)
  /\ saved_folders (trace (os (snd r))) = saved_folders (trace (os m))
  /\ (Dict.get "timestamp_path" states = None ->
      r = (Raise (KeyError "timestamp_path"), m)).
Proof.
  intros Hnd r. subst r. destruct m as [self w]. cbn [self_of os] in *.
  assert (Hlog : forall msg, saved_folders (trace w ++ [LogInfo msg])
                             = saved_folders (trace w)).
  { intros msg. rewrite saved_folders_app. cbn. apply app_nil_r. }
  unfold on_load_checkpoint. run_monad.
  destruct self. cbn [_topk_model] in Hnd.
  destruct (Dict.get "timestamp_path" states) as [[| z | p | d] |]; cbn;
    try (split; [reflexivity |]; repeat split; discriminate).
  destruct (path_exists w p); cbn.
  - destruct (Dict.get "_topk_model" states) as [d |]; cbn;
      [| split; [reflexivity |]; rewrite ?Hlog;
         repeat split; discriminate].
    destruct (Dict.get "save_topk" states) as [[| n | s | d'] |]; cbn;
      try (split; [reflexivity |]; rewrite ?Hlog;
           repeat split; discriminate).
    destruct (n =? 0), save_topk0 as [k |]; cbn;
      try destruct (k =? n); cbn; rewrite ?(update_self _ Hnd);
      try (destruct (Dict.get "real_monitor" states) as [[| z | s | d'] |];
           cbn);
      (split; [reflexivity |]; rewrite ?Hlog;
       repeat split; discriminate).
  - destruct (Dict.get "real_monitor" states) as [[| z | s | d'] |]; cbn;
      (split; [reflexivity |]; rewrite ?Hlog;
       repeat split; discriminate).
Qed.

Lemma restore_touches_only_directory_and_monitor_witness :
  exists m : machine,
    started top2_args resumed_with_dir = Some m
    /\ let r := on_load_checkpoint (states_of_width 2) m in
       _topk_model (self_of (snd r)) = []
       /\ timestamp_path (self_of (snd r)) = "/ckpt/run-A"
       /\ fs_dirs (os (snd r)) = fs_dirs (os m).
Proof.
  eexists. split; [vm_compute; reflexivity |].
  match goal with
  | |- let r := on_load_checkpoint ?st ?m in _ =>
      destruct (restore_touches_only_directory_and_monitor st m
                  ltac:(vm_compute; constructor)) as (Hself & Hd & _)
  end.
  cbv zeta. split; [| split; [vm_compute; reflexivity | exact Hd]].
  rewrite <- Hself. reflexivity.
Defined.

(** X6. When the recorded run directory is gone (Scenario D), the restore
    logs the fallback and keeps the fresh run directory; it then re-pins
    the monitor stored under [real_monitor] and returns, or raises
    [KeyError] when the states have no such key.  Nothing else changes. *)
Theorem restore_without_directory
        (states : dict state_val) (m : machine) (p : string) :
  Dict.get "timestamp_path" states = Some (S_str p) ->
  path_exists (os m) p = false ->
  let r := on_load_checkpoint states m in
  let logged :=
    emitted (LogInfo (fallback_message p
                        (absolute (os m) (timestamp_path (self_of m)))))
            (os m) in
  timestamp_path (self_of (snd r)) = timestamp_path (self_of m)
  /\ os (snd r) = logged
  /\ (forall v mon,
         Dict.get "real_monitor" states = Some v ->
         as_monitor v = Ok mon ->
         r = (Ok tt, {| self_of := with_real_monitor (self_of m) mon;
                        os := logged |}))
  /\ (Dict.get "real_monitor" states = None ->
      r = (Raise (KeyError "real_monitor"),
           {| self_of := self_of m; os := logged |})).
Proof.
  intros Hts Hex r logged. subst r logged.
  unfold on_load_checkpoint, fallback_message. run_monad.
  rewrite Hts. cbn [as_path]. rewrite Hex. cbn [negb self_of os].
  destruct (Dict.get "real_monitor" states) as [v |].
  - destruct (as_monitor v) as [mon |] eqn:Hv; cbn [fst snd self_of os
      with_real_monitor timestamp_path].
    + repeat split; [| discriminate].
      intros v' mon' Hv' Hmon'. injection Hv' as <-. congruence.
    + repeat split; [| discriminate].
      intros v' mon' Hv' Hmon'. injection Hv' as <-. congruence.
  - cbn. repeat split. intros v mon Hv. discriminate.
Qed.

Lemma restore_without_directory_witness :
  exists m : machine,
    started top2_args resumed_without_dir = Some m
    /\ let r := on_load_checkpoint (states_of_width 2) m in
       fst r = Ok tt
       /\ timestamp_path (self_of (snd r)) = "/ckpt/run-B"
       /\ _real_monitor (self_of (snd r)) = Some "accuracy".
Proof.
  eexists. split; [vm_compute; reflexivity |].
  match goal with
  | |- let r := on_load_checkpoint ?st ?m in _ =>
      destruct (restore_without_directory st m "/ckpt/run-A"
                  ltac:(vm_compute; reflexivity)
                  ltac:(vm_compute; reflexivity)) as (_ & _ & Hok & _);
      specialize (Hok (S_str "accuracy") (Some "accuracy")
                      ltac:(vm_compute; reflexivity) eq_refl)
  end.
  cbv zeta. rewrite Hok. repeat split.
Defined.

(** X7. When the recorded run directory exists and the states carry
    [_topk_model], an integer [save_topk] that is 0 or agrees with the
    configured width (or no width is configured) and a monitor under
    [real_monitor], the restore returns: it has logged the resumption,
    adopted the recorded directory and re-pinned the monitor, and nothing
    else has changed. *)
Theorem restore_into_directory
        (states : dict state_val) (m : machine) (p : string) (n : Z)
        (v : state_val) (mon : option string) :
  Dict.get "timestamp_path" states = Some (S_str p) ->
  path_exists (os m) p = true ->
  Dict.mem "_topk_model" states = true ->
  Dict.get "save_topk" states = Some (S_int n) ->
  n = 0 \/ save_topk (self_of m) = None \/ save_topk (self_of m) = Some n ->
  Dict.get "real_monitor" states = Some v ->
  as_monitor v = Ok mon ->
  NoDup (Dict.keys (_topk_model (self_of m))) ->
  on_load_checkpoint states m
  = (Ok tt,
     {| self_of := with_real_monitor (with_timestamp_path (self_of m) p) mon;
        os := emitted (LogInfo (resume_message p)) (os m) |}).
Proof.
  intros Hts Hex Hd Hn Hw Hv Hmon Hnd.
  unfold on_load_checkpoint, resume_message. run_monad.
  rewrite Hts. cbn [as_path]. rewrite Hex. cbn [negb].
  unfold Dict.mem in Hd.
  destruct (Dict.get "_topk_model" states); [| discriminate].
  rewrite Hn. cbn [py_int]. rewrite Hv, Hmon.
  destruct m as [self w]. destruct self.
  cbn [self_of os save_topk with_timestamp_path _topk_model _topn] in *.
  assert (Hcheck :
            match (if n =? 0 then None else Some n), save_topk0 with
            | Some k', Some k => k =? k'
            | _, _ => true
            end = true).
  { destruct (Z.eqb_spec n 0) as [-> | Hn0]; [reflexivity |].
    destruct Hw as [-> | [-> | ->]]; try reflexivity; try tauto.
    apply Z.eqb_refl. }
  destruct (n =? 0); [| destruct save_topk0 as [k |];
                        [rewrite Hcheck |]];
    cbn; rewrite (update_self _ Hnd); reflexivity.
Qed.

Lemma restore_into_directory_witness :
  exists m : machine,
    started top2_args resumed_with_dir = Some m
    /\ let r := on_load_checkpoint (states_of_width 2) m in
       fst r = Ok tt
       /\ timestamp_path (self_of (snd r)) = "/ckpt/run-A"
       /\ _real_monitor (self_of (snd r)) = Some "accuracy".
Proof.
  eexists. split; [vm_compute; reflexivity |].
  match goal with
  | |- let r := on_load_checkpoint ?st ?m in _ =>
      pose proof (restore_into_directory st m "/ckpt/run-A" 2
                    (S_str "accuracy") (Some "accuracy")
                    ltac:(vm_compute; reflexivity)
                    ltac:(vm_compute; reflexivity)
                    ltac:(vm_compute; reflexivity)
                    ltac:(vm_compute; reflexivity)
                    ltac:(right; right; vm_compute; reflexivity)
                    ltac:(vm_compute; reflexivity) eq_refl
                    ltac:(vm_compute; constructor)) as Hok
  end.
  cbv zeta. rewrite Hok. repeat split.
Defined.

(* ================================================================= *)
(** * Further properties of the retention engine *)

Section RetentionBothWays.

Variable Res : Type.
Variable _get_monitor_value :
  option string -> option string -> Res -> res (option string * metric).
Variable format_metric : metric -> string.

Local Abbreviation step := (_save_topk Res _get_monitor_value format_metric).
Local Abbreviation run := (validations Res _get_monitor_value format_metric).
Local Abbreviation shown := (candidates Res _get_monitor_value format_metric).
Local Abbreviation name_of := (topk_folder_name format_metric).
Local Abbreviation resolve :=
  (fun self r => _get_monitor_value (monitor self) (_real_monitor self) r).



(** ** A repeated folder name *)

Lemma keys_set_incl (d : dict metric) (k : string) (v : metric) :
  incl (Dict.keys (Dict.set k v d)) (k :: Dict.keys d).
Proof.
  unfold Dict.keys. induction d as [| [k' v'] d IH]; cbn.
  - apply incl_refl.
  - destruct (String.eqb_spec k k') as [-> | Hne]; cbn.
    + apply incl_tl, incl_refl.
    + intros x [<- | Hx]; [right; now left |].
      destruct (IH x Hx) as [<- | Hx']; [now left | right; now right].
Qed.

Lemma NoDup_keys_set (d : dict metric) (k : string) (v : metric) :
  NoDup (Dict.keys d) -> NoDup (Dict.keys (Dict.set k v d)).
Proof.
  intros Hnd.
  destruct (in_dec string_dec k (Dict.keys d)) as [Hin | Hnin].
  - now rewrite keys_set_present.
  - rewrite set_fresh by exact Hnin. now apply NoDup_keys_snoc.
Qed.

Lemma filled_keys (cs d : dict metric) :
  NoDup (Dict.keys d) ->
  NoDup (Dict.keys (filled d cs))
  /\ incl (Dict.keys (filled d cs)) (Dict.keys d ++ Dict.keys cs)
  /\ (List.length d <= List.length (filled d cs))%nat.
Proof.
  revert d. induction cs as [| [k v] cs IH]; intros d Hnd; cbn.
  - rewrite app_nil_r. split; [exact Hnd |]. split; [apply incl_refl | lia].
  - destruct (IH (Dict.set k v d) (NoDup_keys_set d k v Hnd))
      as (Hnd' & Hincl & Hlen).
    split; [exact Hnd' |]. split.
    + intros x Hx. apply Hincl in Hx. apply in_app_or in Hx.
      apply in_or_app. destruct Hx as [Hx | Hx]; [| right; now right].
      apply keys_set_incl in Hx. destruct Hx as [<- | Hx];
        [right; now left | now left].
    + pose proof (length_set d k v). unfold filled in *. lia.
Qed.

Lemma filled_short (cs : dict metric) :
  ~ NoDup (Dict.keys cs) ->
  (0 < List.length (filled [] cs) < List.length cs)%nat.
Proof.
  intros Hdup.
  destruct (filled_keys cs [] (NoDup_nil _)) as (Hnd & Hincl & _).
  cbn [Dict.keys map app] in Hincl.
  pose proof (NoDup_incl_length Hnd Hincl) as Hle.
  unfold Dict.keys in *. rewrite !length_map in Hle.
  assert (Hne : List.length (filled [] cs) <> List.length cs).
  { intros Heq. apply Hdup.
    apply (NoDup_incl_NoDup Hnd); [| exact Hincl].
    rewrite !length_map. lia. }
  split; [| lia].
  destruct cs as [| [k v] cs]; [exfalso; apply Hdup; constructor |].
  change (filled [] ((k, v) :: cs)) with (filled [(k, v)] cs).
  destruct (filled_keys cs [(k, v)]) as (_ & _ & Hlen).
  - cbn. constructor; [tauto | constructor].
  - cbn [List.length] in Hlen. lia.
Qed.

Lemma run_fills (K : Z) (evs : list (Trainer * Res)) :
  forall m : machine,
    save_topk (self_of m) = Some K ->
    _topn (self_of m) + Z.of_nat (List.length evs) <= K ->
    List.length (shown (self_of m) evs) = List.length evs ->
    let m' := snd (run evs m) in
    fst (run evs m) = Ok tt
    /\ save_topk (self_of m') = Some K
    /\ _topn (self_of m') = _topn (self_of m) + Z.of_nat (List.length evs)
    /\ _topk_model (self_of m')
       = filled (_topk_model (self_of m)) (shown (self_of m) evs).
Proof.
  induction evs as [| ev evs IH]; intros m HK Hn Hall m'; subst m'.
  - cbn. repeat split; auto. lia.
  - cbn [validations candidates] in *. unfold on_validate_end.
    destruct (_get_monitor_value (monitor (self_of m))
                (_real_monitor (self_of m)) (snd ev)) as [p | e] eqn:Hr;
      [| discriminate].
    assert (Hstep := step_fill Res _get_monitor_value format_metric
                       (fst ev) (snd ev) m K p HK Hr
                       ltac:(cbn [List.length] in Hn; lia)).
    cbv zeta in Hstep. erewrite bind_ok by exact Hstep.
    match type of Hstep with
    | _ = (_, ?m1) =>
        destruct (IH m1) as (Hok & HK' & Hn' & Hd');
          [exact HK
          | cbn [self_of with_topk _topn List.length] in *; lia
          | cbn [self_of]; cbn [List.length] in Hall;
            erewrite shown_same_naming;
              [injection Hall as Hall; exact Hall | now repeat split]
          |]
    end.
    cbn [self_of with_topk _topn _topk_model] in Hn', Hd'.
    split; [exact Hok |]. split; [exact HK' |].
    split; [cbn [List.length]; lia |].
    rewrite Hd'. cbn [filled fold_left fst snd].
    erewrite shown_same_naming; [reflexivity | now repeat split].
Qed.

(** X10. When two of the first [K] candidates of a fresh callback bear
    the same folder name, the second overwrites the first while [_topn]
    still grows: after these [K] validations, which all return, the count
    is [K] but the mapping is shorter.  Every later consideration whose
    monitor is resolved then raises [AssertionError], and saves nothing. *)
Theorem repeated_folder_name_breaks_width
        (K : Z) (m0 : machine) (evs : list (Trainer * Res)) :
  save_topk (self_of m0) = Some K ->
  _topk_model (self_of m0) = [] ->
  _topn (self_of m0) = 0 ->
  Z.of_nat (List.length evs) = K ->
  let seen := shown (self_of m0) evs in
  List.length seen = List.length evs ->
  ~ NoDup (Dict.keys seen) ->
  let m1 := snd (run evs m0) in
  fst (run evs m0) = Ok tt
  /\ _topn (self_of m1) = K
  /\ 0 < Dict.len (_topk_model (self_of m1)) < K
  /\ forall (t : Trainer) (r : Res) (p : option string * metric),
      resolve (self_of m1) r = Ok p ->
      fst (step t r m1)
      = Raise (AssertionError
                 "len(self._topk_model) == self.save_topk == self._topn")
      /\ saved_folders (trace (os (snd (step t r m1))))
         = saved_folders (trace (os m1)).
Proof.
  intros HK Hd Hn Hlen seen Hall Hdup m1.
  destruct (run_fills K evs m0 HK ltac:(lia) Hall)
    as (Hok & HK1 & Hn1 & Hd1).
  fold m1 in HK1, Hn1, Hd1. fold seen in Hd1. rewrite Hd in Hd1.
  pose proof (filled_short seen Hdup) as Hshort. rewrite <- Hd1 in Hshort.
  assert (Hlen1 : 0 < Dict.len (_topk_model (self_of m1)) < K).
  { unfold Dict.len. rewrite <- Hlen, <- Hall. lia. }
  split; [exact Hok |]. split; [lia |]. split; [exact Hlen1 |].
  intros t r p Hr.
  destruct (least_valuable_found (self_of m1)) as [l Hl]; [lia |].
  rewrite (step_full Res _get_monitor_value format_metric
             t r m1 K p l HK1 Hr ltac:(lia) Hl).
  cbv zeta.
  pose proof (len_remove_set (_topk_model (self_of m1)) (fst l)
                (name_of (with_real_monitor (self_of m1) (fst p)) t (snd p))
                (snd p) (in_keys _ _ (least_valuable_in _ _ Hl))) as Hrm.
  assert (Hw1 : forall d, Dict.len d < K ->
                          width_holds K d (_topn (self_of m1)) = false).
  { intros d Hdl. unfold width_holds.
    destruct (Z.eqb_spec (Dict.len d) K); [lia | reflexivity]. }
  rewrite !Hw1 by lia.
  destruct (strictly_better (self_of m1) (snd p) (snd l)); cbn [fst snd os].
  - split; [reflexivity |].
    rewrite trace_removed_dir, saved_folders_app. cbn. apply app_nil_r.
  - split; reflexivity.
Qed.

End RetentionBothWays.



(** Two validations at the same epoch and batch reporting the same value
    bear the same folder name. *)
Lemma repeated_folder_name_breaks_width_witness :
  exists m0 : machine,
    started top2_args run_A = Some m0
    /\ let evs := [validation 1 10 0.5; validation 1 10 0.5] in
       let m1 := snd (run_validations evs m0) in
       fst (run_validations evs m0) = Ok tt
       /\ _topn (self_of m1) = 2
       /\ Dict.keys (_topk_model (self_of m1))
          = ["model-epoch_1-batch_10-acc_5#10"]
       /\ fst (_save_topk (dict metric) exact_monitor_value show_metric
                 (fst (validation 3 30 0.7)) (snd (validation 3 30 0.7)) m1)
          = Raise (AssertionError
                     "len(self._topk_model) == self.save_topk == self._topn").
Proof.
  eexists. split; [vm_compute; reflexivity |]. cbv zeta.
  match goal with
  | |- fst (run_validations ?evs ?m) = _ /\ _ =>
      destruct (repeated_folder_name_breaks_width (dict metric)
                  exact_monitor_value show_metric 2 m evs
                  ltac:(vm_compute; reflexivity)
                  ltac:(vm_compute; reflexivity)
                  ltac:(vm_compute; reflexivity)
                  ltac:(reflexivity)
                  ltac:(vm_compute; reflexivity))
        as (Hok & Hn & _ & Hstep)
  end.
  - vm_compute. intros H. inversion H as [| ? ? Hnotin _]; subst.
    apply Hnotin. now left.
  - split; [exact Hok |]. split; [exact Hn |].
    split; [vm_compute; reflexivity |].
    apply (Hstep (fst (validation 3 30 0.7)) (snd (validation 3 30 0.7))
                 (Some "acc", Number (Finite 0.7))).
    vm_compute. reflexivity.
Defined.

(* ================================================================= *)
(** * Further properties of the Jittor dataloader *)

Section LoaderStore.

Variable Collator : Type.
Variable PadArgs : Type.
Variable FieldNames : Type.
Variable collator_set_pad : Collator -> PadArgs -> Collator.
Variable collator_set_ignore : Collator -> FieldNames -> Collator.

Local Abbreviation set_pad := (Jittor.set_pad collator_set_pad).
Local Abbreviation set_ignore := (Jittor.set_ignore collator_set_ignore).
Local Abbreviation store := (Jittor.store Collator).
Local Abbreviation collator_at := (@JittorLoader.collator_at Collator).

Lemma deref_assign (r r' : Jittor.ref) (o : Jittor.object Collator)
      (h : store) :
  Jittor.deref r' (Jittor.assign r o h)
  = if Nat.eqb r' r
    then match Jittor.deref r h with Some _ => Some o | None => None end
    else Jittor.deref r' h.
Proof.
  induction h as [| [r0 o0] h IH]; cbn.
  - now destruct (Nat.eqb r' r).
  - destruct (Nat.eqb_spec r r0) as [-> | Hne]; cbn.
    + destruct (Nat.eqb_spec r' r0) as [-> | Hne']; [reflexivity |].
      reflexivity.
    + destruct (Nat.eqb_spec r' r0) as [-> | Hne'].
      * destruct (Nat.eqb_spec r0 r); [congruence | reflexivity].
      * exact IH.
Qed.

Lemma call_on_collator (c : Jittor.ref) (f : Collator -> Collator)
      (h : store) (r : Jittor.ref) :
  collator_at r (Jittor.call_on c f h)
  = (if Nat.eqb r c then option_map f (collator_at c h) else collator_at r h)
  /\ Jittor.wrapped_of r (Jittor.call_on c f h) = Jittor.wrapped_of r h
  /\ Jittor.isinstance_Collator r (Jittor.call_on c f h)
     = Jittor.isinstance_Collator r h.
Proof.
  unfold JittorLoader.collator_at, Jittor.call_on, Jittor.wrapped_of,
    Jittor.isinstance_Collator.
  destruct (Jittor.deref c h) as [o |] eqn:Hc.
  - destruct (Jittor.as_collator Collator o) as [x |] eqn:Hx.
    + rewrite deref_assign, Hc.
      destruct (Nat.eqb_spec r c) as [-> | Hne].
      * rewrite Hc. cbn. rewrite Hx. repeat split.
      * repeat split.
    + destruct (Nat.eqb_spec r c) as [-> | Hne]; [| repeat split].
      rewrite Hc. cbn. rewrite Hx. repeat split.
  - destruct (Nat.eqb_spec r c) as [-> | Hne]; [| repeat split].
    rewrite Hc. repeat split.
Qed.

Lemma call_on_reaches (self : Jittor.JittorDataLoader) (c : Jittor.ref)
      (f : Collator -> Collator) (h : store) :
  Jittor.reaches_collator self (Jittor.call_on c f h)
  = Jittor.reaches_collator self h
  /\ Jittor.underlying self (Jittor.call_on c f h) = Jittor.underlying self h.
Proof.
  unfold Jittor.reaches_collator, Jittor.underlying.
  destruct (call_on_collator c f h (Jittor.collate_fn self))
    as (_ & -> & ->).
  destruct (Jittor.wrapped_of (Jittor.collate_fn self) h) as [inner |];
    [| split; reflexivity].
  destruct (call_on_collator c f h inner) as (_ & _ & ->).
  split; reflexivity.
Qed.

(** X11. When [collate_fn] reaches a Collator, [set_pad] updates that
    Collator in place: behind the returned reference the store now holds
    the Collator with the setter applied, every other object is as it
    was, and the loader still reaches the same Collator.  A following
    [set_ignore] therefore returns the same reference, and the Collator
    behind it has received both calls, in order. *)
Theorem set_pad_then_set_ignore
        (self : Jittor.JittorDataLoader) (h : store) (args : PadArgs)
        (field_names : FieldNames) (old : Collator) :
  Jittor.reaches_collator self h = true ->
  let c := Jittor.underlying self h in
  collator_at c h = Some old ->
  let h1 := snd (set_pad self args h) in
  let h2 := snd (set_ignore self field_names h1) in
  fst (set_pad self args h) = Ok c
  /\ collator_at c h1 = Some (collator_set_pad old args)
  /\ (forall r, r <> c ->
                collator_at r h1 = collator_at r h
                /\ Jittor.wrapped_of r h1 = Jittor.wrapped_of r h)
  /\ fst (set_ignore self field_names h1) = Ok c
  /\ collator_at c h2
     = Some (collator_set_ignore (collator_set_pad old args) field_names).
Proof.
  intros Hr c Hold h1 h2.
  pose proof (underlying_is_collator _ _ _ Hr) as Hc. fold c in Hc.
  assert (Hpad : set_pad self args h
                 = (Ok c, Jittor.call_on c
                            (fun x => collator_set_pad x args) h)).
  { unfold Jittor.set_pad. rewrite get_collator_reaches, Hr.
    fold c. now rewrite Hc. }
  subst h2 h1. rewrite Hpad. cbn [fst snd].
  destruct (call_on_reaches self c (fun x => collator_set_pad x args) h)
    as [Hr1 Hu1].
  assert (Hign : set_ignore self field_names
                   (Jittor.call_on c (fun x => collator_set_pad x args) h)
                 = (Ok c, Jittor.call_on c
                            (fun x => collator_set_ignore x field_names)
                            (Jittor.call_on c
                               (fun x => collator_set_pad x args) h))).
  { unfold Jittor.set_ignore. rewrite get_collator_reaches, Hr1, Hr, Hu1.
    fold c.
    destruct (call_on_collator c (fun x => collator_set_pad x args) h c)
      as (_ & _ & ->).
    now rewrite Hc. }
  rewrite Hign. cbn [fst snd].
  split; [reflexivity |]. split; [| split; [| split]].
  - destruct (call_on_collator c (fun x => collator_set_pad x args) h c)
      as (-> & _). rewrite Nat.eqb_refl, Hold. reflexivity.
  - intros r Hne.
    destruct (call_on_collator c (fun x => collator_set_pad x args) h r)
      as (-> & -> & _).
    apply Nat.eqb_neq in Hne. rewrite Hne. split; reflexivity.
  - reflexivity.
  - destruct (call_on_collator c (fun x => collator_set_ignore x field_names)
                (Jittor.call_on c (fun x => collator_set_pad x args) h) c)
      as (-> & _).
    destruct (call_on_collator c (fun x => collator_set_pad x args) h c)
      as (-> & _).
    rewrite !Nat.eqb_refl, Hold. reflexivity.
Qed.

End LoaderStore.

Section LoaderConstruction.

Variable Collator : Type.
Variable PadArgs : Type.
Variable FieldNames : Type.
Variable collator_set_pad : Collator -> PadArgs -> Collator.
Variable collator_set_ignore : Collator -> FieldNames -> Collator.
Variable jittor_collator : Collator.
Variable collator_set_backend : Collator -> Collator.

Local Abbreviation set_pad := (Jittor.set_pad collator_set_pad).
Local Abbreviation set_ignore := (Jittor.set_ignore collator_set_ignore).
Local Abbreviation store := (Jittor.store Collator).
Local Abbreviation collator_at := (@JittorLoader.collator_at Collator).
Local Abbreviation init :=
  (JittorLoader.__init__ jittor_collator collator_set_backend).

(** X12. [JittorDataLoader.__init__] returns a loader exactly when the
    dataset is not already a [_JittorDataset], has a length, is not a
    fastNLP [DataSet] given without [collate_fn], and a [collate_fn] given
    as a string is 'auto'.  A dataset that is already wrapped is never
    accepted: [self.dataset] is not assigned for it, and the constructor
    raises [AttributeError] (or [ValueError] for a string other than
    'auto') after [set_attrs(batch_size=1)] was called on the argument. *)
Theorem loader_constructor_accepts
        (collate_batch : Jittor.ref) (d : JittorLoader.dataset)
        (attrs : JittorLoader.loader_attrs)
        (collate_fn : JittorLoader.collate_arg) (h : store) :
  let r := init collate_batch d attrs collate_fn h in
  is_ok (fst (fst r)) = loader_args_ok d collate_fn
  /\ (JittorLoader.is_wrapper d = true ->
      snd r = [JittorLoader.ArgumentBatchSizeOne]
      /\ fst (fst r)
         = match collate_fn with
           | JittorLoader.CollateStr s =>
               if String.eqb s "auto" then JittorLoader.no_dataset
               else Raise (ValueError
                             (fstring ["collate_fn: "; s; " must be 'auto'"]))
           | _ => JittorLoader.no_dataset
           end).
Proof.
  unfold JittorLoader.__init__, loader_args_ok, JittorLoader.is_wrapper,
    JittorLoader.is_FDataSet, JittorLoader.is_jittor_Dataset,
    JittorLoader.wrap, JittorLoader.alloc.
  destruct d as [[c | | |] [n |]]; destruct collate_fn as [| s | f |];
    cbn [JittorLoader.ds_kind JittorLoader.ds_len JittorLoader.inner
         andb negb is_some fst snd is_ok];
    try destruct (String.eqb s "auto");
    cbn [fst snd is_ok andb]; split; try reflexivity; try discriminate;
    intros _; split; reflexivity.
Qed.

Lemma deref_bound (r : Jittor.ref) (h : store) (o : Jittor.object Collator) :
  Jittor.deref r h = Some o -> (r < JittorLoader.fresh h)%nat.
Proof.
  unfold JittorLoader.fresh. induction h as [| [r0 o0] h IH]; cbn;
    [discriminate |].
  destruct (Nat.eqb_spec r r0) as [-> | Hne]; [lia |].
  intros H. apply IH in H. lia.
Qed.

Lemma deref_fresh (h : store) : Jittor.deref (JittorLoader.fresh h) h = None.
Proof.
  destruct (Jittor.deref (JittorLoader.fresh h) h) as [o |] eqn:H;
    [| reflexivity].
  apply deref_bound in H. lia.
Qed.

Lemma deref_snoc (r r' : Jittor.ref) (o : Jittor.object Collator) (h : store) :
  Jittor.deref r' (h ++ [(r, o)])
  = match Jittor.deref r' h with
    | Some x => Some x
    | None => if Nat.eqb r' r then Some o else None
    end.
Proof.
  induction h as [| [r0 o0] h IH]; cbn; [reflexivity |].
  destruct (Nat.eqb r' r0); [reflexivity | exact IH].
Qed.

Lemma set_pad_ok (self : Jittor.JittorDataLoader) (args : PadArgs)
      (field_names : FieldNames) (h : store) :
  is_ok (fst (set_pad self args h)) = Jittor.reaches_collator self h
  /\ is_ok (fst (set_ignore self field_names h))
     = Jittor.reaches_collator self h.
Proof.
  unfold Jittor.set_pad, Jittor.set_ignore. rewrite get_collator_reaches.
  destruct (Jittor.reaches_collator self h) eqn:Hr; [| split; reflexivity].
  rewrite (underlying_is_collator _ _ _ Hr). split; reflexivity.
Qed.

(** X13. With [collate_fn='auto'], a dataset that has a length and is not
    already wrapped always gives a loader whose [collate_fn] is a
    Collator, so that [set_pad] and [set_ignore] are allowed on it.  For a
    fastNLP [DataSet] this is the dataset's own Collator, shared with it
    and switched to the jittor backend; for any other dataset it is a new
    Collator under a reference the store did not hold.  No other object of
    the store is touched, and no batch indices are recorded yet. *)
Theorem auto_collate_fn_is_a_collator
        (collate_batch : Jittor.ref) (d : JittorLoader.dataset)
        (attrs : JittorLoader.loader_attrs) (h : store) (n : Z)
        (args : PadArgs) (field_names : FieldNames) :
  JittorLoader.is_wrapper d = false ->
  JittorLoader.ds_len d = Some n ->
  (forall c, JittorLoader.ds_kind d = JittorLoader.FastNLPDataSet c ->
             Jittor.isinstance_Collator c h = true) ->
  let r := init collate_batch d attrs (JittorLoader.CollateStr "auto") h in
  let h' := snd (fst r) in
  exists self,
    fst (fst r) = Ok self
    /\ JittorLoader.wrapped self
       = {| JittorLoader.inner := d; JittorLoader.total_len := n |}
    /\ JittorLoader.get_batch_indices self = None
    /\ Jittor.isinstance_Collator
         (Jittor.collate_fn (JittorLoader.base self)) h' = true
    /\ is_ok (fst (set_pad (JittorLoader.base self) args h')) = true
    /\ is_ok (fst (set_ignore (JittorLoader.base self) field_names h')) = true
    /\ match JittorLoader.ds_kind d with
       | JittorLoader.FastNLPDataSet c =>
           Jittor.collate_fn (JittorLoader.base self) = c
           /\ collator_at c h'
              = option_map collator_set_backend (collator_at c h)
       | _ =>
           Jittor.deref (Jittor.collate_fn (JittorLoader.base self)) h = None
           /\ collator_at (Jittor.collate_fn (JittorLoader.base self)) h'
              = Some jittor_collator
       end
    /\ forall r0, r0 <> Jittor.collate_fn (JittorLoader.base self) ->
                  Jittor.deref r0 h' = Jittor.deref r0 h.
Proof.
  intros Hw Hlen Hc r h'. subst h' r.
  unfold JittorLoader.__init__, JittorLoader.wrap, JittorLoader.alloc.
  rewrite Hw, Hlen.
  replace (JittorLoader.is_FDataSet d && false) with false
    by (now rewrite andb_false_r).
  cbn [String.eqb Ascii.eqb Bool.eqb andb JittorLoader.inner].
  assert (Hcoll : forall self h1,
             Jittor.isinstance_Collator (Jittor.collate_fn self) h1 = true ->
             is_ok (fst (set_pad self args h1)) = true
             /\ is_ok (fst (set_ignore self field_names h1)) = true).
  { intros self h1 H. destruct (set_pad_ok self args field_names h1)
      as [-> ->]. unfold Jittor.reaches_collator. rewrite H. auto. }
  destruct (JittorLoader.ds_kind d) as [c | | |] eqn:Hk.
  1:{ specialize (Hc c eq_refl).
      destruct (call_on_collator _ c collator_set_backend h c)
        as (Hat & _ & Hinst).
      rewrite Nat.eqb_refl in Hat.
      eexists. split; [reflexivity |].
      cbn [fst snd JittorLoader.wrapped JittorLoader.base
           JittorLoader.get_batch_indices Jittor.collate_fn
           Jittor.cur_batch_indices].
      split; [reflexivity |]. split; [reflexivity |].
      rewrite Hinst. split; [exact Hc |].
      destruct (Hcoll {| Jittor.collate_fn := c;
                         Jittor.cur_batch_indices := None |}
                  (Jittor.call_on c collator_set_backend h)) as [H1 H2];
        [cbn; now rewrite Hinst |].
      split; [exact H1 |]. split; [exact H2 |].
      split; [split; [reflexivity | exact Hat] |].
      intros r0 Hne. unfold Jittor.call_on.
      destruct (Jittor.deref c h) as [o |]; [| reflexivity].
      destruct (Jittor.as_collator Collator o); [| reflexivity].
      rewrite deref_assign. apply Nat.eqb_neq in Hne. now rewrite Hne. }
  all: eexists; split; [reflexivity |];
    cbn [fst snd JittorLoader.wrapped JittorLoader.base
         JittorLoader.get_batch_indices Jittor.collate_fn
         Jittor.cur_batch_indices];
    split; [reflexivity |]; split; [reflexivity |];
    assert (Hnew : Jittor.deref (JittorLoader.fresh h)
                     (h ++ [(JittorLoader.fresh h,
                             {| Jittor.as_collator := Some jittor_collator;
                                Jittor.__wrapped__ := None |})])
                   = Some {| Jittor.as_collator := Some jittor_collator;
                             Jittor.__wrapped__ := None |})
      by (rewrite deref_snoc, deref_fresh, Nat.eqb_refl; reflexivity);
    assert (Hinst : Jittor.isinstance_Collator (JittorLoader.fresh h)
                      (h ++ [(JittorLoader.fresh h,
                              {| Jittor.as_collator := Some jittor_collator;
                                 Jittor.__wrapped__ := None |})]) = true)
      by (unfold Jittor.isinstance_Collator; now rewrite Hnew);
    (split; [exact Hinst |]);
    destruct (Hcoll {| Jittor.collate_fn := JittorLoader.fresh h;
                       Jittor.cur_batch_indices := None |}
                (h ++ [(JittorLoader.fresh h,
                        {| Jittor.as_collator := Some jittor_collator;
                           Jittor.__wrapped__ := None |})]) Hinst)
      as [H1 H2];
    (split; [exact H1 |]); (split; [exact H2 |]);
    (split; [split; [apply deref_fresh
                    | unfold JittorLoader.collator_at; now rewrite Hnew] |]);
    intros r0 Hne; rewrite deref_snoc;
    destruct (Jittor.deref r0 h); [reflexivity |];
    apply Nat.eqb_neq in Hne; now rewrite Hne.
Qed.

(** X14. For a dataset that has a length and is not already wrapped: a
    callable [collate_fn] is kept as it is given; without one (or with a
    value that is neither a string nor callable) the loader takes
    jittor's [collate_batch], on which, being a plain function, [set_pad]
    and [set_ignore] raise [ValueError]; a fastNLP [DataSet] given with
    [collate_fn=None] is refused with [ValueError].  The store is
    untouched in each case. *)
Theorem given_collate_fn_is_kept
        (collate_batch : Jittor.ref) (d : JittorLoader.dataset)
        (attrs : JittorLoader.loader_attrs) (h : store) (n : Z)
        (args : PadArgs) (field_names : FieldNames) :
  JittorLoader.is_wrapper d = false ->
  JittorLoader.ds_len d = Some n ->
  let calls := if JittorLoader.is_jittor_Dataset d
               then [JittorLoader.ArgumentBatchSizeOne] else [] in
  let loader_with f :=
    {| JittorLoader.base := {| Jittor.collate_fn := f;
                               Jittor.cur_batch_indices := None |};
       JittorLoader.wrapped := {| JittorLoader.inner := d;
                                  JittorLoader.total_len := n |} |} in
  (forall f,
      init collate_batch d attrs (JittorLoader.CollateCallable f) h
      = (Ok (loader_with f), h, calls ++ [JittorLoader.WrapperAttrs attrs]))
  /\ init collate_batch d attrs JittorLoader.CollateOther h
     = (Ok (loader_with collate_batch), h,
        calls ++ [JittorLoader.WrapperAttrs attrs])
  /\ init collate_batch d attrs JittorLoader.CollateNone h
     = (if JittorLoader.is_FDataSet d
        then (Raise (ValueError
                       "When use FastNLP DataSet, collate_fn must be not None"),
              h, calls)
        else (Ok (loader_with collate_batch), h,
              calls ++ [JittorLoader.WrapperAttrs attrs]))
  /\ (plain_function collate_batch h ->
      (exists msg,
          set_pad (JittorLoader.base (loader_with collate_batch)) args h
          = (Raise (ValueError msg), h))
      /\ (exists msg,
             set_ignore (JittorLoader.base (loader_with collate_batch))
               field_names h
             = (Raise (ValueError msg), h))).
Proof.
  intros Hw Hlen calls loader_with. subst calls loader_with.
  unfold JittorLoader.__init__, JittorLoader.wrap. rewrite Hw, Hlen.
  rewrite !andb_false_r, andb_true_r.
  split; [reflexivity |]. split; [reflexivity |].
  split; [now destruct (JittorLoader.is_FDataSet d) |].
  intros [Hnot Hnone]. cbn [JittorLoader.base].
  unfold Jittor.set_pad, Jittor.set_ignore. rewrite get_collator_reaches.
  unfold Jittor.reaches_collator. cbn [Jittor.collate_fn].
  rewrite Hnot, Hnone. cbn. split; eauto.
Qed.

End LoaderConstruction.

Section LoaderIteration.

Variable Data : Type.

Local Abbreviation generator := (JittorLoader.generator Data).

Lemma nexts_suspended (k : nat) (rest : list (list Z * Data))
      (self : JittorLoader.loader) :
  let '(data, _, self', calls) :=
    JittorLoader.nexts k (JittorLoader.Suspended rest) self in
  data = map snd (firstn k rest)
  /\ calls = []
  /\ Jittor.collate_fn (JittorLoader.base self')
     = Jittor.collate_fn (JittorLoader.base self)
  /\ JittorLoader.get_batch_indices self'
     = match rev (firstn k rest) with
       | (indices, _) :: _ => Some indices
       | [] => JittorLoader.get_batch_indices self
       end.
Proof.
  revert rest self. induction k as [| k IH]; intros rest self.
  - cbn. auto.
  - destruct rest as [| [indices data] rest]; [cbn; auto |].
    cbn [JittorLoader.nexts JittorLoader.next JittorLoader.resume].
    specialize (IH rest (JittorLoader.with_indices self indices)).
    destruct (JittorLoader.nexts k (JittorLoader.Suspended rest)
                (JittorLoader.with_indices self indices))
      as [[[ds g'] self'] calls'].
    destruct IH as (-> & -> & Hf & Hi).
    cbn [firstn map snd app]. split; [reflexivity |]. split; [reflexivity |].
    split; [exact Hf |]. rewrite Hi. cbn [rev].
    destruct (rev (firstn k rest)) as [| [i0 d0] l]; reflexivity.
Qed.

(** X15. Iterating a loader: [k >= 1] calls of [next] on a new generator
    yield the data of the first [k] batches in order, and afterwards
    [get_batch_indices] returns the indices of the last batch yielded
    (what it returned before, when there was no batch).  The wrapped
    [collate_fn] is handed to the dataset only at the start of a generator
    and only while no batch indices are recorded: once a batch was
    yielded, a later generator hands nothing over, even after
    [collate_fn] was replaced. *)
Theorem iteration_records_indices
        (k : nat) (batches : list (list Z * Data))
        (self : JittorLoader.loader) :
  (0 < k)%nat ->
  let '(data, _, self', calls) :=
    JittorLoader.nexts k (JittorLoader.NotStarted batches) self in
  data = map snd (firstn k batches)
  /\ calls = match JittorLoader.get_batch_indices self with
             | None => [JittorLoader.WrapperCollate
                          (Jittor.collate_fn (JittorLoader.base self))]
             | Some _ => []
             end
  /\ JittorLoader.get_batch_indices self'
     = match rev (firstn k batches) with
       | (indices, _) :: _ => Some indices
       | [] => JittorLoader.get_batch_indices self
       end
  /\ (batches <> [] ->
      forall (f : Jittor.ref) (k' : nat) (batches' : list (list Z * Data)),
        snd (JittorLoader.nexts k' (JittorLoader.NotStarted batches')
               (JittorLoader.with_collate_fn self' f)) = []).
Proof.
  intros Hk. destruct k as [| k]; [lia |].
  cbn [JittorLoader.nexts JittorLoader.next].
  unfold JittorLoader.get_batch_indices at 1.
  set (calls0 := match Jittor.cur_batch_indices (JittorLoader.base self) with
                 | None => [JittorLoader.WrapperCollate
                              (Jittor.collate_fn (JittorLoader.base self))]
                 | Some _ => []
                 end).
  destruct batches as [| [indices data] rest];
    cbn [JittorLoader.resume firstn map snd rev].
  - repeat split. intros H. congruence.
  - pose proof (nexts_suspended k rest
                  (JittorLoader.with_indices self indices)) as Hrest.
    destruct (JittorLoader.nexts k (JittorLoader.Suspended rest)
                (JittorLoader.with_indices self indices))
      as [[[ds g'] self'] calls'].
    destruct Hrest as (-> & -> & _ & Hi).
    rewrite app_nil_r.
    split; [reflexivity |]. split; [reflexivity |]. split.
    + rewrite Hi. cbn.
      destruct (rev (firstn k rest)) as [| [i0 d0] l]; reflexivity.
    + intros _ f k' batches'.
      assert (Hsome : exists i, JittorLoader.get_batch_indices self' = Some i).
      { rewrite Hi. cbn.
        destruct (rev (firstn k rest)) as [| [i0 d0] l]; eauto. }
      destruct Hsome as [i Hsome].
      destruct k' as [| k']; [reflexivity |].
      cbn [JittorLoader.nexts JittorLoader.next JittorLoader.with_collate_fn
           JittorLoader.base Jittor.cur_batch_indices].
      unfold JittorLoader.get_batch_indices in Hsome. rewrite Hsome.
      destruct batches' as [| [i' d'] rest']; cbn [JittorLoader.resume];
        [reflexivity |].
      pose proof (nexts_suspended k' rest'
                    (JittorLoader.with_indices
                       (JittorLoader.with_collate_fn self' f) i')) as H2.
      cbn [JittorLoader.with_collate_fn] in H2.
      destruct (JittorLoader.nexts k' (JittorLoader.Suspended rest') _)
        as [[[ds2 g2] self2] calls2].
      destruct H2 as (_ & -> & _). reflexivity.
Qed.

End LoaderIteration.

(** The dataloader at concrete stores *)

Lemma set_pad_then_set_ignore_witness :
  let self := {| Jittor.collate_fn := 1%nat;
                 Jittor.cur_batch_indices := None |} in
  let h1 := snd (Jittor.set_pad recorded_set_pad self "words" demo_store) in
  let h2 := snd (Jittor.set_ignore recorded_set_ignore self ["id"] h1) in
  fst (Jittor.set_pad recorded_set_pad self "words" demo_store) = Ok 0%nat
  /\ fst (Jittor.set_ignore recorded_set_ignore self ["id"] h1) = Ok 0%nat
  /\ JittorLoader.collator_at 0%nat h2
     = Some ["backend=auto"; "set_pad words"; "set_ignoreid"].
Proof.
  cbv zeta.
  destruct (set_pad_then_set_ignore (list string) string (list string)
              recorded_set_pad recorded_set_ignore
              {| Jittor.collate_fn := 1%nat;
                 Jittor.cur_batch_indices := None |}
              demo_store "words" ["id"] ["backend=auto"]
              eq_refl eq_refl) as (H1 & _ & _ & H2 & H3).
  split; [exact H1 |]. split; [exact H2 |]. exact H3.
Defined.

Lemma auto_collate_fn_is_a_collator_witness :
  let r := JittorLoader.__init__ ["backend=jittor"] recorded_set_backend
             2%nat fast_dataset demo_attrs (JittorLoader.CollateStr "auto")
             demo_store in
  exists self,
    fst (fst r) = Ok self
    /\ Jittor.collate_fn (JittorLoader.base self) = 0%nat
    /\ JittorLoader.collator_at 0%nat (snd (fst r))
       = Some ["backend=auto"; "set_backend jittor"]
    /\ is_ok (fst (Jittor.set_pad recorded_set_pad (JittorLoader.base self)
                     "words" (snd (fst r)))) = true.
Proof.
  cbv zeta.
  destruct (auto_collate_fn_is_a_collator (list string) string (list string)
              recorded_set_pad recorded_set_ignore ["backend=jittor"]
              recorded_set_backend 2%nat fast_dataset demo_attrs demo_store
              100 "words" ["id"] eq_refl eq_refl)
    as (self & Hok & _ & _ & _ & Hpad & _ & Hkind & _).
  - intros c Hc. injection Hc as <-. reflexivity.
  - exists self. split; [exact Hok |]. cbn in Hkind.
    destruct Hkind as [Hf Hat]. split; [exact Hf |].
    split; [exact Hat | exact Hpad].
Defined.

Lemma given_collate_fn_is_kept_witness :
  let r := JittorLoader.__init__ ["backend=jittor"] recorded_set_backend
             2%nat list_dataset demo_attrs JittorLoader.CollateNone
             demo_store in
  exists self msg,
    r = (Ok self, demo_store, [JittorLoader.WrapperAttrs demo_attrs])
    /\ Jittor.collate_fn (JittorLoader.base self) = 2%nat
    /\ Jittor.set_pad recorded_set_pad (JittorLoader.base self) "words"
         demo_store
       = (Raise (ValueError msg), demo_store).
Proof.
  cbv zeta.
  destruct (given_collate_fn_is_kept (list string) string (list string)
              recorded_set_pad recorded_set_ignore ["backend=jittor"]
              recorded_set_backend 2%nat list_dataset demo_attrs demo_store
              100 "words" ["id"] eq_refl eq_refl)
    as (_ & _ & Hnone & Hplain).
  destruct (Hplain (conj eq_refl eq_refl)) as [[msg Hpad] _].
  eexists. exists msg. split; [exact Hnone |]. split; [reflexivity |].
  exact Hpad.
Defined.

Lemma iteration_records_indices_witness :
  let self := {| JittorLoader.base := {| Jittor.collate_fn := 0%nat;
                                         Jittor.cur_batch_indices := None |};
                 JittorLoader.wrapped :=
                   {| JittorLoader.inner := list_dataset;
                      JittorLoader.total_len := 100 |} |} in
  let '(data, _, self', calls) :=
    JittorLoader.nexts 2 (JittorLoader.NotStarted
                            [([0; 1], "a b"); ([2; 3], "c d");
                             ([4; 5], "e f")]) self in
  data = ["a b"; "c d"]
  /\ calls = [JittorLoader.WrapperCollate 0%nat]
  /\ JittorLoader.get_batch_indices self' = Some [2; 3].
Proof.
  cbv zeta.
  pose proof (iteration_records_indices string 2
                [([0; 1], "a b"); ([2; 3], "c d"); ([4; 5], "e f")]
                {| JittorLoader.base := {| Jittor.collate_fn := 0%nat;
                                           Jittor.cur_batch_indices := None |};
                   JittorLoader.wrapped :=
                     {| JittorLoader.inner := list_dataset;
                        JittorLoader.total_len := 100 |} |}
                ltac:(lia)) as H.
  destruct (JittorLoader.nexts 2 _ _) as [[[data g] self'] calls].
  destruct H as (Hd & Hc & Hi & _).
  split; [exact Hd |]. split; [exact Hc |]. exact Hi.
Defined.

(* ================================================================= *)
(** * The name of a callback and the sanity check *)

Lemma string_append_assoc (a b c : string) :
  ((a ++ b) ++ c)%string = (a ++ (b ++ c))%string.
Proof. induction a as [| x a IH]; cbn; [reflexivity | now rewrite IH]. Qed.

Lemma string_length_append (a b : string) :
  String.length (a ++ b) = (String.length a + String.length b)%nat.
Proof. induction a as [| x a IH]; cbn; [reflexivity | now rewrite IH]. Qed.

Lemma true_false_suffix (a b : string) :
  (a ++ "True")%string <> (b ++ "False")%string.
Proof.
  intros H.
  assert (Hlen : String.length a = S (String.length b)).
  { apply (f_equal String.length) in H.
    rewrite !string_length_append in H. cbn in H. lia. }
  pose proof (append_correct2 a "True" 0) as H1.
  pose proof (append_correct2 b "False" 1) as H2.
  rewrite H in H1. cbn [Nat.add] in H1, H2. rewrite Hlen in H1.
  rewrite <- H1 in H2. cbn in H2. discriminate.
Qed.

(** X16. [callback_name] depends on nothing but the strategy, the
    monitor, the top-K width and [only_state_dict]: callbacks that agree
    on these bear the same name whatever their folder, intervals,
    allow-list, comparison direction and current state.  A model callback
    and a trainer callback never bear the same name, nor do two callbacks
    that differ in [only_state_dict]. *)
Theorem callback_name_identifies (s1 s2 : CheckpointCallback) :
  (kind s1 = kind s2 -> monitor s1 = monitor s2 ->
   save_topk s1 = save_topk s2 -> only_state_dict s1 = only_state_dict s2 ->
   callback_name s1 = callback_name s2)
  /\ (kind s1 <> kind s2 -> callback_name s1 <> callback_name s2)
  /\ (only_state_dict s1 <> only_state_dict s2 ->
      callback_name s1 <> callback_name s2).
Proof.
  unfold callback_name, fstring. cbn [String.concat].
  split; [| split].
  - intros -> -> -> ->. reflexivity.
  - destruct (kind s1), (kind s2); intros Hk; try congruence;
      cbn; discriminate.
  - intros Hb H.
    repeat rewrite <- string_append_assoc in H.
    destruct (only_state_dict s1), (only_state_dict s2); try congruence;
      cbn [str_bool] in H.
    + now apply true_false_suffix in H.
    + symmetry in H. now apply true_false_suffix in H.
Qed.

Section SanityCheckProperties.

Variable Res : Type.
Variable _get_monitor_value :
  option string -> option string -> Res -> res (option string * metric).

(** The sanity check only looks the monitor up: when the resolver
    finds it, the callback pins the key found and nothing else changes,
    neither the retention mapping nor its count, and nothing is saved,
    whatever [save_topk] is; when the resolver raises, the exception comes
    out and the callback is untouched. *)
Lemma sanity_check_only_pins_monitor (sanity_check_res : Res) (m : machine) :
  on_sanity_check_end Res _get_monitor_value sanity_check_res m
  = match _get_monitor_value (monitor (self_of m)) (_real_monitor (self_of m))
            sanity_check_res with
    | Ok p => (Ok tt, {| self_of := with_real_monitor (self_of m) (fst p);
                         os := os m |})
    | Raise e => (Raise e, m)
    end.
Proof.
  unfold on_sanity_check_end, _get_validate_metric. run_monad.
  destruct (_get_monitor_value _ _ _); reflexivity.
Qed.

End SanityCheckProperties.
